(** * Taxi dispatch back end: ride/shift state machine and driver-report
      reconciliation

    A shallow embedding of the controllers and services of the back end
    (rideController.js, shiftController.js, driverReportController.js,
    reportCalculationService.js, settingsController.js and the Mongoose
    models they use), with the properties of the specification stated and
    proved over it.

    Conventions of the embedding.
    - A JavaScript number that carries money is an exact rational [Q]; the
      arithmetic of the source is read as exact arithmetic.  Every concrete
      input used below to separate the code from a statement only involves
      values that binary floating point represents exactly at the steps that
      decide the outcome (for instance 2.5, 1.125, 1.375, 12.25, 6.125).
    - [undefined], [null] and non-numeric values of an optional field are
      [None].
    - [new Date()] is a parameter [now] of the handlers.
    - Collections of the document store are finite maps keyed by [_id], or
      lists in insertion order where the order of a query result matters.
    - Notifications are not part of the state that is modelled. *)

From Stdlib Require Import ZArith QArith Qround Qabs Lia Lqa Bool List.
From stdpp Require Import gmap strings.
Import ListNotations.

Open Scope Q_scope.

(** ** Results of code that may throw *)

Inductive result (A : Type) : Type :=
| Return (a : A)
| Throw (message : string).
Arguments Return {A} a.
Arguments Throw {A} message.

(** ** Numbers: the utilities at the end of reportCalculationService.js and
       [toFixed(2)] *)

Module Num.

(** [a < b] on numbers, as a boolean. *)
Definition Qltb (a b : Q) : bool := negb (Qle_bool b a).

(** [Number.EPSILON], which is 2^-52. *)
Definition EPSILON : Q := 1 # 4503599627370496.

(** [Math.round]: the nearest integer, a tie going towards plus infinity. *)
Definition Math_round (y : Q) : Z := Qfloor (y + (1 # 2)).

(** [round2(number)]:
    [Math.round((Number(number) + Number.EPSILON) * 100) / 100]. *)
Definition round2 (number : Q) : Q :=
  inject_Z (Math_round ((number + EPSILON) * 100)) / 100.

(** [Number(x.toFixed(2))]: the nearest multiple of 0.01, a tie going to
    the larger magnitude; [toFixed] treats the sign apart. *)
Definition toFixed2 (x : Q) : Q :=
  if Qltb x 0
  then - (inject_Z (Qfloor ((- x) * 100 + (1 # 2))) / 100)
  else inject_Z (Qfloor (x * 100 + (1 # 2))) / 100.

(** [num(v)]: [parseFloat(v ?? 0)], and 0 when that is not finite. *)
Definition num (v : option Q) : Q :=
  match v with Some n => n | None => 0 end.

(** [int(v)]: [parseInt(v ?? 0, 10)], and 0 when that is not finite.  The
    trip count is an integer by the schema of the report. *)
Definition int (v : option Z) : Z :=
  match v with Some n => n | None => 0%Z end.


End Num.

(** ** The reconciliation engine: reportCalculationService.js *)

Module Reconciliation.
Import Num.

(** A reading with its proof photo, [{ amount, photoUrl }].  An absent
    sub-document and an absent [amount] are both [None]: the source reads
    them through [?.], which makes them the same value. *)
Record Metered : Type := {
  amount : option Q;
  photoUrl : option string
}.

Inductive ReportStatus : Type :=
| draft | submitted | approved | rejected | archived.

Record Settings : Type := {
  rentalRatePercentage : Q;
  tripLevyRate : Q
}.

Definition DEFAULT_SETTINGS : Settings :=
  {| rentalRatePercentage := 45; tripLevyRate := 132 # 100 |}.

(** The [breakdown] object of a calculation (the two display strings
    [rentalRate] and [tripLevyRate] are left out). *)
Record Breakdown : Type := {
  shiftStart : Q;
  shiftEnd : Q;
  shiftDifference : Q;
  bd_liftings : Q;
  bd_cashFares : Q;
  bd_totalEFTPOS : Q;
  bd_totalAccountTrips : Q;
  bd_cashExpenses : Q;
  bd_totalTripsCount : Z
}.

(** The calculations object ([calculatedAt] is left out). *)
Record Calculations : Type := {
  shiftTotalFares : Q;
  totalFareAndLiftings : Q;
  rentals : Q;
  subTotal : Q;
  tripLevy : Q;
  driverNetPay : Q;
  operatorEarnings : Q;
  rentalRateUsed : Q;
  partial : bool;
  breakdown : Breakdown
}.

(** A driver report document (models/DriverReport.js); it is also the
    [reportData] the calculation service is called with. *)
Record Report : Type := {
  reportId : string;
  driver : string;
  status : ReportStatus;
  taxiNumber : string;
  shiftStartTotal : Metered;
  shiftEndTotal : Metered;
  liftings : option Q;
  cashFares : option Q;
  totalEFTPOS : Metered;
  totalAccountTrips : option Q;
  cashExpenses : Metered;
  totalTripsCount : option Z;
  calculations : option Calculations;
  notes : option string;
  submittedAt : option nat
}.

(** [canCalculateTotals(reportData)].  [num] never returns a value that is
    not finite, so the two [isFinite] tests of the source are [true]. *)
Definition canCalculateTotals (reportData : option Report) : bool :=
  match reportData with
  | None => false
  | Some reportData =>
      let start := num (amount (shiftStartTotal reportData)) in
      let end_ := num (amount (shiftEndTotal reportData)) in
      true && true && Qle_bool start end_
  end.

(** [zeroCalcs(settings, breakdownOverrides)]; the spread of the overrides
    over the zero breakdown is a function applied to it. *)
Definition zeroCalcs (settings : Settings)
    (breakdownOverrides : Breakdown -> Breakdown) : Calculations :=
  {| shiftTotalFares := 0;
     totalFareAndLiftings := 0;
     rentals := 0;
     subTotal := 0;
     tripLevy := 0;
     driverNetPay := 0;
     operatorEarnings := 0;
     rentalRateUsed := rentalRatePercentage settings;
     partial := true;
     breakdown := breakdownOverrides
       {| shiftStart := 0; shiftEnd := 0; shiftDifference := 0;
          bd_liftings := 0; bd_cashFares := 0; bd_totalEFTPOS := 0;
          bd_totalAccountTrips := 0; bd_cashExpenses := 0;
          bd_totalTripsCount := 0 |} |}.

(** The [catch] of [calculateReportTotals]: every error is thrown again
    with a prefix. *)
Definition rethrow {A : Type} (r : result A) : result A :=
  match r with
  | Return a => Return a
  | Throw message =>
      Throw ("Failed to calculate report totals: " ++ message)%string
  end.

(** [calculateReportTotals(reportData, customSettings, { allowPartial })].
    [settings] is the value of
    [customSettings || (await getCalculationSettings())]. *)
Definition calculateReportTotals (reportData : option Report)
    (settings : Settings) (allowPartial : bool) : result Calculations :=
  rethrow
    match reportData with
    | None => Throw "Invalid report data provided"
    | Some rd =>
        let shiftStartTotal := num (amount (shiftStartTotal rd)) in
        let shiftEndTotal := num (amount (shiftEndTotal rd)) in
        let liftings := num (liftings rd) in
        let cashFares := num (cashFares rd) in
        let totalEFTPOS := num (amount (totalEFTPOS rd)) in
        let totalAccountTrips := num (totalAccountTrips rd) in
        let cashExpenses := num (amount (cashExpenses rd)) in
        let totalTripsCount := int (totalTripsCount rd) in
        if negb (canCalculateTotals reportData) then
          if allowPartial then
            Return (zeroCalcs settings (fun b =>
              {| shiftStart := shiftStartTotal;
                 shiftEnd := shiftEndTotal;
                 shiftDifference := shiftDifference b;
                 bd_liftings := liftings;
                 bd_cashFares := cashFares;
                 bd_totalEFTPOS := totalEFTPOS;
                 bd_totalAccountTrips := totalAccountTrips;
                 bd_cashExpenses := cashExpenses;
                 bd_totalTripsCount := totalTripsCount |}))
          else if true && true && Qltb shiftEndTotal shiftStartTotal then
            Throw "Shift end total cannot be less than shift start total"
          else
            Throw "Insufficient data to calculate totals"
        else
          let shiftTotalFares := shiftEndTotal - shiftStartTotal in
          let totalFareAndLiftings := shiftTotalFares + liftings + cashFares in
          let rentals :=
            (totalFareAndLiftings * rentalRatePercentage settings) / 100 in
          let subTotal :=
            rentals - (totalEFTPOS + totalAccountTrips + cashExpenses) in
          let tripLevy := inject_Z totalTripsCount * tripLevyRate settings in
          let driverNetPay := - (subTotal + tripLevy) in
          let operatorEarnings := totalFareAndLiftings - rentals in
          Return
            {| shiftTotalFares := round2 shiftTotalFares;
               totalFareAndLiftings := round2 totalFareAndLiftings;
               rentals := round2 rentals;
               subTotal := round2 subTotal;
               tripLevy := round2 tripLevy;
               driverNetPay := round2 driverNetPay;
               operatorEarnings := round2 operatorEarnings;
               rentalRateUsed := rentalRatePercentage settings;
               partial := false;
               breakdown :=
                 {| shiftStart := shiftStartTotal;
                    shiftEnd := shiftEndTotal;
                    shiftDifference := shiftTotalFares;
                    bd_liftings := liftings;
                    bd_cashFares := cashFares;
                    bd_totalEFTPOS := totalEFTPOS;
                    bd_totalAccountTrips := totalAccountTrips;
                    bd_cashExpenses := cashExpenses;
                    bd_totalTripsCount := totalTripsCount |} |}
    end.

Record Validation : Type := {
  isValid : bool;
  errors : list string
}.

(** [validateCalculations(calculations, inputData)]. *)
Definition validateCalculations (calculations : Calculations)
    (inputData : Report) : Validation :=
  let errors : list string := [] in
  let errors :=
    if Qltb (shiftTotalFares calculations) 0
    then errors ++ ["Shift total fares cannot be negative"%string]
    else errors in
  let errors :=
    if Qltb (totalFareAndLiftings calculations) 0
    then errors ++ ["Total fare and liftings cannot be negative"%string]
    else errors in
  let errors :=
    if Qltb (totalFareAndLiftings calculations) (rentals calculations)
    then errors ++ ["Rentals cannot exceed total fare and liftings"%string]
    else errors in
  let errors :=
    if (match totalTripsCount inputData with Some n => n | None => 0 end <? 0)%Z
    then errors ++ ["Total trips count cannot be negative"%string]
    else errors in
  {| isValid := Nat.eqb (length errors) 0; errors := errors |}.

End Reconciliation.

(** ** Driver reports: the model methods and the draft/submit handlers of
       driverReportController.js *)

Module DriverReports.
Import Num Reconciliation.

(** [!!s] for a string that may be absent: the empty string is falsy. *)
Definition truthy_string (s : option string) : bool :=
  match s with
  | Some s => negb (String.eqb s "")
  | None => false
  end.

(** Truthiness of a number that may be absent: 0 is falsy. *)
Definition truthy_num (v : option Q) : bool :=
  match v with
  | Some n => negb (Qeq_bool n 0)
  | None => false
  end.

Definition truthy_int (v : option Z) : bool :=
  match v with
  | Some n => negb (n =? 0)%Z
  | None => false
  end.

Definition is_some {A : Type} (v : option A) : bool :=
  match v with Some _ => true | None => false end.

(** [driverReportSchema.methods.canEdit]. *)
Definition canEdit (this : Report) : bool :=
  match status this with draft => true | _ => false end.

(** [driverReportSchema.methods.canSubmit].  [(amount || 0)] is [num]: an
    absent amount and 0 both give 0.  [undefined >= 0] is false. *)
Definition canSubmit (this : Report) : bool :=
  let hasEndMeterPhoto := truthy_string (photoUrl (shiftEndTotal this)) in
  let needsEftposPhoto := Qltb 0 (num (amount (totalEFTPOS this))) in
  let hasEftposPhoto := truthy_string (photoUrl (totalEFTPOS this)) in
  let needsExpensePhoto := Qltb 0 (num (amount (cashExpenses this))) in
  let hasExpensePhoto := truthy_string (photoUrl (cashExpenses this)) in
  match status this with draft => true | _ => false end &&
  hasEndMeterPhoto &&
  (negb needsEftposPhoto || hasEftposPhoto) &&
  (negb needsExpensePhoto || hasExpensePhoto) &&
  match totalTripsCount this with
  | Some n => (0 <=? n)%Z
  | None => false
  end.

(** What a handler does with the request:
    - [Respond http code]: it answers [res.status(http).json({ code })] and
      writes nothing;
    - [Next message]: an exception reaches [next(error)], nothing is
      written;
    - [Saved report]: it calls [report.save()] on this document and then
      answers with success (the schema validation done by [save] is not
      modelled). *)
Inductive Outcome : Type :=
| Respond (http : nat) (code : string)
| Next (message : string)
| Saved (report : Report).

(** The body of [PUT /api/driver-reports/:reportId]; a field is [None] when
    the body does not have it. *)
Record UpdateData : Type := {
  u_taxiNumber : option string;
  u_shiftStartTotal : option Metered;
  u_shiftEndTotal : option Metered;
  u_liftings : option Q;
  u_cashFares : option Q;
  u_totalEFTPOS : option Metered;
  u_totalAccountTrips : option Q;
  u_cashExpenses : option Metered;
  u_totalTripsCount : option Z;
  u_notes : option string
}.

Definition or_else {A : Type} (new : option A) (old : A) : A :=
  match new with Some v => v | None => old end.

Definition or_keep {A : Type} (new old : option A) : option A :=
  match new with Some v => Some v | None => old end.

(** [allowedFields.forEach(field => if (updateData[field] !== undefined)
    report[field] = updateData[field])]. *)
Definition applyUpdate (report : Report) (updateData : UpdateData) : Report :=
  {| reportId := reportId report;
     driver := driver report;
     status := status report;
     taxiNumber := or_else (u_taxiNumber updateData) (taxiNumber report);
     shiftStartTotal :=
       or_else (u_shiftStartTotal updateData) (shiftStartTotal report);
     shiftEndTotal :=
       or_else (u_shiftEndTotal updateData) (shiftEndTotal report);
     liftings := or_keep (u_liftings updateData) (liftings report);
     cashFares := or_keep (u_cashFares updateData) (cashFares report);
     totalEFTPOS := or_else (u_totalEFTPOS updateData) (totalEFTPOS report);
     totalAccountTrips :=
       or_keep (u_totalAccountTrips updateData) (totalAccountTrips report);
     cashExpenses := or_else (u_cashExpenses updateData) (cashExpenses report);
     totalTripsCount :=
       or_keep (u_totalTripsCount updateData) (totalTripsCount report);
     calculations := calculations report;
     notes := or_keep (u_notes updateData) (notes report);
     submittedAt := submittedAt report |}.

Definition withCalculations (report : Report) (c : Calculations) : Report :=
  {| reportId := reportId report;
     driver := driver report;
     status := status report;
     taxiNumber := taxiNumber report;
     shiftStartTotal := shiftStartTotal report;
     shiftEndTotal := shiftEndTotal report;
     liftings := liftings report;
     cashFares := cashFares report;
     totalEFTPOS := totalEFTPOS report;
     totalAccountTrips := totalAccountTrips report;
     cashExpenses := cashExpenses report;
     totalTripsCount := totalTripsCount report;
     calculations := Some c;
     notes := notes report;
     submittedAt := submittedAt report |}.

(** [updateDriverReport].  [found] is the result of
    [DriverReport.findOne({ reportId, driver: driverId })]; the calculation
    is called as [calculateReportTotals(report)], that is with the default
    [options = {}], so [allowPartial] is [false]. *)
Definition updateDriverReport (found : option Report)
    (updateData : UpdateData) (settings : Settings) : Outcome :=
  match found with
  | None => Respond 404 "REPORT_NOT_FOUND"
  | Some report =>
      if negb (canEdit report) then Respond 400 "REPORT_NOT_EDITABLE"
      else
        let report := applyUpdate report updateData in
        if is_some (u_shiftStartTotal updateData)
           || is_some (u_shiftEndTotal updateData)
           || truthy_num (u_liftings updateData)
           || truthy_num (u_cashFares updateData)
           || is_some (u_totalEFTPOS updateData)
           || truthy_num (u_totalAccountTrips updateData)
           || is_some (u_cashExpenses updateData)
           || truthy_int (u_totalTripsCount updateData)
        then
          match calculateReportTotals (Some report) settings false with
          | Throw message => Next message
          | Return calculations =>
              let validation := validateCalculations calculations report in
              if negb (isValid validation)
              then Respond 400 "CALCULATION_ERROR"
              else Saved (withCalculations report calculations)
          end
        else Saved report
  end.

(** [submitReport], again with [calculateReportTotals(report)]. *)
Definition submitReport (found : option Report) (settings : Settings)
    (now : nat) : Outcome :=
  match found with
  | None => Respond 404 "REPORT_NOT_FOUND"
  | Some report =>
      match status report with
      | draft =>
          if negb (canSubmit report) then Respond 400 "REPORT_INCOMPLETE"
          else
            match calculateReportTotals (Some report) settings false with
            | Throw message => Next message
            | Return calculations =>
                let validation := validateCalculations calculations report in
                if negb (isValid validation)
                then Respond 400 "CALCULATION_ERROR"
                else
                  Saved
                    {| reportId := reportId report;
                       driver := driver report;
                       status := submitted;
                       taxiNumber := taxiNumber report;
                       shiftStartTotal := shiftStartTotal report;
                       shiftEndTotal := shiftEndTotal report;
                       liftings := liftings report;
                       cashFares := cashFares report;
                       totalEFTPOS := totalEFTPOS report;
                       totalAccountTrips := totalAccountTrips report;
                       cashExpenses := cashExpenses report;
                       totalTripsCount := totalTripsCount report;
                       calculations := Some calculations;
                       notes := notes report;
                       submittedAt := Some now |}
            end
      | _ => Respond 400 "INVALID_STATUS"
      end
  end.

End DriverReports.

(** ** Concrete reports used in the statements below *)

Module ReportExamples.
Import Num Reconciliation DriverReports.

Definition reading (a : Q) (photo : option string) : Metered :=
  {| amount := Some a; photoUrl := photo |}.

(** A draft with the given meter readings and inputs and no photos. *)
Definition draftOf (start end_ : option Q) (lift cash eftpos acct exp : Q)
    (trips : Z) : Report :=
  {| reportId := "DR-20250101-AB12";
     driver := "driver-1";
     status := draft;
     taxiNumber := "T-100";
     shiftStartTotal := {| amount := start; photoUrl := None |};
     shiftEndTotal := {| amount := end_; photoUrl := None |};
     liftings := Some lift;
     cashFares := Some cash;
     totalEFTPOS := reading eftpos None;
     totalAccountTrips := Some acct;
     cashExpenses := reading exp None;
     totalTripsCount := Some trips;
     calculations := None;
     notes := None;
     submittedAt := None |}.

(** The worked scenario of the specification: meter 100.00 to 250.00,
    liftings 20, cash fares 30, 10 trips. *)
Definition scenario : Report :=
  draftOf (Some 100) (Some 250) 20 30 0 0 0 10.


(** Negative liftings, as a request body may carry them before the schema
    check of [save]. *)
Definition negativeLiftings : Report :=
  draftOf (Some 0) (Some 0) (-10) 0 0 0 0 0.

Definition fullRate : Settings :=
  {| rentalRatePercentage := 100; tripLevyRate := 132 # 100 |}.

(** A draft that has a start meter of 100 and no end meter yet. *)
Definition noEndMeter : Report :=
  draftOf (Some 100) None 0 0 0 0 0 0.

(** A draft on which nothing was entered yet (both meters 0). *)
Definition freshDraft : Report :=
  draftOf (Some 0) (Some 0) 0 0 0 0 0 0.

(** A draft with a start meter of 0, no end meter yet and liftings 20. *)
Definition zeroStartNoEnd : Report :=
  draftOf (Some 0) None 20 0 0 0 0 0.

Definition emptyUpdate : UpdateData :=
  {| u_taxiNumber := None; u_shiftStartTotal := None;
     u_shiftEndTotal := None; u_liftings := None; u_cashFares := None;
     u_totalEFTPOS := None; u_totalAccountTrips := None;
     u_cashExpenses := None; u_totalTripsCount := None; u_notes := None |}.

(** The body [{ liftings: 20 }]. *)
Definition setLiftings : UpdateData :=
  {| u_taxiNumber := None; u_shiftStartTotal := None;
     u_shiftEndTotal := None; u_liftings := Some 20; u_cashFares := None;
     u_totalEFTPOS := None; u_totalAccountTrips := None;
     u_cashExpenses := None; u_totalTripsCount := None; u_notes := None |}.

(** The body [{ shiftStartTotal: { amount: 100, photoUrl: "start.jpg" } }]. *)
Definition setStartMeter : UpdateData :=
  {| u_taxiNumber := None;
     u_shiftStartTotal := Some (reading 100 (Some "start.jpg"%string));
     u_shiftEndTotal := None; u_liftings := None; u_cashFares := None;
     u_totalEFTPOS := None; u_totalAccountTrips := None;
     u_cashExpenses := None; u_totalTripsCount := None; u_notes := None |}.



End ReportExamples.

(** ** The documents: models/User.js, models/Shift.js, models/Ride.js

    An [ObjectId] is a natural number; [id.toString()] compared with the
    id of the authenticated user is equality of these numbers. *)

(** [ROLES] of utils/constants.js. *)
Inductive Role : Type := ADMIN | MANAGER | DRIVER.

(** [DRIVER_STATUS] of utils/constants.js. *)
Inductive DriverStatus : Type := FREE | ON_RIDE | DROPPED.

Module User.
Record t : Type := {
  _id : nat;
  role : Role;
  status : DriverStatus
}.
End User.

Module Shift.
Record t : Type := {
  _id : nat;
  driver : nat;
  taxiNumber : string;
  startMeter : Q;
  startMeterPhoto : string;
  startTime : nat;
  endTime : option nat;
  isActive : bool
}.
End Shift.

Inductive RideStatus : Type :=
| scheduled | assigned | accepted | started
| rejected | cancelled | aborted | completed.

Inductive BookingType : Type := scheduled_booking | immediate.

Record Fare : Type := {
  total : Q;
  perPerson : Q;
  halfFare : Q;
  gst : Q
}.

Record QuickTripDetails : Type := {
  clientName : option string;
  clientPhone : option string;
  pickupLocation : option string;
  dropoffLocation : option string;
  completedByDriver : bool;
  completedAt : option nat
}.

Module Ride.
Record t : Type := {
  rideId : string;
  bookingType : BookingType;
  isQuickTrip : bool;
  isSelfAssigned : bool;
  clients : list nat;
  from : option nat;
  to : option nat;
  quickTripDetails : QuickTripDetails;
  scheduledTime : nat;
  passengers : Z;
  fare : Fare;
  driver : option nat;
  shift : option nat;
  assignedBy : option nat;
  status : RideStatus;
  notes : string;
  driverNotes : option string;
  acceptedAt : option nat;
  startedAt : option nat;
  rejectedAt : option nat;
  droppedAt : option nat;
  cancelledAt : option nat;
  cancellationReason : option string;
  cancellationNote : option string;
  abortedBy : option nat;
  abortedAt : option nat;
  abortReason : option string;
  abortNote : option string
}.

(** [ride.field = v]: one setter for each field the handlers assign. *)
Definition set_bookingType (v : BookingType) (r : t) : t :=
  {| rideId := rideId r; bookingType := v; isQuickTrip := isQuickTrip r;
     isSelfAssigned := isSelfAssigned r; clients := clients r; from := from
     r; to := to r; quickTripDetails := quickTripDetails r; scheduledTime :=
     scheduledTime r; passengers := passengers r; fare := fare r; driver :=
     driver r; shift := shift r; assignedBy := assignedBy r; status :=
     status r; notes := notes r; driverNotes := driverNotes r; acceptedAt :=
     acceptedAt r; startedAt := startedAt r; rejectedAt := rejectedAt r;
     droppedAt := droppedAt r; cancelledAt := cancelledAt r;
     cancellationReason := cancellationReason r; cancellationNote :=
     cancellationNote r; abortedBy := abortedBy r; abortedAt := abortedAt r;
     abortReason := abortReason r; abortNote := abortNote r |}.

Definition set_isQuickTrip (v : bool) (r : t) : t :=
  {| rideId := rideId r; bookingType := bookingType r; isQuickTrip := v;
     isSelfAssigned := isSelfAssigned r; clients := clients r; from := from
     r; to := to r; quickTripDetails := quickTripDetails r; scheduledTime :=
     scheduledTime r; passengers := passengers r; fare := fare r; driver :=
     driver r; shift := shift r; assignedBy := assignedBy r; status :=
     status r; notes := notes r; driverNotes := driverNotes r; acceptedAt :=
     acceptedAt r; startedAt := startedAt r; rejectedAt := rejectedAt r;
     droppedAt := droppedAt r; cancelledAt := cancelledAt r;
     cancellationReason := cancellationReason r; cancellationNote :=
     cancellationNote r; abortedBy := abortedBy r; abortedAt := abortedAt r;
     abortReason := abortReason r; abortNote := abortNote r |}.

Definition set_isSelfAssigned (v : bool) (r : t) : t :=
  {| rideId := rideId r; bookingType := bookingType r; isQuickTrip :=
     isQuickTrip r; isSelfAssigned := v; clients := clients r; from := from
     r; to := to r; quickTripDetails := quickTripDetails r; scheduledTime :=
     scheduledTime r; passengers := passengers r; fare := fare r; driver :=
     driver r; shift := shift r; assignedBy := assignedBy r; status :=
     status r; notes := notes r; driverNotes := driverNotes r; acceptedAt :=
     acceptedAt r; startedAt := startedAt r; rejectedAt := rejectedAt r;
     droppedAt := droppedAt r; cancelledAt := cancelledAt r;
     cancellationReason := cancellationReason r; cancellationNote :=
     cancellationNote r; abortedBy := abortedBy r; abortedAt := abortedAt r;
     abortReason := abortReason r; abortNote := abortNote r |}.

Definition set_clients (v : list nat) (r : t) : t :=
  {| rideId := rideId r; bookingType := bookingType r; isQuickTrip :=
     isQuickTrip r; isSelfAssigned := isSelfAssigned r; clients := v; from
     := from r; to := to r; quickTripDetails := quickTripDetails r;
     scheduledTime := scheduledTime r; passengers := passengers r; fare :=
     fare r; driver := driver r; shift := shift r; assignedBy := assignedBy
     r; status := status r; notes := notes r; driverNotes := driverNotes r;
     acceptedAt := acceptedAt r; startedAt := startedAt r; rejectedAt :=
     rejectedAt r; droppedAt := droppedAt r; cancelledAt := cancelledAt r;
     cancellationReason := cancellationReason r; cancellationNote :=
     cancellationNote r; abortedBy := abortedBy r; abortedAt := abortedAt r;
     abortReason := abortReason r; abortNote := abortNote r |}.

Definition set_from (v : option nat) (r : t) : t :=
  {| rideId := rideId r; bookingType := bookingType r; isQuickTrip :=
     isQuickTrip r; isSelfAssigned := isSelfAssigned r; clients := clients
     r; from := v; to := to r; quickTripDetails := quickTripDetails r;
     scheduledTime := scheduledTime r; passengers := passengers r; fare :=
     fare r; driver := driver r; shift := shift r; assignedBy := assignedBy
     r; status := status r; notes := notes r; driverNotes := driverNotes r;
     acceptedAt := acceptedAt r; startedAt := startedAt r; rejectedAt :=
     rejectedAt r; droppedAt := droppedAt r; cancelledAt := cancelledAt r;
     cancellationReason := cancellationReason r; cancellationNote :=
     cancellationNote r; abortedBy := abortedBy r; abortedAt := abortedAt r;
     abortReason := abortReason r; abortNote := abortNote r |}.

Definition set_to (v : option nat) (r : t) : t :=
  {| rideId := rideId r; bookingType := bookingType r; isQuickTrip :=
     isQuickTrip r; isSelfAssigned := isSelfAssigned r; clients := clients
     r; from := from r; to := v; quickTripDetails := quickTripDetails r;
     scheduledTime := scheduledTime r; passengers := passengers r; fare :=
     fare r; driver := driver r; shift := shift r; assignedBy := assignedBy
     r; status := status r; notes := notes r; driverNotes := driverNotes r;
     acceptedAt := acceptedAt r; startedAt := startedAt r; rejectedAt :=
     rejectedAt r; droppedAt := droppedAt r; cancelledAt := cancelledAt r;
     cancellationReason := cancellationReason r; cancellationNote :=
     cancellationNote r; abortedBy := abortedBy r; abortedAt := abortedAt r;
     abortReason := abortReason r; abortNote := abortNote r |}.

Definition set_quickTripDetails (v : QuickTripDetails) (r : t) : t :=
  {| rideId := rideId r; bookingType := bookingType r; isQuickTrip :=
     isQuickTrip r; isSelfAssigned := isSelfAssigned r; clients := clients
     r; from := from r; to := to r; quickTripDetails := v; scheduledTime :=
     scheduledTime r; passengers := passengers r; fare := fare r; driver :=
     driver r; shift := shift r; assignedBy := assignedBy r; status :=
     status r; notes := notes r; driverNotes := driverNotes r; acceptedAt :=
     acceptedAt r; startedAt := startedAt r; rejectedAt := rejectedAt r;
     droppedAt := droppedAt r; cancelledAt := cancelledAt r;
     cancellationReason := cancellationReason r; cancellationNote :=
     cancellationNote r; abortedBy := abortedBy r; abortedAt := abortedAt r;
     abortReason := abortReason r; abortNote := abortNote r |}.

Definition set_scheduledTime (v : nat) (r : t) : t :=
  {| rideId := rideId r; bookingType := bookingType r; isQuickTrip :=
     isQuickTrip r; isSelfAssigned := isSelfAssigned r; clients := clients
     r; from := from r; to := to r; quickTripDetails := quickTripDetails r;
     scheduledTime := v; passengers := passengers r; fare := fare r; driver
     := driver r; shift := shift r; assignedBy := assignedBy r; status :=
     status r; notes := notes r; driverNotes := driverNotes r; acceptedAt :=
     acceptedAt r; startedAt := startedAt r; rejectedAt := rejectedAt r;
     droppedAt := droppedAt r; cancelledAt := cancelledAt r;
     cancellationReason := cancellationReason r; cancellationNote :=
     cancellationNote r; abortedBy := abortedBy r; abortedAt := abortedAt r;
     abortReason := abortReason r; abortNote := abortNote r |}.

Definition set_passengers (v : Z) (r : t) : t :=
  {| rideId := rideId r; bookingType := bookingType r; isQuickTrip :=
     isQuickTrip r; isSelfAssigned := isSelfAssigned r; clients := clients
     r; from := from r; to := to r; quickTripDetails := quickTripDetails r;
     scheduledTime := scheduledTime r; passengers := v; fare := fare r;
     driver := driver r; shift := shift r; assignedBy := assignedBy r;
     status := status r; notes := notes r; driverNotes := driverNotes r;
     acceptedAt := acceptedAt r; startedAt := startedAt r; rejectedAt :=
     rejectedAt r; droppedAt := droppedAt r; cancelledAt := cancelledAt r;
     cancellationReason := cancellationReason r; cancellationNote :=
     cancellationNote r; abortedBy := abortedBy r; abortedAt := abortedAt r;
     abortReason := abortReason r; abortNote := abortNote r |}.

Definition set_fare (v : Fare) (r : t) : t :=
  {| rideId := rideId r; bookingType := bookingType r; isQuickTrip :=
     isQuickTrip r; isSelfAssigned := isSelfAssigned r; clients := clients
     r; from := from r; to := to r; quickTripDetails := quickTripDetails r;
     scheduledTime := scheduledTime r; passengers := passengers r; fare :=
     v; driver := driver r; shift := shift r; assignedBy := assignedBy r;
     status := status r; notes := notes r; driverNotes := driverNotes r;
     acceptedAt := acceptedAt r; startedAt := startedAt r; rejectedAt :=
     rejectedAt r; droppedAt := droppedAt r; cancelledAt := cancelledAt r;
     cancellationReason := cancellationReason r; cancellationNote :=
     cancellationNote r; abortedBy := abortedBy r; abortedAt := abortedAt r;
     abortReason := abortReason r; abortNote := abortNote r |}.

Definition set_driver (v : option nat) (r : t) : t :=
  {| rideId := rideId r; bookingType := bookingType r; isQuickTrip :=
     isQuickTrip r; isSelfAssigned := isSelfAssigned r; clients := clients
     r; from := from r; to := to r; quickTripDetails := quickTripDetails r;
     scheduledTime := scheduledTime r; passengers := passengers r; fare :=
     fare r; driver := v; shift := shift r; assignedBy := assignedBy r;
     status := status r; notes := notes r; driverNotes := driverNotes r;
     acceptedAt := acceptedAt r; startedAt := startedAt r; rejectedAt :=
     rejectedAt r; droppedAt := droppedAt r; cancelledAt := cancelledAt r;
     cancellationReason := cancellationReason r; cancellationNote :=
     cancellationNote r; abortedBy := abortedBy r; abortedAt := abortedAt r;
     abortReason := abortReason r; abortNote := abortNote r |}.

Definition set_shift (v : option nat) (r : t) : t :=
  {| rideId := rideId r; bookingType := bookingType r; isQuickTrip :=
     isQuickTrip r; isSelfAssigned := isSelfAssigned r; clients := clients
     r; from := from r; to := to r; quickTripDetails := quickTripDetails r;
     scheduledTime := scheduledTime r; passengers := passengers r; fare :=
     fare r; driver := driver r; shift := v; assignedBy := assignedBy r;
     status := status r; notes := notes r; driverNotes := driverNotes r;
     acceptedAt := acceptedAt r; startedAt := startedAt r; rejectedAt :=
     rejectedAt r; droppedAt := droppedAt r; cancelledAt := cancelledAt r;
     cancellationReason := cancellationReason r; cancellationNote :=
     cancellationNote r; abortedBy := abortedBy r; abortedAt := abortedAt r;
     abortReason := abortReason r; abortNote := abortNote r |}.

Definition set_assignedBy (v : option nat) (r : t) : t :=
  {| rideId := rideId r; bookingType := bookingType r; isQuickTrip :=
     isQuickTrip r; isSelfAssigned := isSelfAssigned r; clients := clients
     r; from := from r; to := to r; quickTripDetails := quickTripDetails r;
     scheduledTime := scheduledTime r; passengers := passengers r; fare :=
     fare r; driver := driver r; shift := shift r; assignedBy := v; status
     := status r; notes := notes r; driverNotes := driverNotes r; acceptedAt
     := acceptedAt r; startedAt := startedAt r; rejectedAt := rejectedAt r;
     droppedAt := droppedAt r; cancelledAt := cancelledAt r;
     cancellationReason := cancellationReason r; cancellationNote :=
     cancellationNote r; abortedBy := abortedBy r; abortedAt := abortedAt r;
     abortReason := abortReason r; abortNote := abortNote r |}.

Definition set_status (v : RideStatus) (r : t) : t :=
  {| rideId := rideId r; bookingType := bookingType r; isQuickTrip :=
     isQuickTrip r; isSelfAssigned := isSelfAssigned r; clients := clients
     r; from := from r; to := to r; quickTripDetails := quickTripDetails r;
     scheduledTime := scheduledTime r; passengers := passengers r; fare :=
     fare r; driver := driver r; shift := shift r; assignedBy := assignedBy
     r; status := v; notes := notes r; driverNotes := driverNotes r;
     acceptedAt := acceptedAt r; startedAt := startedAt r; rejectedAt :=
     rejectedAt r; droppedAt := droppedAt r; cancelledAt := cancelledAt r;
     cancellationReason := cancellationReason r; cancellationNote :=
     cancellationNote r; abortedBy := abortedBy r; abortedAt := abortedAt r;
     abortReason := abortReason r; abortNote := abortNote r |}.

Definition set_notes (v : string) (r : t) : t :=
  {| rideId := rideId r; bookingType := bookingType r; isQuickTrip :=
     isQuickTrip r; isSelfAssigned := isSelfAssigned r; clients := clients
     r; from := from r; to := to r; quickTripDetails := quickTripDetails r;
     scheduledTime := scheduledTime r; passengers := passengers r; fare :=
     fare r; driver := driver r; shift := shift r; assignedBy := assignedBy
     r; status := status r; notes := v; driverNotes := driverNotes r;
     acceptedAt := acceptedAt r; startedAt := startedAt r; rejectedAt :=
     rejectedAt r; droppedAt := droppedAt r; cancelledAt := cancelledAt r;
     cancellationReason := cancellationReason r; cancellationNote :=
     cancellationNote r; abortedBy := abortedBy r; abortedAt := abortedAt r;
     abortReason := abortReason r; abortNote := abortNote r |}.

Definition set_driverNotes (v : option string) (r : t) : t :=
  {| rideId := rideId r; bookingType := bookingType r; isQuickTrip :=
     isQuickTrip r; isSelfAssigned := isSelfAssigned r; clients := clients
     r; from := from r; to := to r; quickTripDetails := quickTripDetails r;
     scheduledTime := scheduledTime r; passengers := passengers r; fare :=
     fare r; driver := driver r; shift := shift r; assignedBy := assignedBy
     r; status := status r; notes := notes r; driverNotes := v; acceptedAt
     := acceptedAt r; startedAt := startedAt r; rejectedAt := rejectedAt r;
     droppedAt := droppedAt r; cancelledAt := cancelledAt r;
     cancellationReason := cancellationReason r; cancellationNote :=
     cancellationNote r; abortedBy := abortedBy r; abortedAt := abortedAt r;
     abortReason := abortReason r; abortNote := abortNote r |}.

Definition set_acceptedAt (v : option nat) (r : t) : t :=
  {| rideId := rideId r; bookingType := bookingType r; isQuickTrip :=
     isQuickTrip r; isSelfAssigned := isSelfAssigned r; clients := clients
     r; from := from r; to := to r; quickTripDetails := quickTripDetails r;
     scheduledTime := scheduledTime r; passengers := passengers r; fare :=
     fare r; driver := driver r; shift := shift r; assignedBy := assignedBy
     r; status := status r; notes := notes r; driverNotes := driverNotes r;
     acceptedAt := v; startedAt := startedAt r; rejectedAt := rejectedAt r;
     droppedAt := droppedAt r; cancelledAt := cancelledAt r;
     cancellationReason := cancellationReason r; cancellationNote :=
     cancellationNote r; abortedBy := abortedBy r; abortedAt := abortedAt r;
     abortReason := abortReason r; abortNote := abortNote r |}.

Definition set_startedAt (v : option nat) (r : t) : t :=
  {| rideId := rideId r; bookingType := bookingType r; isQuickTrip :=
     isQuickTrip r; isSelfAssigned := isSelfAssigned r; clients := clients
     r; from := from r; to := to r; quickTripDetails := quickTripDetails r;
     scheduledTime := scheduledTime r; passengers := passengers r; fare :=
     fare r; driver := driver r; shift := shift r; assignedBy := assignedBy
     r; status := status r; notes := notes r; driverNotes := driverNotes r;
     acceptedAt := acceptedAt r; startedAt := v; rejectedAt := rejectedAt r;
     droppedAt := droppedAt r; cancelledAt := cancelledAt r;
     cancellationReason := cancellationReason r; cancellationNote :=
     cancellationNote r; abortedBy := abortedBy r; abortedAt := abortedAt r;
     abortReason := abortReason r; abortNote := abortNote r |}.

Definition set_rejectedAt (v : option nat) (r : t) : t :=
  {| rideId := rideId r; bookingType := bookingType r; isQuickTrip :=
     isQuickTrip r; isSelfAssigned := isSelfAssigned r; clients := clients
     r; from := from r; to := to r; quickTripDetails := quickTripDetails r;
     scheduledTime := scheduledTime r; passengers := passengers r; fare :=
     fare r; driver := driver r; shift := shift r; assignedBy := assignedBy
     r; status := status r; notes := notes r; driverNotes := driverNotes r;
     acceptedAt := acceptedAt r; startedAt := startedAt r; rejectedAt := v;
     droppedAt := droppedAt r; cancelledAt := cancelledAt r;
     cancellationReason := cancellationReason r; cancellationNote :=
     cancellationNote r; abortedBy := abortedBy r; abortedAt := abortedAt r;
     abortReason := abortReason r; abortNote := abortNote r |}.

Definition set_droppedAt (v : option nat) (r : t) : t :=
  {| rideId := rideId r; bookingType := bookingType r; isQuickTrip :=
     isQuickTrip r; isSelfAssigned := isSelfAssigned r; clients := clients
     r; from := from r; to := to r; quickTripDetails := quickTripDetails r;
     scheduledTime := scheduledTime r; passengers := passengers r; fare :=
     fare r; driver := driver r; shift := shift r; assignedBy := assignedBy
     r; status := status r; notes := notes r; driverNotes := driverNotes r;
     acceptedAt := acceptedAt r; startedAt := startedAt r; rejectedAt :=
     rejectedAt r; droppedAt := v; cancelledAt := cancelledAt r;
     cancellationReason := cancellationReason r; cancellationNote :=
     cancellationNote r; abortedBy := abortedBy r; abortedAt := abortedAt r;
     abortReason := abortReason r; abortNote := abortNote r |}.

Definition set_cancelledAt (v : option nat) (r : t) : t :=
  {| rideId := rideId r; bookingType := bookingType r; isQuickTrip :=
     isQuickTrip r; isSelfAssigned := isSelfAssigned r; clients := clients
     r; from := from r; to := to r; quickTripDetails := quickTripDetails r;
     scheduledTime := scheduledTime r; passengers := passengers r; fare :=
     fare r; driver := driver r; shift := shift r; assignedBy := assignedBy
     r; status := status r; notes := notes r; driverNotes := driverNotes r;
     acceptedAt := acceptedAt r; startedAt := startedAt r; rejectedAt :=
     rejectedAt r; droppedAt := droppedAt r; cancelledAt := v;
     cancellationReason := cancellationReason r; cancellationNote :=
     cancellationNote r; abortedBy := abortedBy r; abortedAt := abortedAt r;
     abortReason := abortReason r; abortNote := abortNote r |}.

Definition set_cancellationReason (v : option string) (r : t) : t :=
  {| rideId := rideId r; bookingType := bookingType r; isQuickTrip :=
     isQuickTrip r; isSelfAssigned := isSelfAssigned r; clients := clients
     r; from := from r; to := to r; quickTripDetails := quickTripDetails r;
     scheduledTime := scheduledTime r; passengers := passengers r; fare :=
     fare r; driver := driver r; shift := shift r; assignedBy := assignedBy
     r; status := status r; notes := notes r; driverNotes := driverNotes r;
     acceptedAt := acceptedAt r; startedAt := startedAt r; rejectedAt :=
     rejectedAt r; droppedAt := droppedAt r; cancelledAt := cancelledAt r;
     cancellationReason := v; cancellationNote := cancellationNote r;
     abortedBy := abortedBy r; abortedAt := abortedAt r; abortReason :=
     abortReason r; abortNote := abortNote r |}.

Definition set_cancellationNote (v : option string) (r : t) : t :=
  {| rideId := rideId r; bookingType := bookingType r; isQuickTrip :=
     isQuickTrip r; isSelfAssigned := isSelfAssigned r; clients := clients
     r; from := from r; to := to r; quickTripDetails := quickTripDetails r;
     scheduledTime := scheduledTime r; passengers := passengers r; fare :=
     fare r; driver := driver r; shift := shift r; assignedBy := assignedBy
     r; status := status r; notes := notes r; driverNotes := driverNotes r;
     acceptedAt := acceptedAt r; startedAt := startedAt r; rejectedAt :=
     rejectedAt r; droppedAt := droppedAt r; cancelledAt := cancelledAt r;
     cancellationReason := cancellationReason r; cancellationNote := v;
     abortedBy := abortedBy r; abortedAt := abortedAt r; abortReason :=
     abortReason r; abortNote := abortNote r |}.

Definition set_abortedBy (v : option nat) (r : t) : t :=
  {| rideId := rideId r; bookingType := bookingType r; isQuickTrip :=
     isQuickTrip r; isSelfAssigned := isSelfAssigned r; clients := clients
     r; from := from r; to := to r; quickTripDetails := quickTripDetails r;
     scheduledTime := scheduledTime r; passengers := passengers r; fare :=
     fare r; driver := driver r; shift := shift r; assignedBy := assignedBy
     r; status := status r; notes := notes r; driverNotes := driverNotes r;
     acceptedAt := acceptedAt r; startedAt := startedAt r; rejectedAt :=
     rejectedAt r; droppedAt := droppedAt r; cancelledAt := cancelledAt r;
     cancellationReason := cancellationReason r; cancellationNote :=
     cancellationNote r; abortedBy := v; abortedAt := abortedAt r;
     abortReason := abortReason r; abortNote := abortNote r |}.

Definition set_abortedAt (v : option nat) (r : t) : t :=
  {| rideId := rideId r; bookingType := bookingType r; isQuickTrip :=
     isQuickTrip r; isSelfAssigned := isSelfAssigned r; clients := clients
     r; from := from r; to := to r; quickTripDetails := quickTripDetails r;
     scheduledTime := scheduledTime r; passengers := passengers r; fare :=
     fare r; driver := driver r; shift := shift r; assignedBy := assignedBy
     r; status := status r; notes := notes r; driverNotes := driverNotes r;
     acceptedAt := acceptedAt r; startedAt := startedAt r; rejectedAt :=
     rejectedAt r; droppedAt := droppedAt r; cancelledAt := cancelledAt r;
     cancellationReason := cancellationReason r; cancellationNote :=
     cancellationNote r; abortedBy := abortedBy r; abortedAt := v;
     abortReason := abortReason r; abortNote := abortNote r |}.

Definition set_abortReason (v : option string) (r : t) : t :=
  {| rideId := rideId r; bookingType := bookingType r; isQuickTrip :=
     isQuickTrip r; isSelfAssigned := isSelfAssigned r; clients := clients
     r; from := from r; to := to r; quickTripDetails := quickTripDetails r;
     scheduledTime := scheduledTime r; passengers := passengers r; fare :=
     fare r; driver := driver r; shift := shift r; assignedBy := assignedBy
     r; status := status r; notes := notes r; driverNotes := driverNotes r;
     acceptedAt := acceptedAt r; startedAt := startedAt r; rejectedAt :=
     rejectedAt r; droppedAt := droppedAt r; cancelledAt := cancelledAt r;
     cancellationReason := cancellationReason r; cancellationNote :=
     cancellationNote r; abortedBy := abortedBy r; abortedAt := abortedAt r;
     abortReason := v; abortNote := abortNote r |}.

Definition set_abortNote (v : option string) (r : t) : t :=
  {| rideId := rideId r; bookingType := bookingType r; isQuickTrip :=
     isQuickTrip r; isSelfAssigned := isSelfAssigned r; clients := clients
     r; from := from r; to := to r; quickTripDetails := quickTripDetails r;
     scheduledTime := scheduledTime r; passengers := passengers r; fare :=
     fare r; driver := driver r; shift := shift r; assignedBy := assignedBy
     r; status := status r; notes := notes r; driverNotes := driverNotes r;
     acceptedAt := acceptedAt r; startedAt := startedAt r; rejectedAt :=
     rejectedAt r; droppedAt := droppedAt r; cancelledAt := cancelledAt r;
     cancellationReason := cancellationReason r; cancellationNote :=
     cancellationNote r; abortedBy := abortedBy r; abortedAt := abortedAt r;
     abortReason := abortReason r; abortNote := v |}.
End Ride.

(** The authenticated user of a request, [req.user]. *)
Record Actor : Type := {
  id : nat;
  actor_role : Role
}.

(** ** The document store and the handler monad *)

(** The collections.  [rides] and [users] are keyed by [_id]; [shifts] is
    in insertion order, which is the order in which [findOne] meets the
    documents; of clients and destinations only the ids matter; [gst_rate]
    is the value of the setting of that key, when it exists. *)
Record Db : Type := {
  rides : gmap nat Ride.t;
  users : gmap nat User.t;
  shifts : list Shift.t;
  clients : gset nat;
  destinations : gset nat;
  gst_rate : option Q
}.

Definition set_rides (v : gmap nat Ride.t) (db : Db) : Db :=
  {| rides := v; users := users db; shifts := shifts db;
     clients := clients db; destinations := destinations db;
     gst_rate := gst_rate db |}.

Definition set_users (v : gmap nat User.t) (db : Db) : Db :=
  {| rides := rides db; users := v; shifts := shifts db;
     clients := clients db; destinations := destinations db;
     gst_rate := gst_rate db |}.

Definition set_shifts (v : list Shift.t) (db : Db) : Db :=
  {| rides := rides db; users := users db; shifts := v;
     clients := clients db; destinations := destinations db;
     gst_rate := gst_rate db |}.

Definition set_clients (v : gset nat) (db : Db) : Db :=
  {| rides := rides db; users := users db; shifts := shifts db;
     clients := v; destinations := destinations db;
     gst_rate := gst_rate db |}.

Definition set_destinations (v : gset nat) (db : Db) : Db :=
  {| rides := rides db; users := users db; shifts := shifts db;
     clients := clients db; destinations := v;
     gst_rate := gst_rate db |}.

(** The answer of a handler: [res.status(http).json({ success: true })],
    or [res.status(http).json({ success: false, code })].  The shift
    handlers answer with a message and no code: there [code] holds the
    message. *)
Inductive Response : Type :=
| Ok (http : nat)
| Fail (http : nat) (code : string).

(** How a handler leaves early: it has answered, or an exception is in
    flight with the [status] and [code] it may carry. *)
Inductive Exit : Type :=
| Answered (r : Response)
| Thrown (status : option nat) (code : option string).

(** A handler reads and writes the store and either goes on with a value
    or leaves early.  What was written before it leaves stays written. *)
Definition M (A : Type) : Type := Db -> Db * (A + Exit).

Definition ret {A : Type} (a : A) : M A := fun db => (db, inl a).

Definition bind {A B : Type} (m : M A) (k : A -> M B) : M B :=
  fun db =>
    match m db with
    | (db', inl a) => k a db'
    | (db', inr e) => (db', inr e)
    end.

(** [return res.status(http).json(...)]. *)
Definition respond {A : Type} (r : Response) : M A :=
  fun db => (db, inr (Answered r)).

(** [throw err]. *)
Definition throw {A : Type} (status : option nat) (code : option string)
    : M A :=
  fun db => (db, inr (Thrown status code)).

(** A [TypeError], or a validation error of [save]: no status, no code. *)
Definition throwError {A : Type} : M A := throw None None.

Definition gets {A : Type} (f : Db -> A) : M A := fun db => (db, inl (f db)).

Definition modify (f : Db -> Db) : M unit := fun db => (f db, inl tt).

Notation "'let*' x ':=' m 'in' k" := (bind m (fun x => k))
  (at level 10, x name, m at level 100, k at level 200).
Notation "m >> k" := (bind m (fun _ => k))
  (at level 100, k at level 200, right associativity).

(** [if (c) return res.status(...).json(...)]. *)
Definition failWhen (c : bool) (r : Response) : M unit :=
  if c then respond r else ret tt.

(** [errorHandler] of middleware/errorHandler.js. *)
Definition errorHandler (status : option nat) (code : option string)
    : Response :=
  Fail (match status with Some s => s | None => 500%nat end)
       (match code with Some c => c | None => "INTERNAL_ERROR"%string end).

(** [try { ... } catch (e) { next(e) }]: the store after the request and
    the answer. *)
Definition run (h : M Response) (db : Db) : Db * Response :=
  match h db with
  | (db', inl r) => (db', r)
  | (db', inr (Answered r)) => (db', r)
  | (db', inr (Thrown status code)) => (db', errorHandler status code)
  end.

(** [try { ... } catch (e) { return res.status(500).json({ code }) }]. *)
Definition runCatch (code : string) (h : M Response) (db : Db)
    : Db * Response :=
  match h db with
  | (db', inl r) => (db', r)
  | (db', inr (Answered r)) => (db', r)
  | (db', inr (Thrown _ _)) => (db', Fail 500 code)
  end.

(** *** Reasoning about handlers *)

(** [wp m Q db]: running [m] from [db] ends in a store and an outcome that
    satisfy [Q]. *)
Definition wp {A : Type} (m : M A) (Q : Db -> A + Exit -> Prop) (db : Db)
    : Prop :=
  Q (m db).1 (m db).2.

(** A computation that only reads the store. *)
Definition ro {A : Type} (m : M A) : Prop := forall db, (m db).1 = db.

(** *** Queries *)

(** [mongoose.set("strictQuery", true)] of config/db.js. *)
Definition strictQuery : bool := true.

(** The value of a condition [{ path: value }] of a filter. *)
Inductive Value : Type :=
| VId (n : nat)
| VBool (b : bool)
| VStr (s : string).

Definition Value_eqb (a b : Value) : bool :=
  match a, b with
  | VId n, VId m => Nat.eqb n m
  | VBool x, VBool y => Bool.eqb x y
  | VStr s, VStr u => String.eqb s u
  | _, _ => false
  end.

(** The paths of [shiftSchema], with those Mongoose adds. *)
Definition shiftSchema_paths : list string :=
  ["_id"; "driver"; "taxiNumber"; "startMeter"; "startMeterPhoto";
   "startTime"; "endTime"; "isActive"; "createdAt"; "updatedAt";
   "__v"]%string.

(** The value of a shift at a path, for the paths that filters test. *)
Definition Shift_path (path : string) (s : Shift.t) : option Value :=
  if String.eqb path "_id" then Some (VId (Shift._id s))
  else if String.eqb path "driver" then Some (VId (Shift.driver s))
  else if String.eqb path "isActive" then Some (VBool (Shift.isActive s))
  else if String.eqb path "taxiNumber" then Some (VStr (Shift.taxiNumber s))
  else if String.eqb path "startMeterPhoto"
       then Some (VStr (Shift.startMeterPhoto s))
  else None.

(** Casting of a filter: with [strictQuery] the conditions on paths that
    are not in the schema are removed from the filter; without it they
    stay. *)
Definition castFilter (strict : bool) (paths : list string)
    (filter : list (string * Value)) : list (string * Value) :=
  if strict
  then List.filter
         (fun c => existsb (String.eqb (fst c)) paths) filter
  else filter.

(** A document matches when each condition finds its value at the path; a
    path the document does not have matches no value. *)
Definition Shift_matches (filter : list (string * Value)) (s : Shift.t)
    : bool :=
  forallb
    (fun c => match Shift_path (fst c) s with
              | Some v => Value_eqb v (snd c)
              | None => false
              end)
    filter.

(** [Shift.findOne(filter)] under a given [strictQuery] setting. *)
Definition Shift_findOne_with (strict : bool)
    (filter : list (string * Value)) (l : list Shift.t) : option Shift.t :=
  List.find (Shift_matches (castFilter strict shiftSchema_paths filter)) l.

(** [await Shift.findOne(filter)]. *)
Definition Shift_findOne (filter : list (string * Value))
    : M (option Shift.t) :=
  gets (fun db => Shift_findOne_with strictQuery filter (shifts db)).

(** [await Ride.findById(id)]. *)
Definition Ride_findById (id : nat) : M (option Ride.t) :=
  gets (fun db => rides db !! id).

(** The validators of [rideSchema] that a handler can trip. *)
Definition Ride_validate (r : Ride.t) : bool :=
  (1 <=? Ride.passengers r)%Z
  && Qle_bool 0 (total (Ride.fare r))
  && Qle_bool 0 (perPerson (Ride.fare r))
  && Qle_bool 0 (halfFare (Ride.fare r))
  && Qle_bool 0 (gst (Ride.fare r)).

(** [await ride.save()] for the document of id [i]: a validation error is
    an exception without status or code. *)
Definition Ride_save (i : nat) (r : Ride.t) : M unit :=
  if Ride_validate r
  then modify (fun db => set_rides (<[i := r]> (rides db)) db)
  else throwError.

(** [await User.findById(id)]. *)
Definition User_findById (id : nat) : M (option User.t) :=
  gets (fun db => users db !! id).

(** [await User.findByIdAndUpdate(id, { status })]. *)
Definition User_findByIdAndUpdate (id : nat) (s : DriverStatus) : M unit :=
  modify (fun db =>
    set_users
      (alter (fun u => {| User._id := User._id u; User.role := User.role u;
                          User.status := s |}) id (users db))
      db).

(** [await Client.countDocuments({ _id: { $in: ids } })]. *)
Definition Client_countDocuments (ids : list nat) : M nat :=
  gets (fun db => size (clients db ∩ list_to_set ids)).

(** [await Destination.findById(id)], as far as its truthiness goes. *)
Definition Destination_exists (id : nat) : M bool :=
  gets (fun db => bool_decide (id ∈ destinations db)).

(** [await Client.create(...)] and [await Destination.create(...)]: the
    new document gets an id that the collection does not have yet; the
    result is that id. *)
Definition Client_create : M nat :=
  let* i := gets (fun db => fresh (clients db)) in
  modify (fun db => set_clients ({[ i ]} ∪ clients db) db) >>
  ret i.

Definition Destination_create : M nat :=
  let* i := gets (fun db => fresh (destinations db)) in
  modify (fun db => set_destinations ({[ i ]} ∪ destinations db) db) >>
  ret i.

(** [getCurrentGSTRate()] of settingsController.js; the value is a divisor,
    kept positive by [updateGSTSettings]. *)
Definition DEFAULT_GST_RATE : Q := 11.

Definition getCurrentGSTRate : M Q :=
  gets (fun db => match gst_rate db with
                  | Some v => v
                  | None => DEFAULT_GST_RATE
                  end).

(** [calculateGST(farePerPerson)]. *)
Definition calculateGST (farePerPerson : Q) : M Q :=
  let* gstDivisor := getCurrentGSTRate in
  ret (Num.toFixed2 (farePerPerson / gstDivisor)).

(** ** Strings of a request body *)

Definition is_space (c : Ascii.ascii) : bool :=
  let n := Ascii.nat_of_ascii c in
  Nat.eqb n 32 || (Nat.leb 9 n && Nat.leb n 13).

Fixpoint ltrim (l : list Ascii.ascii) : list Ascii.ascii :=
  match l with
  | [] => []
  | c :: l' => if is_space c then ltrim l' else l
  end.

(** [s.trim()] (ASCII white space). *)
Definition trim (s : string) : string :=
  String.string_of_list_ascii
    (rev (ltrim (rev (ltrim (String.list_ascii_of_string s))))).

(** [!s || !s.trim()] for a string field that may be absent. *)
Definition blank (s : option string) : bool :=
  match s with
  | Some s => String.eqb (trim s) ""
  | None => true
  end.

(** [!s] for a string field that may be absent. *)
Definition falsy (s : option string) : bool :=
  match s with
  | Some s => String.eqb s ""
  | None => true
  end.

Definition includes (l : list string) (s : string) : bool :=
  existsb (String.eqb s) l.

Definition RideStatus_eqb (a b : RideStatus) : bool :=
  match a, b with
  | scheduled, scheduled | assigned, assigned | accepted, accepted
  | started, started | rejected, rejected | cancelled, cancelled
  | aborted, aborted | completed, completed => true
  | _, _ => false
  end.

Definition Role_eqb (a b : Role) : bool :=
  match a, b with
  | ADMIN, ADMIN | MANAGER, MANAGER | DRIVER, DRIVER => true
  | _, _ => false
  end.

Definition is_none {A : Type} (v : option A) : bool :=
  match v with Some _ => false | None => true end.

(** ** rideController.js *)

Module RideController.

(** [ride.driver.toString()]: a [TypeError] when the ride has no driver. *)
Definition driverString (ride : Ride.t) : M nat :=
  match Ride.driver ride with
  | Some d => ret d
  | None => throwError
  end.

(** [ensureDriverFree(driverId)]. *)
Definition ensureDriverFree (driverId : option nat) : M User.t :=
  let* driver :=
    match driverId with
    | Some i => User_findById i
    | None => ret None
    end in
  match driver with
  | None => throw (Some 400%nat) (Some "INVALID_DRIVER"%string)
  | Some driver =>
      if negb (Role_eqb (User.role driver) DRIVER)
      then throw (Some 400%nat) (Some "INVALID_DRIVER"%string)
      else
        match User.status driver with
        | FREE => ret driver
        | _ => throw (Some 400%nat) (Some "DRIVER_NOT_FREE"%string)
        end
  end.

(** [validateRefs(clientIds, from, to)]. *)
Definition validateRefs (clientIds : list nat) (from to : option nat)
    : M unit :=
  let* clientsCount := Client_countDocuments clientIds in
  if negb (Nat.eqb clientsCount (length clientIds))
  then throw (Some 400%nat) (Some "INVALID_CLIENTS"%string)
  else
    let* fromOk := match from with
                   | Some i => Destination_exists i
                   | None => ret false
                   end in
    let* toOk := match to with
                 | Some i => Destination_exists i
                 | None => ret false
                 end in
    if negb fromOk || negb toOk
    then throw (Some 400%nat) (Some "INVALID_DESTINATION"%string)
    else ret tt.

Definition zeroFare : Fare :=
  {| total := 0; perPerson := 0; halfFare := 0; gst := 0 |}.

Definition noQuickTripDetails : QuickTripDetails :=
  {| clientName := None; clientPhone := None; pickupLocation := None;
     dropoffLocation := None; completedByDriver := false;
     completedAt := None |}.

(** A ride document with the defaults of the schema. *)
Definition newRide (rideId : string) : Ride.t :=
  {| Ride.rideId := rideId; Ride.bookingType := immediate;
     Ride.isQuickTrip := false; Ride.isSelfAssigned := false;
     Ride.clients := []; Ride.from := None; Ride.to := None;
     Ride.quickTripDetails := noQuickTripDetails;
     Ride.scheduledTime := 0%nat; Ride.passengers := 1%Z;
     Ride.fare := zeroFare; Ride.driver := None; Ride.shift := None;
     Ride.assignedBy := None; Ride.status := assigned; Ride.notes := "";
     Ride.driverNotes := None; Ride.acceptedAt := None;
     Ride.startedAt := None; Ride.rejectedAt := None;
     Ride.droppedAt := None; Ride.cancelledAt := None;
     Ride.cancellationReason := None; Ride.cancellationNote := None;
     Ride.abortedBy := None; Ride.abortedAt := None;
     Ride.abortReason := None; Ride.abortNote := None |}.

(** [await Ride.create(fields)]: [fields] fills in a document that has
    the defaults; it is stored under an id that the collection does not
    have yet. *)
Definition Ride_create (rideId : string) (fields : Ride.t -> Ride.t)
    : M Ride.t :=
  let* i := gets (fun db => fresh (dom (rides db))) in
  let ride := fields (newRide rideId) in
  Ride_save i ride >>
  ret ride.

Record AssignBody : Type := {
  a_clients : option (list nat);
  a_from : option nat;
  a_to : option nat;
  a_scheduledTime : option nat;
  a_driver : option nat;
  a_notes : option string
}.

Definition notesOr (notes : option string) (dflt : string) : string :=
  match notes with
  | Some n => if String.eqb n "" then dflt else n
  | None => dflt
  end.

(** [assignRide]; [rideId] is the value of [genRideId()]. *)
Definition assignRide (user : Actor) (body : AssignBody) (rideId : string)
    : M Response :=
  match a_clients body, a_scheduledTime body with
  | Some clients, Some scheduledTime =>
      failWhen (Nat.eqb (length clients) 0 || is_none (a_from body)
                || is_none (a_to body) || is_none (a_driver body))
               (Fail 400 "VALIDATION_ERROR") >>
      validateRefs clients (a_from body) (a_to body) >>
      ensureDriverFree (a_driver body) >>
      let* ride :=
        Ride_create rideId (fun r =>
          let r := Ride.set_clients clients r in
          let r := Ride.set_from (a_from body) r in
          let r := Ride.set_to (a_to body) r in
          let r := Ride.set_scheduledTime scheduledTime r in
          let r := Ride.set_passengers (Z.of_nat (length clients)) r in
          let r := Ride.set_fare zeroFare r in
          let r := Ride.set_driver (a_driver body) r in
          let r := Ride.set_assignedBy (Some (id user)) r in
          let r := Ride.set_status assigned r in
          Ride.set_notes (notesOr (a_notes body) "") r) in
      match a_driver body with
      | Some driver => User_findByIdAndUpdate driver ON_RIDE
      | None => ret tt
      end >>
      ret (Ok 201)
  | _, _ => respond (Fail 400 "VALIDATION_ERROR")
  end.

(** [User.findByIdAndUpdate(ride.driver, { status })]: nothing is found
    for a ride without a driver. *)
Definition setDriverStatus (ride : Ride.t) (s : DriverStatus) : M unit :=
  match Ride.driver ride with
  | Some d => User_findByIdAndUpdate d s
  | None => ret tt
  end.

(** [if (!ride.field) ride.field = now]. *)
Definition orNow (stamp : option nat) (now : nat) : option nat :=
  match stamp with Some t => Some t | None => Some now end.

(** [updateRideStatus], the generic endpoint [PUT /api/rides/:id/status]. *)
Definition updateRideStatus (user : Actor) (id_ : nat) (status : string)
    (now : nat) : M Response :=
  failWhen (negb (includes ["accepted"; "cancelled"; "completed"]%string
                           status))
           (Fail 400 "VALIDATION_ERROR") >>
  let* ride := Ride_findById id_ in
  match ride with
  | None => respond (Fail 404 "NOT_FOUND")
  | Some ride =>
      let* isSelfDriver :=
        if Role_eqb (actor_role user) DRIVER
        then let* d := driverString ride in ret (Nat.eqb (id user) d)
        else ret false in
      let isStaff := Role_eqb (actor_role user) ADMIN
                     || Role_eqb (actor_role user) MANAGER in
      failWhen (negb isSelfDriver && negb isStaff) (Fail 403 "FORBIDDEN") >>
      if RideStatus_eqb (Ride.status ride) assigned
         && String.eqb status "accepted"
      then
        let ride := Ride.set_status accepted ride in
        let ride :=
          Ride.set_acceptedAt (orNow (Ride.acceptedAt ride) now) ride in
        Ride_save id_ ride >>
        ret (Ok 200)
      else if (RideStatus_eqb (Ride.status ride) assigned
               || RideStatus_eqb (Ride.status ride) accepted
               || RideStatus_eqb (Ride.status ride) started)
              && String.eqb status "cancelled"
      then
        let ride := Ride.set_status cancelled ride in
        let ride :=
          Ride.set_cancelledAt (orNow (Ride.cancelledAt ride) now) ride in
        Ride_save id_ ride >>
        setDriverStatus ride FREE >>
        ret (Ok 200)
      else if RideStatus_eqb (Ride.status ride) started
              && String.eqb status "completed"
      then
        failWhen (is_none (Ride.startedAt ride))
                 (Fail 409 "RIDE_NOT_STARTED") >>
        let ride := Ride.set_status completed ride in
        let ride :=
          Ride.set_droppedAt (orNow (Ride.droppedAt ride) now) ride in
        Ride_save id_ ride >>
        setDriverStatus ride FREE >>
        ret (Ok 200)
      else respond (Fail 409 "INVALID_TRANSITION")
  end.

(** [reassignRide]. *)
Definition reassignRide (user : Actor) (id_ : nat) (newDriverId : option nat)
    : M Response :=
  failWhen (is_none newDriverId) (Fail 400 "VALIDATION_ERROR") >>
  let* ride := Ride_findById id_ in
  match ride with
  | None => respond (Fail 404 "NOT_FOUND")
  | Some ride =>
      failWhen (negb (RideStatus_eqb (Ride.status ride) assigned))
               (Fail 409 "INVALID_TRANSITION") >>
      let* oldDriverId := driverString ride in
      User_findByIdAndUpdate oldDriverId FREE >>
      ensureDriverFree newDriverId >>
      let ride := Ride.set_driver newDriverId ride in
      Ride_save id_ ride >>
      match newDriverId with
      | Some n => User_findByIdAndUpdate n ON_RIDE
      | None => ret tt
      end >>
      ret (Ok 200)
  end.

(** The filter [{ driver, isActive: true }]. *)
Definition activeShiftOf (driver : nat) : list (string * Value) :=
  [("driver"%string, VId driver); ("isActive"%string, VBool true)].

(** [acceptRide], [PATCH /api/rides/:id/accept]. *)
Definition acceptRide (user : Actor) (id_ : nat) (now : nat) : M Response :=
  let* ride := Ride_findById id_ in
  match ride with
  | None => respond (Fail 404 "NOT_FOUND")
  | Some ride =>
      let* d := driverString ride in
      failWhen (negb (Nat.eqb (id user) d)) (Fail 403 "FORBIDDEN") >>
      failWhen (negb (RideStatus_eqb (Ride.status ride) assigned))
               (Fail 409 "INVALID_STATUS") >>
      let* activeShift := Shift_findOne (activeShiftOf (id user)) in
      match activeShift with
      | None => respond (Fail 400 "NO_ACTIVE_SHIFT")
      | Some activeShift =>
          let ride := Ride.set_status accepted ride in
          let ride := Ride.set_acceptedAt (Some now) ride in
          let ride := Ride.set_shift (Some (Shift._id activeShift)) ride in
          Ride_save id_ ride >>
          setDriverStatus ride ON_RIDE >>
          ret (Ok 200)
      end
  end.

(** [rejectRide]. *)
Definition rejectRide (user : Actor) (id_ : nat) (now : nat) : M Response :=
  let* ride := Ride_findById id_ in
  match ride with
  | None => respond (Fail 404 "NOT_FOUND")
  | Some ride =>
      let* d := driverString ride in
      failWhen (negb (Nat.eqb (id user) d)) (Fail 403 "FORBIDDEN") >>
      failWhen (negb (RideStatus_eqb (Ride.status ride) assigned))
               (Fail 409 "INVALID_STATUS") >>
      let ride := Ride.set_status rejected ride in
      let ride := Ride.set_rejectedAt (Some now) ride in
      Ride_save id_ ride >>
      setDriverStatus ride FREE >>
      ret (Ok 200)
  end.

(** [if (!ride.shift) ride.shift = activeShift._id]. *)
Definition backfillShift (activeShift : Shift.t) (ride : Ride.t) : Ride.t :=
  match Ride.shift ride with
  | Some _ => ride
  | None => Ride.set_shift (Some (Shift._id activeShift)) ride
  end.

(** The body of [PATCH /api/rides/:id/drop].  [fareTotal] is [None] when
    the body has none, [Some None] when [parseFloat] gives [NaN];
    [additionalClientIds] holds the entries that are non-empty strings. *)
Record DropBody : Type := {
  fareTotal : option (option Q);
  d_driverNotes : option string;
  d_from : option nat;
  d_to : option nat;
  d_passengers : option Z;
  additionalClientIds : list nat;
  additionalClients : list string
}.

(** The update of one end of the route in [dropRide]: [current] is
    [ride.from] or [ride.to], read with [toString()]. *)
Definition changedDestination (requested current : option nat)
    : M (option nat) :=
  match requested with
  | None => ret None
  | Some f =>
      match current with
      | None => throwError
      | Some c =>
          if Nat.eqb f c then ret None
          else
            let* ok := Destination_exists f in
            if ok then ret (Some f)
            else respond (Fail 400 "INVALID_DESTINATION")
      end
  end.

(** [dropRide]. *)
Definition dropRide (user : Actor) (id_ : nat) (body : DropBody) (now : nat)
    : M Response :=
  let* ride := Ride_findById id_ in
  match ride with
  | None => respond (Fail 404 "NOT_FOUND")
  | Some ride =>
      let* d := driverString ride in
      failWhen (negb (Nat.eqb (id user) d)) (Fail 403 "FORBIDDEN") >>
      failWhen (negb (RideStatus_eqb (Ride.status ride) started))
               (Fail 409 "INVALID_STATUS") >>
      failWhen (is_none (Ride.startedAt ride))
               (Fail 400 "RIDE_NOT_STARTED") >>
      let* activeShift := Shift_findOne (activeShiftOf (id user)) in
      match activeShift with
      | None => respond (Fail 400 "NO_ACTIVE_SHIFT")
      | Some activeShift =>
          let ride := backfillShift activeShift ride in
          failWhen (negb (Nat.eqb (length (additionalClients body)) 0))
                   (Fail 400 "NEW_CLIENTS_NOT_ALLOWED") >>
          let* newFrom := changedDestination (d_from body) (Ride.from ride) in
          let ride := match newFrom with
                      | Some f => Ride.set_from (Some f) ride
                      | None => ride
                      end in
          let* newTo := changedDestination (d_to body) (Ride.to ride) in
          let ride := match newTo with
                      | Some t => Ride.set_to (Some t) ride
                      | None => ride
                      end in
          let* ride :=
            match d_passengers body with
            | Some p =>
                if negb (p =? 0)%Z && negb (p =? Ride.passengers ride)%Z
                then
                  failWhen (p <? 1)%Z (Fail 400 "VALIDATION_ERROR") >>
                  ret (Ride.set_passengers p ride)
                else ret ride
            | None => ret ride
            end in
          let* ride :=
            let validClientIds := additionalClientIds body in
            if negb (Nat.eqb (length validClientIds) 0)
            then
              let* existingClients := Client_countDocuments validClientIds in
              failWhen (negb (Nat.eqb existingClients
                                      (length validClientIds)))
                       (Fail 400 "INVALID_CLIENTS") >>
              ret (Ride.set_clients (Ride.clients ride ++ validClientIds)
                                    ride)
            else ret ride in
          let* updatedTotal :=
            match fareTotal body with
            | None => ret (total (Ride.fare ride))
            | Some None => respond (Fail 400 "VALIDATION_ERROR")
            | Some (Some parsedFareTotal) =>
                failWhen (Num.Qltb parsedFareTotal 0)
                         (Fail 400 "VALIDATION_ERROR") >>
                ret parsedFareTotal
            end in
          let totalClientCount := length (Ride.clients ride) in
          let farePerPerson :=
            if Nat.ltb 0 totalClientCount
            then Num.toFixed2
                   (updatedTotal / inject_Z (Z.of_nat totalClientCount))
            else 0 in
          let halfFare := Num.toFixed2 (updatedTotal / 2) in
          let* gst := calculateGST farePerPerson in
          let ride :=
            Ride.set_fare {| total := updatedTotal;
                             perPerson := farePerPerson;
                             halfFare := halfFare;
                             gst := gst |} ride in
          let ride :=
            Ride.set_passengers (Z.of_nat totalClientCount) ride in
          let ride :=
            if falsy (d_driverNotes body) then ride
            else Ride.set_driverNotes
                   (option_map trim (d_driverNotes body)) ride in
          let ride := Ride.set_status completed ride in
          let ride := Ride.set_droppedAt (Some now) ride in
          Ride_save id_ ride >>
          setDriverStatus ride FREE >>
          ret (Ok 200)
      end
  end.

Definition cancelReasons : list string :=
  ["vehicle_breakdown"; "emergency"; "traffic_jam"; "client_no_show";
   "client_cancelled"; "route_blocked"; "personal_emergency";
   "other"]%string.

(** [cancelOngoingRide]. *)
Definition cancelOngoingRide (user : Actor) (id_ : nat)
    (reason note : option string) (now : nat) : M Response :=
  failWhen (falsy reason) (Fail 400 "VALIDATION_ERROR") >>
  failWhen (negb (match reason with
                  | Some r => includes cancelReasons r
                  | None => false
                  end))
           (Fail 400 "INVALID_REASON") >>
  let* ride := Ride_findById id_ in
  match ride with
  | None => respond (Fail 404 "NOT_FOUND")
  | Some ride =>
      let* d := driverString ride in
      failWhen (negb (Nat.eqb (id user) d)) (Fail 403 "FORBIDDEN") >>
      failWhen (negb (RideStatus_eqb (Ride.status ride) assigned
                      || RideStatus_eqb (Ride.status ride) accepted
                      || RideStatus_eqb (Ride.status ride) started))
               (Fail 409 "INVALID_STATUS") >>
      let ride := Ride.set_status cancelled ride in
      let ride := Ride.set_cancelledAt (Some now) ride in
      let ride := Ride.set_cancellationReason reason ride in
      let ride := if falsy note then ride
                  else Ride.set_cancellationNote note ride in
      Ride_save id_ ride >>
      setDriverStatus ride FREE >>
      ret (Ok 200)
  end.

(** [startRide]. *)
Definition startRide (user : Actor) (id_ : nat) (now : nat) : M Response :=
  let* ride := Ride_findById id_ in
  match ride with
  | None => respond (Fail 404 "NOT_FOUND")
  | Some ride =>
      let* d := driverString ride in
      failWhen (negb (Nat.eqb (id user) d)) (Fail 403 "FORBIDDEN") >>
      failWhen (negb (RideStatus_eqb (Ride.status ride) accepted))
               (Fail 409 "INVALID_STATUS") >>
      failWhen (negb (is_none (Ride.startedAt ride)))
               (Fail 409 "ALREADY_STARTED") >>
      let* activeShift := Shift_findOne (activeShiftOf (id user)) in
      match activeShift with
      | None => respond (Fail 400 "NO_ACTIVE_SHIFT")
      | Some activeShift =>
          let ride := backfillShift activeShift ride in
          let ride := Ride.set_startedAt (Some now) ride in
          let ride := Ride.set_status started ride in
          Ride_save id_ ride >>
          ret (Ok 200)
      end
  end.

(** The body of [updateRideDestinations] without its outer [catch]. *)
Definition updateRideDestinations_body (user : Actor) (id_ : nat)
    (customFrom customTo : option string) : M Response :=
  let* ride := Ride_findById id_ in
  match ride with
  | None => respond (Fail 404 "NOT_FOUND")
  | Some ride =>
      let* d := driverString ride in
      failWhen (negb (Nat.eqb (id user) d)) (Fail 403 "FORBIDDEN") >>
      failWhen (negb (RideStatus_eqb (Ride.status ride) accepted)
                && negb (RideStatus_eqb (Ride.status ride) started))
               (Fail 409 "INVALID_STATUS") >>
      let* ride :=
        if blank customFrom then ret ride
        else let* savedFrom := Destination_create in
             ret (Ride.set_from (Some savedFrom) ride) in
      let* ride :=
        if blank customTo then ret ride
        else let* savedTo := Destination_create in
             ret (Ride.set_to (Some savedTo) ride) in
      Ride_save id_ ride >>
      ret (Ok 200)
  end.

Record ScheduledBody : Type := {
  s_clients : option (list nat);
  s_from : option nat;
  s_to : option nat;
  s_scheduledTime : option nat;
  s_notes : option string
}.

(** [createScheduledBooking]. *)
Definition createScheduledBooking (user : Actor) (body : ScheduledBody)
    (rideId : string) (now : nat) : M Response :=
  match s_clients body, s_scheduledTime body with
  | Some clients, Some scheduleDate =>
      failWhen (Nat.eqb (length clients) 0 || is_none (s_from body)
                || is_none (s_to body))
               (Fail 400 "VALIDATION_ERROR") >>
      failWhen (Nat.leb scheduleDate now) (Fail 400 "VALIDATION_ERROR") >>
      validateRefs clients (s_from body) (s_to body) >>
      let* booking :=
        Ride_create rideId (fun r =>
          let r := Ride.set_bookingType scheduled_booking r in
          let r := Ride.set_clients clients r in
          let r := Ride.set_from (s_from body) r in
          let r := Ride.set_to (s_to body) r in
          let r := Ride.set_scheduledTime scheduleDate r in
          let r := Ride.set_passengers (Z.of_nat (length clients)) r in
          let r := Ride.set_fare zeroFare r in
          let r := Ride.set_driver None r in
          let r := Ride.set_assignedBy (Some (id user)) r in
          let r := Ride.set_status scheduled r in
          Ride.set_notes (notesOr (s_notes body) "") r) in
      ret (Ok 201)
  | _, _ => respond (Fail 400 "VALIDATION_ERROR")
  end.

(** [assignScheduledBooking]. *)
Definition assignScheduledBooking (user : Actor) (id_ : nat)
    (driverId : option nat) : M Response :=
  failWhen (is_none driverId) (Fail 400 "VALIDATION_ERROR") >>
  let* booking := Ride_findById id_ in
  match booking with
  | None => respond (Fail 404 "NOT_FOUND")
  | Some booking =>
      failWhen (negb (RideStatus_eqb (Ride.status booking) scheduled))
               (Fail 409 "INVALID_STATUS") >>
      ensureDriverFree driverId >>
      let booking := Ride.set_driver driverId booking in
      let booking := Ride.set_status assigned booking in
      let booking := Ride.set_bookingType immediate booking in
      Ride_save id_ booking >>
      match driverId with
      | Some d => User_findByIdAndUpdate d ON_RIDE
      | None => ret tt
      end >>
      ret (Ok 200)
  end.

(** [deleteScheduledBooking]. *)
Definition deleteScheduledBooking (user : Actor) (id_ : nat) : M Response :=
  let* booking := Ride_findById id_ in
  match booking with
  | None => respond (Fail 404 "NOT_FOUND")
  | Some booking =>
      failWhen (negb (RideStatus_eqb (Ride.status booking) scheduled))
               (Fail 409 "INVALID_STATUS") >>
      modify (fun db => set_rides (delete id_ (rides db)) db) >>
      ret (Ok 200)
  end.

(** [updateScheduledBooking]. *)
Definition updateScheduledBooking (user : Actor) (id_ : nat)
    (body : ScheduledBody) (now : nat) : M Response :=
  let* booking := Ride_findById id_ in
  match booking with
  | None => respond (Fail 404 "NOT_FOUND")
  | Some booking =>
      failWhen (negb (RideStatus_eqb (Ride.status booking) scheduled))
               (Fail 409 "INVALID_STATUS") >>
      let* booking :=
        match s_clients body with
        | Some clients =>
            if Nat.ltb 0 (length clients)
            then
              validateRefs clients (Ride.from booking) (Ride.to booking) >>
              let booking := Ride.set_clients clients booking in
              ret (Ride.set_passengers (Z.of_nat (length clients)) booking)
            else ret booking
        | None => ret booking
        end in
      let* booking :=
        match s_from body with
        | Some from =>
            let* fromDest := Destination_exists from in
            failWhen (negb fromDest) (Fail 400 "INVALID_DESTINATION") >>
            ret (Ride.set_from (Some from) booking)
        | None => ret booking
        end in
      let* booking :=
        match s_to body with
        | Some to =>
            let* toDest := Destination_exists to in
            failWhen (negb toDest) (Fail 400 "INVALID_DESTINATION") >>
            ret (Ride.set_to (Some to) booking)
        | None => ret booking
        end in
      let* booking :=
        match s_scheduledTime body with
        | Some scheduleDate =>
            failWhen (Nat.leb scheduleDate now)
                     (Fail 400 "VALIDATION_ERROR") >>
            ret (Ride.set_scheduledTime scheduleDate booking)
        | None => ret booking
        end in
      let booking :=
        match s_notes body with
        | Some notes => Ride.set_notes notes booking
        | None => booking
        end in
      Ride_save id_ booking >>
      ret (Ok 200)
  end.

Definition abortReasons : list string :=
  ["client_request"; "vehicle_unavailable"; "driver_unavailable";
   "weather_conditions"; "route_issues"; "scheduling_conflict";
   "client_no_show"; "other"]%string.

(** [abortRide]. *)
Definition abortRide (user : Actor) (id_ : nat)
    (reason note : option string) (now : nat) : M Response :=
  failWhen (falsy reason) (Fail 400 "VALIDATION_ERROR") >>
  failWhen (negb (match reason with
                  | Some r => includes abortReasons r
                  | None => false
                  end))
           (Fail 400 "INVALID_REASON") >>
  let* ride := Ride_findById id_ in
  match ride with
  | None => respond (Fail 404 "NOT_FOUND")
  | Some ride =>
      failWhen (negb (Role_eqb (actor_role user) MANAGER))
               (Fail 403 "FORBIDDEN") >>
      failWhen (negb (RideStatus_eqb (Ride.status ride) assigned
                      || RideStatus_eqb (Ride.status ride) accepted))
               (Fail 409 "INVALID_STATUS") >>
      let ride := Ride.set_status aborted ride in
      let ride := Ride.set_abortedAt (Some now) ride in
      let ride := Ride.set_abortedBy (Some (id user)) ride in
      let ride := Ride.set_abortReason reason ride in
      let ride := if falsy note then ride
                  else Ride.set_abortNote note ride in
      Ride_save id_ ride >>
      setDriverStatus ride FREE >>
      ret (Ok 200)
  end.

(** The filter [{ driver, status: "active" }] of [createQuickTrip] and
    [createSelfAssignedRide]. *)
Definition statusActiveShiftOf (driver : nat) : list (string * Value) :=
  [("driver"%string, VId driver); ("status"%string, VStr "active")].

(** [createQuickTrip].  Where the shift is looked up [driverId] is
    defined: [ensureDriverFree] has found its user. *)
Definition createQuickTrip (user : Actor) (driverId : option nat)
    (notes : option string) (rideId : string) (now : nat) : M Response :=
  let* driver := ensureDriverFree driverId in
  let* activeShift :=
    match driverId with
    | Some d => Shift_findOne (statusActiveShiftOf d)
    | None => ret None
    end in
  let* ride :=
    Ride_create rideId (fun r =>
      let r := Ride.set_isQuickTrip true r in
      let r := Ride.set_bookingType immediate r in
      let r := Ride.set_driver driverId r in
      let r := Ride.set_shift (option_map Shift._id activeShift) r in
      let r := Ride.set_assignedBy (Some (id user)) r in
      let r := Ride.set_scheduledTime now r in
      let r := Ride.set_passengers 1%Z r in
      let r := Ride.set_fare zeroFare r in
      let r := Ride.set_status assigned r in
      let r := Ride.set_notes
                 (notesOr notes
                    "Quick trip - details to be completed by driver") r in
      Ride.set_quickTripDetails noQuickTripDetails r) in
  match driverId with
  | Some d => User_findByIdAndUpdate d ON_RIDE
  | None => ret tt
  end >>
  ret (Ok 201).

(** [ride.driver] after [populate("driver")]: [null] when the ride has no
    driver or the user is not in the collection. *)
Definition populatedDriver (ride : Ride.t) : M (option nat) :=
  match Ride.driver ride with
  | None => ret None
  | Some d =>
      let* u := User_findById d in
      ret (match u with Some _ => Some d | None => None end)
  end.

Record QuickTripBody : Type := {
  q_clientName : option string;
  q_pickupLocation : option string;
  q_dropoffLocation : option string;
  q_fareTotal : option Q;
  q_driverNotes : option string
}.

(** [completeQuickTripDetails]; [q_fareTotal] is [None] when
    [parseFloat(fareTotal)] is [NaN]. *)
Definition completeQuickTripDetails (user : Actor) (id_ : nat)
    (body : QuickTripBody) (now : nat) : M Response :=
  let* ride := Ride_findById id_ in
  match ride with
  | None => respond (Fail 404 "RIDE_NOT_FOUND")
  | Some ride =>
      let* driver := populatedDriver ride in
      failWhen (negb (Ride.isQuickTrip ride)) (Fail 400 "NOT_QUICK_TRIP") >>
      (if Role_eqb (actor_role user) DRIVER
       then match driver with
            | None => throwError
            | Some d =>
                failWhen (negb (Nat.eqb d (id user))) (Fail 403 "FORBIDDEN")
            end
       else ret tt) >>
      failWhen (negb (RideStatus_eqb (Ride.status ride) started))
               (Fail 400 "INVALID_STATUS") >>
      failWhen (is_none (Ride.startedAt ride))
               (Fail 400 "RIDE_NOT_STARTED") >>
      failWhen (blank (q_clientName body)) (Fail 400 "VALIDATION_ERROR") >>
      failWhen (blank (q_pickupLocation body))
               (Fail 400 "VALIDATION_ERROR") >>
      failWhen (blank (q_dropoffLocation body))
               (Fail 400 "VALIDATION_ERROR") >>
      match q_fareTotal body with
      | None => respond (Fail 400 "VALIDATION_ERROR")
      | Some parsedFare =>
          failWhen (Qle_bool parsedFare 0) (Fail 400 "VALIDATION_ERROR") >>
          let* client := Client_create in
          let* fromDest := Destination_create in
          let* toDest := Destination_create in
          let ride := Ride.set_clients [client] ride in
          let ride := Ride.set_from (Some fromDest) ride in
          let ride := Ride.set_to (Some toDest) ride in
          let ride :=
            Ride.set_quickTripDetails
              {| clientName := option_map trim (q_clientName body);
                 clientPhone := Some ""%string;
                 pickupLocation := option_map trim (q_pickupLocation body);
                 dropoffLocation := option_map trim (q_dropoffLocation body);
                 completedByDriver := true;
                 completedAt := Some now |} ride in
          let* gst := calculateGST parsedFare in
          let ride :=
            Ride.set_fare {| total := parsedFare;
                             perPerson := parsedFare;
                             halfFare := parsedFare / 2;
                             gst := gst |} ride in
          let ride :=
            if blank (q_driverNotes body) then ride
            else Ride.set_driverNotes
                   (option_map trim (q_driverNotes body)) ride in
          let ride := Ride.set_status completed ride in
          let ride := Ride.set_droppedAt (Some now) ride in
          Ride_save id_ ride >>
          match driver with
          | None => throwError
          | Some d => User_findByIdAndUpdate d FREE
          end >>
          ret (Ok 200)
      end
  end.

Record SelfAssignBody : Type := {
  sa_clientName : option string;
  sa_pickupLocation : option string;
  sa_dropoffLocation : option string;
  sa_scheduledTime : option nat;
  sa_fareTotal : option Q;
  sa_passengers : option Z;
  sa_driverNotes : option string
}.

(** [createSelfAssignedRide]; [sa_fareTotal] and [sa_passengers] are
    [None] when [parseFloat] and [parseInt] give [NaN]. *)
Definition createSelfAssignedRide (user : Actor) (body : SelfAssignBody)
    (rideId : string) (now : nat) : M Response :=
  failWhen (negb (Role_eqb (actor_role user) DRIVER))
           (Fail 403 "FORBIDDEN") >>
  let* activeShift := Shift_findOne (statusActiveShiftOf (id user)) in
  match activeShift with
  | None => respond (Fail 400 "NO_ACTIVE_SHIFT")
  | Some activeShift =>
      failWhen (blank (sa_clientName body)) (Fail 400 "VALIDATION_ERROR") >>
      failWhen (blank (sa_pickupLocation body))
               (Fail 400 "VALIDATION_ERROR") >>
      failWhen (blank (sa_dropoffLocation body))
               (Fail 400 "VALIDATION_ERROR") >>
      match sa_fareTotal body, sa_passengers body with
      | Some parsedFare, Some parsedPassengers =>
          failWhen (Qle_bool parsedFare 0) (Fail 400 "VALIDATION_ERROR") >>
          failWhen (parsedPassengers <? 1)%Z (Fail 400 "VALIDATION_ERROR") >>
          let* client := Client_create in
          let* fromDest := Destination_create in
          let* toDest := Destination_create in
          let* gst := calculateGST parsedFare in
          let perPersonFare :=
            Num.toFixed2 (parsedFare / inject_Z parsedPassengers) in
          let halfFare := Num.toFixed2 (perPersonFare / 2) in
          let* ride :=
            Ride_create rideId (fun r =>
              let r := Ride.set_isSelfAssigned true r in
              let r := Ride.set_clients [client] r in
              let r := Ride.set_from (Some fromDest) r in
              let r := Ride.set_to (Some toDest) r in
              let r := Ride.set_scheduledTime
                         (match sa_scheduledTime body with
                          | Some t => t
                          | None => now
                          end) r in
              let r := Ride.set_passengers parsedPassengers r in
              let r := Ride.set_fare {| total := parsedFare;
                                        perPerson := perPersonFare;
                                        halfFare := halfFare;
                                        gst := gst |} r in
              let r := Ride.set_driver (Some (id user)) r in
              let r := Ride.set_shift (Some (Shift._id activeShift)) r in
              let r := Ride.set_status accepted r in
              let r := Ride.set_driverNotes
                         (match sa_driverNotes body with
                          | Some n => Some (trim n)
                          | None => Some ""%string
                          end) r in
              Ride.set_acceptedAt (Some now) r) in
          User_findByIdAndUpdate (id user) ON_RIDE >>
          ret (Ok 201)
      | Some parsedFare, None =>
          failWhen (Qle_bool parsedFare 0) (Fail 400 "VALIDATION_ERROR") >>
          respond (Fail 400 "VALIDATION_ERROR")
      | None, _ => respond (Fail 400 "VALIDATION_ERROR")
      end
  end.

End RideController.

(** ** shiftController.js *)

Module ShiftController.

(** The validators of [shiftSchema] ([trim], [required], [min]). *)
Definition Shift_validate (s : Shift.t) : bool :=
  negb (String.eqb (trim (Shift.taxiNumber s)) "")
  && Qle_bool 0 (Shift.startMeter s)
  && negb (String.eqb (trim (Shift.startMeterPhoto s)) "").

(** The unique index [{ driver: 1, isActive: 1 }] with the partial filter
    [{ isActive: true }]: among the documents whose [isActive] is true no
    two have the same driver. *)
Definition Shift_index_allows (s : Shift.t) (l : list Shift.t) : bool :=
  negb (Shift.isActive s
        && existsb (fun x => Shift.isActive x
                             && Nat.eqb (Shift.driver x) (Shift.driver s)) l).

(** [await Shift.create(fields)]: validation (the strings have been trimmed
    by the setters of the schema), then the insertion, which
    the store refuses with a duplicate-key error when the index forbids
    it. *)
Definition Shift_create (fields : nat -> Shift.t) : M Shift.t :=
  let* i := gets (fun db =>
              fresh (list_to_set (map Shift._id (shifts db)) : gset nat)) in
  let shift := fields i in
  if negb (Shift_validate shift) then throwError
  else
    let* l := gets shifts in
    if negb (Shift_index_allows shift l) then throwError
    else
      modify (fun db => set_shifts (shifts db ++ [shift]) db) >>
      ret shift.

(** The body of [POST /api/shifts/start]: [taxiNumber] is [None] when it
    is absent or not a string, [startMeter] is [None] when
    [Number(startMeter)] is [NaN], [uploaded] is the url of the uploaded
    file when there is one. *)
Record StartShiftBody : Type := {
  b_taxiNumber : option string;
  b_startMeter : option Q;
  b_startMeterPhoto : option string;
  b_uploaded : option string
}.

Definition orString (a : option string) (b : string) : string :=
  match a with
  | Some s => if String.eqb s "" then b else s
  | None => b
  end.

(** [startShift] without its [catch]. *)
Definition startShift_body (user : Actor) (body : StartShiftBody)
    (now : nat) : M Response :=
  let driverId := id user in
  failWhen (falsy (b_taxiNumber body)) (Fail 400 "taxiNumber is required") >>
  match b_taxiNumber body, b_startMeter body with
  | Some taxiNumber, Some startMeterNum =>
      failWhen (Num.Qltb startMeterNum 0)
               (Fail 400 "startMeter must be a non-negative number") >>
      let* existing := Shift_findOne (RideController.activeShiftOf driverId) in
      failWhen (negb (is_none existing))
               (Fail 400 "You already have an active shift") >>
      let photoUrl :=
        orString (b_startMeterPhoto body) (orString (b_uploaded body) "") in
      let* shift :=
        Shift_create (fun i =>
          {| Shift._id := i;
             Shift.driver := driverId;
             Shift.taxiNumber := trim taxiNumber;
             Shift.startMeter := startMeterNum;
             Shift.startMeterPhoto := trim (orString (Some photoUrl) "pending");
             Shift.startTime := now;
             Shift.endTime := None;
             Shift.isActive := true |}) in
      ret (Ok 201)
  | _, _ => respond (Fail 400 "startMeter must be a non-negative number")
  end.

(** [Shift.findOneAndUpdate(filter, update)]: the first document that
    matches is replaced by its update. *)
Fixpoint updateFirst (p : Shift.t -> bool) (f : Shift.t -> Shift.t)
    (l : list Shift.t) : list Shift.t :=
  match l with
  | [] => []
  | s :: l' => if p s then f s :: l' else s :: updateFirst p f l'
  end.

Definition Shift_findOneAndUpdate (filter : list (string * Value))
    (f : Shift.t -> Shift.t) : M (option Shift.t) :=
  let p := Shift_matches (castFilter strictQuery shiftSchema_paths filter) in
  let* found := gets (fun db => List.find p (shifts db)) in
  modify (fun db => set_shifts (updateFirst p f (shifts db)) db) >>
  ret (option_map f found).

(** [updateShift] without its [catch]. *)
Definition updateShift_body (user : Actor) (shiftId : nat)
    (startMeterPhoto : option string) : M Response :=
  match startMeterPhoto with
  | None => respond (Fail 400 "startMeterPhoto URL is required")
  | Some photo =>
      failWhen (String.eqb photo "")
               (Fail 400 "startMeterPhoto URL is required") >>
      let* shift :=
        Shift_findOneAndUpdate
          [("_id"%string, VId shiftId); ("driver"%string, VId (id user))]
          (fun s =>
             {| Shift._id := Shift._id s;
                Shift.driver := Shift.driver s;
                Shift.taxiNumber := Shift.taxiNumber s;
                Shift.startMeter := Shift.startMeter s;
                Shift.startMeterPhoto := trim photo;
                Shift.startTime := Shift.startTime s;
                Shift.endTime := Shift.endTime s;
                Shift.isActive := Shift.isActive s |}) in
      failWhen (is_none shift)
               (Fail 404 "Shift not found or you do not have permission") >>
      ret (Ok 200)
  end.

(** [endShift] without its [catch]. *)
Definition endShift_body (user : Actor) (shiftId : nat) (now : nat)
    : M Response :=
  let* shift :=
    Shift_findOneAndUpdate
      [("_id"%string, VId shiftId); ("driver"%string, VId (id user));
       ("isActive"%string, VBool true)]
      (fun s =>
         {| Shift._id := Shift._id s;
            Shift.driver := Shift.driver s;
            Shift.taxiNumber := Shift.taxiNumber s;
            Shift.startMeter := Shift.startMeter s;
            Shift.startMeterPhoto := Shift.startMeterPhoto s;
            Shift.startTime := Shift.startTime s;
            Shift.endTime := Some now;
            Shift.isActive := false |}) in
  failWhen (is_none shift) (Fail 404 "Active shift not found") >>
  ret (Ok 200).

End ShiftController.

(** ** The routes: routes/rides.js and routes/shifts.js *)

Module Routes.
Import RideController ShiftController.

Inductive Request : Type :=
| POST_rides_assign (body : AssignBody) (rideId : string)
| POST_rides_scheduled (body : ScheduledBody) (rideId : string)
| POST_rides_scheduled_assign (id_ : nat) (driver : option nat)
| PUT_rides_scheduled (id_ : nat) (body : ScheduledBody)
| DELETE_rides_scheduled (id_ : nat)
| PATCH_rides_accept (id_ : nat)
| PATCH_rides_reject (id_ : nat)
| PATCH_rides_start (id_ : nat)
| PATCH_rides_drop (id_ : nat) (body : DropBody)
| POST_rides_cancel (id_ : nat) (reason note : option string)
| PUT_rides_update_destinations (id_ : nat) (customFrom customTo : option string)
| PUT_rides_status (id_ : nat) (status : string)
| POST_rides_reassign (id_ : nat) (driver : option nat)
| POST_rides_abort (id_ : nat) (reason note : option string)
| POST_rides_quick_trip (driverId : option nat) (notes : option string)
    (rideId : string)
| POST_rides_complete_quick_trip (id_ : nat) (body : QuickTripBody)
| POST_rides_self_assign (body : SelfAssignBody) (rideId : string)
| POST_shifts_start (body : StartShiftBody)
| PATCH_shifts (shiftId : nat) (startMeterPhoto : option string)
| POST_shifts_end (shiftId : nat).

(** [requireRole(roles)] in front of a handler. *)
Definition requireRole (roles : list Role) (user : Actor)
    (h : Db -> Db * Response) (db : Db) : Db * Response :=
  if existsb (Role_eqb (actor_role user)) roles then h db
  else (db, Fail 403 "FORBIDDEN").

Definition isAdminOrManager := requireRole [ADMIN; MANAGER].

(** The answer to a request of an authenticated user at time [now], and
    the store after it. *)
Definition handle (user : Actor) (now : nat) (req : Request) (db : Db)
    : Db * Response :=
  match req with
  | POST_rides_assign body rideId =>
      isAdminOrManager user (run (assignRide user body rideId)) db
  | POST_rides_scheduled body rideId =>
      isAdminOrManager user
        (run (createScheduledBooking user body rideId now)) db
  | POST_rides_scheduled_assign i driver =>
      isAdminOrManager user (run (assignScheduledBooking user i driver)) db
  | PUT_rides_scheduled i body =>
      isAdminOrManager user (run (updateScheduledBooking user i body now)) db
  | DELETE_rides_scheduled i =>
      isAdminOrManager user (run (deleteScheduledBooking user i)) db
  | PATCH_rides_accept i => run (acceptRide user i now) db
  | PATCH_rides_reject i => run (rejectRide user i now) db
  | PATCH_rides_start i => run (startRide user i now) db
  | PATCH_rides_drop i body => run (dropRide user i body now) db
  | POST_rides_cancel i reason note =>
      run (cancelOngoingRide user i reason note now) db
  | PUT_rides_update_destinations i customFrom customTo =>
      runCatch "SERVER_ERROR"
        (updateRideDestinations_body user i customFrom customTo) db
  | PUT_rides_status i status => run (updateRideStatus user i status now) db
  | POST_rides_reassign i driver =>
      isAdminOrManager user (run (reassignRide user i driver)) db
  | POST_rides_abort i reason note =>
      isAdminOrManager user (run (abortRide user i reason note now)) db
  | POST_rides_quick_trip driverId notes rideId =>
      isAdminOrManager user
        (run (createQuickTrip user driverId notes rideId now)) db
  | POST_rides_complete_quick_trip i body =>
      run (completeQuickTripDetails user i body now) db
  | POST_rides_self_assign body rideId =>
      run (createSelfAssignedRide user body rideId now) db
  | POST_shifts_start body =>
      requireRole [DRIVER] user
        (runCatch "Failed to start shift" (startShift_body user body now)) db
  | PATCH_shifts shiftId photo =>
      requireRole [DRIVER] user
        (runCatch "Failed to update shift"
           (updateShift_body user shiftId photo)) db
  | POST_shifts_end shiftId =>
      requireRole [DRIVER] user
        (runCatch "Failed to end shift" (endShift_body user shiftId now)) db
  end.

End Routes.

(** ** The transition table of the specification, and what a request
       attempts *)

Module Transitions.
Import RideController ShiftController Routes.

(** The edges of the transition table of section 4.1 of the
    specification: scheduled to assigned; assigned to accepted and to
    rejected; assigned, accepted and started to cancelled; assigned and
    accepted to aborted; accepted to started; started to completed. *)
Definition edge (a b : RideStatus) : bool :=
  match a, b with
  | scheduled, assigned
  | assigned, accepted
  | assigned, rejected
  | assigned, cancelled | accepted, cancelled | started, cancelled
  | assigned, aborted | accepted, aborted
  | accepted, started
  | started, completed => true
  | _, _ => false
  end.

(** A ride moved along the table, or did not change its status. *)
Definition along (r r' : Ride.t) : Prop :=
  Ride.status r' = Ride.status r \/
  edge (Ride.status r) (Ride.status r') = true.

Definition status_of_string (s : string) : option RideStatus :=
  if String.eqb s "scheduled" then Some scheduled
  else if String.eqb s "assigned" then Some assigned
  else if String.eqb s "accepted" then Some accepted
  else if String.eqb s "started" then Some started
  else if String.eqb s "rejected" then Some rejected
  else if String.eqb s "cancelled" then Some cancelled
  else if String.eqb s "aborted" then Some aborted
  else if String.eqb s "completed" then Some completed
  else None.

(** The ride and the status that a status-change request asks for. *)
Definition target (req : Request) : option (nat * RideStatus) :=
  match req with
  | POST_rides_scheduled_assign i _ => Some (i, assigned)
  | PATCH_rides_accept i => Some (i, accepted)
  | PATCH_rides_reject i => Some (i, rejected)
  | PATCH_rides_start i => Some (i, started)
  | PATCH_rides_drop i _ => Some (i, completed)
  | POST_rides_cancel i _ _ => Some (i, cancelled)
  | PUT_rides_status i s =>
      match status_of_string s with
      | Some t => Some (i, t)
      | None => None
      end
  | POST_rides_abort i _ _ => Some (i, aborted)
  | POST_rides_complete_quick_trip i _ => Some (i, completed)
  | _ => None
  end.

Definition isDriverOf (user : Actor) (ride : Ride.t) : bool :=
  match Ride.driver ride with
  | Some d => Nat.eqb (id user) d
  | None => false
  end.

Definition validReason (reasons : list string) (reason : option string)
    : bool :=
  match reason with
  | Some r => negb (String.eqb r "") && includes reasons r
  | None => false
  end.

(** The checks that the handler of a status-change request makes before it
    looks at the status of the ride: the role asked by the route, the
    validation of the body, the authorisation of the actor on the ride
    and, for the completion of a quick trip, the quick-trip flag. *)
Definition passesEarlierChecks (user : Actor) (ride : Ride.t) (db : Db)
    (req : Request) : bool :=
  let staff := Role_eqb (actor_role user) ADMIN
               || Role_eqb (actor_role user) MANAGER in
  match req with
  | POST_rides_scheduled_assign _ driver => staff && negb (is_none driver)
  | PATCH_rides_accept _ | PATCH_rides_reject _ | PATCH_rides_start _
  | PATCH_rides_drop _ _ => isDriverOf user ride
  | POST_rides_cancel _ reason _ =>
      validReason cancelReasons reason && isDriverOf user ride
  | PUT_rides_status _ s =>
      includes ["accepted"; "cancelled"; "completed"]%string s
      && (if Role_eqb (actor_role user) DRIVER
          then isDriverOf user ride else staff)
  | POST_rides_abort _ reason _ =>
      validReason abortReasons reason
      && Role_eqb (actor_role user) MANAGER
  | POST_rides_complete_quick_trip _ _ =>
      Ride.isQuickTrip ride
      && (if Role_eqb (actor_role user) DRIVER
          then match Ride.driver ride with
               | Some d => Nat.eqb d (id user)
                           && bool_decide (is_Some (users db !! d))
               | None => false
               end
          else true)
  | _ => false
  end.

(** ** Shifts over time *)

(** At most one active shift for each driver. *)
Definition oneActiveShift (l : list Shift.t) : Prop :=
  forall d : nat,
    (length (List.filter
               (fun s => Shift.isActive s && Nat.eqb (Shift.driver s) d) l)
     <= 1)%nat.

(** The store after a sequence of requests, each with its actor and its
    time. *)
Definition after (trace : list (Actor * nat * Request)) (db : Db) : Db :=
  fold_left (fun db e => (handle e.1.1 e.1.2 e.2 db).1) trace db.

(** A body that passes the validation of [startShift]. *)
Definition validStart (body : StartShiftBody) : Prop :=
  falsy (b_taxiNumber body) = false /\
  exists m, b_startMeter body = Some m /\ 0 <= m.

End Transitions.

(** ** A concrete store used in the statements below *)

Module Fleet.
Import RideController ShiftController Routes.

Definition driverA : Actor := {| id := 1; actor_role := DRIVER |}.
Definition driverB : Actor := {| id := 2; actor_role := DRIVER |}.
Definition driverC : Actor := {| id := 3; actor_role := DRIVER |}.
Definition managerM : Actor := {| id := 9; actor_role := MANAGER |}.

Definition user (i : nat) (r : Role) (s : DriverStatus) : User.t :=
  {| User._id := i; User.role := r; User.status := s |}.

(** An assigned ride of driver 1, as [assignRide] creates it. *)
Definition assignedRide : Ride.t :=
  Ride.set_status assigned
    (Ride.set_assignedBy (Some 9%nat)
       (Ride.set_driver (Some 1%nat)
          (Ride.set_to (Some 61%nat)
             (Ride.set_from (Some 60%nat)
                (Ride.set_clients [50%nat] (newRide "RIDE-20250101-AAAAAA")))))).

(** A completed ride of driver 1. *)
Definition completedRide : Ride.t :=
  Ride.set_status completed
    (Ride.set_startedAt (Some 5%nat)
       (Ride.set_droppedAt (Some 6%nat) assignedRide)).

(** A started quick trip of driver 1, as [createQuickTrip], an accept and
    [startRide] leave it. *)
Definition startedQuickTrip : Ride.t :=
  Ride.set_status started
    (Ride.set_startedAt (Some 5%nat)
       (Ride.set_acceptedAt (Some 4%nat)
          (Ride.set_isQuickTrip true
             (Ride.set_assignedBy (Some 9%nat)
                (Ride.set_driver (Some 1%nat)
                   (newRide "RIDE-20250101-BBBBBB")))))).

(** A started ride of driver 1 with three clients, still without fare. *)
Definition startedRide : Ride.t :=
  Ride.set_status started
    (Ride.set_startedAt (Some 5%nat)
       (Ride.set_acceptedAt (Some 4%nat)
          (Ride.set_passengers 3%Z
             (Ride.set_clients [50; 51; 52]%nat assignedRide)))).

Definition shiftOf (i driver : nat) (active : bool) : Shift.t :=
  {| Shift._id := i; Shift.driver := driver; Shift.taxiNumber := "T-100";
     Shift.startMeter := 100; Shift.startMeterPhoto := "pending";
     Shift.startTime := 1%nat;
     Shift.endTime := if active then None else Some 2%nat;
     Shift.isActive := active |}.

(** Drivers 1 and 2 are on a ride, driver 3 is free, 9 is a manager; no
    shift is open. *)
Definition noShift : Db :=
  {| rides := {[ 100%nat := assignedRide; 101%nat := completedRide;
                 102%nat := startedQuickTrip; 103%nat := startedRide ]};
     users := {[ 1%nat := user 1 DRIVER ON_RIDE;
                 2%nat := user 2 DRIVER ON_RIDE;
                 3%nat := user 3 DRIVER FREE;
                 9%nat := user 9 MANAGER FREE ]};
     shifts := [];
     clients := {[ 50%nat; 51%nat; 52%nat; 53%nat ]};
     destinations := {[ 60%nat; 61%nat ]};
     gst_rate := None |}.

(** The same store with an active shift of driver 1. *)
Definition onShift : Db := set_shifts [shiftOf 70 1 true] noShift.

(** The same store where the only shift of driver 1 has ended. *)
Definition afterShift : Db := set_shifts [shiftOf 70 1 false] noShift.

Definition emptyDb : Db :=
  {| rides := ∅; users := ∅; shifts := []; clients := ∅;
     destinations := ∅; gst_rate := None |}.

Definition startBody : StartShiftBody :=
  {| b_taxiNumber := Some "T-100"%string; b_startMeter := Some 100;
     b_startMeterPhoto := None; b_uploaded := None |}.

Definition selfAssignBody : SelfAssignBody :=
  {| sa_clientName := Some "Ann"%string;
     sa_pickupLocation := Some "Station"%string;
     sa_dropoffLocation := Some "Airport"%string;
     sa_scheduledTime := None;
     sa_fareTotal := Some 40;
     sa_passengers := Some 2%Z;
     sa_driverNotes := None |}.


Definition dropBody (fare : option (option Q)) (more : list nat) : DropBody :=
  {| fareTotal := fare; d_driverNotes := None; d_from := None;
     d_to := None; d_passengers := None; additionalClientIds := more;
     additionalClients := [] |}.


End Fleet.

(** ** How a handler leaves early *)

(** An early exit that is not an answer of success: an answer of failure,
    or an exception, which [errorHandler] or a [catch] turns into one. *)
Definition isRefusal (e : Exit) : Prop :=
  match e with
  | Answered (Ok _) => False
  | _ => True
  end.

(** A computation whose early exits are all refusals. *)
Definition refuses {A : Type} (m : M A) : Prop :=
  forall db e, (m db).2 = inr e -> isRefusal e.

(** ** What a request writes *)

Module Footprint.
Import RideController ShiftController Routes.

(** The states that no row of the transition table leaves. *)
Definition terminal (s : RideStatus) : bool :=
  match s with
  | rejected | cancelled | aborted | completed => true
  | _ => false
  end.

(** The ride that a request names in its path, [req.params.id]. *)
Definition rideOf (req : Request) : option nat :=
  match req with
  | POST_rides_scheduled_assign i _
  | PUT_rides_scheduled i _
  | DELETE_rides_scheduled i
  | PATCH_rides_accept i
  | PATCH_rides_reject i
  | PATCH_rides_start i
  | PATCH_rides_drop i _
  | POST_rides_cancel i _ _
  | PUT_rides_update_destinations i _ _
  | PUT_rides_status i _
  | POST_rides_reassign i _
  | POST_rides_abort i _ _
  | POST_rides_complete_quick_trip i _ => Some i
  | _ => None
  end.

(** The rides after a request, compared with the rides before it: nothing
    was written; or a document was created under a new id; or the
    document that the request names was saved; or it was deleted. *)
Inductive ridesWritten (req : Request) (m m' : gmap nat Ride.t) : Prop :=
| rw_none : m' = m -> ridesWritten req m m'
| rw_created (new : Ride.t) :
    rideOf req = None ->
    m' = <[fresh (dom m) := new]> m ->
    Ride_validate new = true ->
    ridesWritten req m m'
| rw_saved (k : nat) (old new : Ride.t) :
    rideOf req = Some k ->
    m !! k = Some old ->
    m' = <[k := new]> m ->
    terminal (Ride.status old) = false ->
    Ride_validate new = true ->
    ridesWritten req m m'
| rw_deleted (k : nat) (old : Ride.t) :
    req = DELETE_rides_scheduled k ->
    m !! k = Some old ->
    m' = delete k m ->
    Ride.status old = scheduled ->
    ridesWritten req m m'.

(** Every ride of the store passes the validators of the schema. *)
Definition ridesValid (db : Db) : Prop :=
  forall i r, rides db !! i = Some r -> Ride_validate r = true.

(** The users after a request have the ids and the roles they had. *)
Definition sameUsersButStatus (m m' : gmap nat User.t) : Prop :=
  forall i,
    match m !! i, m' !! i with
    | Some u, Some u' => User._id u' = User._id u /\ User.role u' = User.role u
    | None, None => True
    | _, _ => False
    end.

(** [{ status }] of [User.findByIdAndUpdate(id, { status })]. *)
Definition withStatus (s : DriverStatus) (u : User.t) : User.t :=
  {| User._id := User._id u; User.role := User.role u; User.status := s |}.

(** The requests that end a ride. *)
Definition releases (req : Request) : bool :=
  match req with
  | PATCH_rides_reject _ | PATCH_rides_drop _ _ | POST_rides_cancel _ _ _
  | POST_rides_abort _ _ _ | POST_rides_complete_quick_trip _ _ => true
  | PUT_rides_status _ s =>
      String.eqb s "cancelled" || String.eqb s "completed"
  | _ => false
  end.

(** The driver that a request gives a ride to, when the request says
    who it is. *)
Definition givesTo (user : Actor) (req : Request) : option nat :=
  match req with
  | POST_rides_assign body _ => a_driver body
  | POST_rides_scheduled_assign _ d => d
  | POST_rides_reassign _ d => d
  | POST_rides_quick_trip d _ _ => d
  | POST_rides_self_assign _ _ => Some (id user)
  | _ => None
  end.

(** The requests of routes/shifts.js. *)
Definition isShiftRequest (req : Request) : bool :=
  match req with
  | POST_shifts_start _ | PATCH_shifts _ _ | POST_shifts_end _ => true
  | _ => false
  end.

(** What an update may change of a shift: the photo, and the end of the
    shift; an ended shift stays ended. *)
Definition shiftKept (s s' : Shift.t) : Prop :=
  Shift._id s' = Shift._id s /\
  Shift.driver s' = Shift.driver s /\
  Shift.taxiNumber s' = Shift.taxiNumber s /\
  Shift.startMeter s' = Shift.startMeter s /\
  Shift.startTime s' = Shift.startTime s /\
  (Shift.isActive s' = true -> Shift.isActive s = true) /\
  (Shift.isActive s = false -> Shift.endTime s' = Shift.endTime s).

(** What a request leaves alone: a ride request the shifts, a shift
    request everything else; and no request takes a client or a
    destination away or changes the GST setting. *)
Definition frameOf (req : Request) (db db' : Db) : Prop :=
  (isShiftRequest req = false -> shifts db' = shifts db) /\
  (isShiftRequest req = true ->
   rides db' = rides db /\ users db' = users db /\
   clients db' = clients db /\ destinations db' = destinations db) /\
  clients db ⊆ clients db' /\
  destinations db ⊆ destinations db' /\
  gst_rate db' = gst_rate db.

(** The shifts after a request of [user]: the shifts before it, each kept
    in the sense of [shiftKept], followed by at most one new shift, which
    is an active shift of the user under an id that was not in use. *)
Definition shiftsAppended (user : Actor) (l l' : list Shift.t) : Prop :=
  exists kept new,
    l' = kept ++ new /\
    Forall2 shiftKept l kept /\
    (new = [] \/
     exists s, new = [s] /\ Shift.isActive s = true /\
               Shift.driver s = id user /\
               ~ In (Shift._id s) (map Shift._id l)).

End Footprint.

(** ** The live preview and the comparison with the rides of the system:
       reportCalculationService.js *)

Module Preview.
Import Num.

(** The [reportData] of the preview.  The amounts are read off the object
    itself, [num(reportData.shiftStartTotal)], not off an [amount] below
    it. *)
Record PreviewData : Type := {
  shiftStartTotal : option Q;
  shiftEndTotal : option Q;
  liftings : option Q;
  cashFares : option Q;
  totalEFTPOS : option Q;
  totalAccountTrips : option Q;
  cashExpenses : option Q;
  totalTripsCount : option Z
}.

(** The [settings] of the preview; a field is [None] when
    [typeof settings?.field] is not ["number"]. *)
Record PreviewSettings : Type := {
  rentalRatePercentage : option Q;
  tripLevyRate : option Q
}.

Record Totals : Type := {
  shiftTotalFares : Q;
  totalFareAndLiftings : Q;
  rentals : Q;
  subTotal : Q;
  tripLevy : Q;
  driverNetPay : Q;
  operatorEarnings : Q
}.

(** The value of the preview: the figures, or [{ error }] when reading the
    input threw. *)
Inductive PreviewResult : Type :=
| Figures (t : Totals)
| CalculationError.

(** [Math.max(a, b)]. *)
Definition Math_max (a b : Q) : Q := if Qltb a b then b else a.

(** [calculateRealtimePreview(reportData, settings)].  An absent
    [settings] is replaced by the default object; an absent [reportData]
    makes the first read throw, which the [catch] turns into the error
    object. *)
Definition calculateRealtimePreview (reportData : option PreviewData)
    (settings : option PreviewSettings) : PreviewResult :=
  let settings :=
    match settings with
    | Some s => s
    | None =>
        {| rentalRatePercentage :=
             Some (Reconciliation.rentalRatePercentage
                     Reconciliation.DEFAULT_SETTINGS);
           tripLevyRate :=
             Some (Reconciliation.tripLevyRate
                     Reconciliation.DEFAULT_SETTINGS) |}
    end in
  match reportData with
  | None => CalculationError
  | Some reportData =>
      let shiftStartTotal := num (shiftStartTotal reportData) in
      let shiftEndTotal := num (shiftEndTotal reportData) in
      let liftings := num (liftings reportData) in
      let cashFares := num (cashFares reportData) in
      let totalEFTPOS := num (totalEFTPOS reportData) in
      let totalAccountTrips := num (totalAccountTrips reportData) in
      let cashExpenses := num (cashExpenses reportData) in
      let totalTripsCount := int (totalTripsCount reportData) in
      let rate :=
        match rentalRatePercentage settings with
        | Some r => r
        | None =>
            Reconciliation.rentalRatePercentage
              Reconciliation.DEFAULT_SETTINGS
        end in
      let levy :=
        match tripLevyRate settings with
        | Some l => l
        | None =>
            Reconciliation.tripLevyRate Reconciliation.DEFAULT_SETTINGS
        end in
      let shiftTotalFares := Math_max 0 (shiftEndTotal - shiftStartTotal) in
      let totalFareAndLiftings := shiftTotalFares + liftings + cashFares in
      let rentals := (totalFareAndLiftings * rate) / 100 in
      let subTotal :=
        rentals - (totalEFTPOS + totalAccountTrips + cashExpenses) in
      let tripLevy := inject_Z totalTripsCount * levy in
      let driverNetPay := - (subTotal + tripLevy) in
      let operatorEarnings := totalFareAndLiftings - rentals in
      Figures
        {| shiftTotalFares := round2 shiftTotalFares;
           totalFareAndLiftings := round2 totalFareAndLiftings;
           rentals := round2 rentals;
           subTotal := round2 subTotal;
           tripLevy := round2 tripLevy;
           driverNetPay := round2 driverNetPay;
           operatorEarnings := round2 operatorEarnings |}
  end.

(** The preview input that carries the amounts of a report, and the
    preview settings that carry the two rates of the calculation
    settings. *)
Definition ofReport (rd : Reconciliation.Report) : PreviewData :=
  {| shiftStartTotal :=
       Reconciliation.amount (Reconciliation.shiftStartTotal rd);
     shiftEndTotal :=
       Reconciliation.amount (Reconciliation.shiftEndTotal rd);
     liftings := Reconciliation.liftings rd;
     cashFares := Reconciliation.cashFares rd;
     totalEFTPOS := Reconciliation.amount (Reconciliation.totalEFTPOS rd);
     totalAccountTrips := Reconciliation.totalAccountTrips rd;
     cashExpenses := Reconciliation.amount (Reconciliation.cashExpenses rd);
     totalTripsCount := Reconciliation.totalTripsCount rd |}.

Definition ofSettings (s : Reconciliation.Settings) : PreviewSettings :=
  {| rentalRatePercentage := Some (Reconciliation.rentalRatePercentage s);
     tripLevyRate := Some (Reconciliation.tripLevyRate s) |}.

(** The seven figures of a calculation. *)
Definition ofCalculations (c : Reconciliation.Calculations) : Totals :=
  {| shiftTotalFares := Reconciliation.shiftTotalFares c;
     totalFareAndLiftings := Reconciliation.totalFareAndLiftings c;
     rentals := Reconciliation.rentals c;
     subTotal := Reconciliation.subTotal c;
     tripLevy := Reconciliation.tripLevy c;
     driverNetPay := Reconciliation.driverNetPay c;
     operatorEarnings := Reconciliation.operatorEarnings c |}.

End Preview.

Module SystemComparison.
Import Num.








End SystemComparison.

(** ** The settings of the driver reports: driverReportSettingsService.js *)

Module ReportSettings.
Import Num.

(** A value of a settings object, as far as the service looks at it: a
    number (a finite one: the objects are the defaults and JSON bodies), a
    boolean, or any other value, of which only the truthiness counts. *)
Inductive JsValue : Type :=
| JsNumber (q : Q)
| JsBoolean (b : bool)
| JsOther (truthy : bool).

(** A settings object; a field is [None] when the object does not have
    the key.  Keys other than these ten are not modelled. *)
Record SettingsObject : Type := {
  rentalRatePercentage : option JsValue;
  tripLevyRate : option JsValue;
  gstRate : option JsValue;
  photoUploadMaxSize : option JsValue;
  requirePhotoForEFTPOS : option JsValue;
  requirePhotoForExpenses : option JsValue;
  autoApproveThreshold : option JsValue;
  notifyAdminsOnSubmission : option JsValue;
  retentionPeriodDays : option JsValue;
  allowReportEditsAfterSubmission : option JsValue
}.

Definition DEFAULT_DRIVER_REPORT_SETTINGS : SettingsObject :=
  {| rentalRatePercentage := Some (JsNumber 45);
     tripLevyRate := Some (JsNumber (132 # 100));
     gstRate := Some (JsNumber 10);
     photoUploadMaxSize := Some (JsNumber 5);
     requirePhotoForEFTPOS := Some (JsBoolean true);
     requirePhotoForExpenses := Some (JsBoolean true);
     autoApproveThreshold := Some (JsNumber 0);
     notifyAdminsOnSubmission := Some (JsBoolean true);
     retentionPeriodDays := Some (JsNumber 2555);
     allowReportEditsAfterSubmission := Some (JsBoolean false) |}.

(** [{ ...a, ...b }]: a key of [b] wins. *)
Definition spread (a b : SettingsObject) : SettingsObject :=
  let pick (f : SettingsObject -> option JsValue) :=
    match f b with Some v => Some v | None => f a end in
  {| rentalRatePercentage := pick rentalRatePercentage;
     tripLevyRate := pick tripLevyRate;
     gstRate := pick gstRate;
     photoUploadMaxSize := pick photoUploadMaxSize;
     requirePhotoForEFTPOS := pick requirePhotoForEFTPOS;
     requirePhotoForExpenses := pick requirePhotoForExpenses;
     autoApproveThreshold := pick autoApproveThreshold;
     notifyAdminsOnSubmission := pick notifyAdminsOnSubmission;
     retentionPeriodDays := pick retentionPeriodDays;
     allowReportEditsAfterSubmission := pick allowReportEditsAfterSubmission |}.

(** [typeof v !== 'number' || bad(v)]. *)
Definition notNumberOr (v : option JsValue) (bad : Q -> bool) : bool :=
  match v with
  | Some (JsNumber q) => bad q
  | _ => true
  end.

(** [Boolean(v)]. *)
Definition Boolean (v : option JsValue) : bool :=
  match v with
  | Some (JsNumber q) => negb (Qeq_bool q 0)
  | Some (JsBoolean b) => b
  | Some (JsOther truthy) => truthy
  | None => false
  end.

(** [validateSettings(settings)]. *)
Definition validateSettings (settings : SettingsObject)
    : result SettingsObject :=
  let validated := settings in
  if notNumberOr (rentalRatePercentage validated)
       (fun v => Qltb v 0 || Qltb 100 v)
  then Throw "Rental rate percentage must be between 0 and 100"
  else if notNumberOr (tripLevyRate validated) (fun v => Qltb v 0)
  then Throw "Trip levy rate must be a non-negative number"
  else if notNumberOr (gstRate validated) (fun v => Qltb v 0 || Qltb 50 v)
  then Throw "GST rate must be between 0 and 50"
  else if notNumberOr (photoUploadMaxSize validated)
            (fun v => Qltb v 1 || Qltb 50 v)
  then Throw "Photo upload max size must be between 1 and 50 MB"
  else if notNumberOr (retentionPeriodDays validated)
            (fun v => Qltb v 30 || Qltb 3650 v)
  then Throw "Retention period must be between 30 and 3650 days"
  else if notNumberOr (autoApproveThreshold validated) (fun v => Qltb v 0)
  then Throw "Auto-approve threshold must be a non-negative number"
  else
    Return
      {| rentalRatePercentage := rentalRatePercentage validated;
         tripLevyRate := tripLevyRate validated;
         gstRate := gstRate validated;
         photoUploadMaxSize := photoUploadMaxSize validated;
         requirePhotoForEFTPOS :=
           Some (JsBoolean (Boolean (requirePhotoForEFTPOS validated)));
         requirePhotoForExpenses :=
           Some (JsBoolean (Boolean (requirePhotoForExpenses validated)));
         autoApproveThreshold := autoApproveThreshold validated;
         notifyAdminsOnSubmission :=
           Some (JsBoolean (Boolean (notifyAdminsOnSubmission validated)));
         retentionPeriodDays := retentionPeriodDays validated;
         allowReportEditsAfterSubmission :=
           Some (JsBoolean
                   (Boolean (allowReportEditsAfterSubmission validated))) |}.

(** The document of the Settings collection with the key
    ["driverReportSettings"], when there is one. *)
Record SettingsDoc : Type := {
  value : SettingsObject;
  updatedBy : nat
}.

Definition Store : Type := option SettingsDoc.

(** [getDriverReportSettings()]. *)
Definition getDriverReportSettings (store : Store) : SettingsObject :=
  match store with
  | None => DEFAULT_DRIVER_REPORT_SETTINGS
  | Some setting => spread DEFAULT_DRIVER_REPORT_SETTINGS (value setting)
  end.

(** [updateDriverReportSettings(newSettings, updatedBy)]: the store after
    the call, and the [settings] of the value returned or the error
    thrown. *)
Definition updateDriverReportSettings (newSettings : SettingsObject)
    (updatedBy : nat) (store : Store) : Store * result SettingsObject :=
  let currentSettings := getDriverReportSettings store in
  match validateSettings (spread currentSettings newSettings) with
  | Throw message =>
      (store, Throw ("Failed to update settings: " ++ message)%string)
  | Return validatedSettings =>
      let result :=
        {| value := validatedSettings; updatedBy := updatedBy |} in
      (Some result, Return (value result))
  end.

(** [resetToDefaults(updatedBy)]. *)
Definition resetToDefaults (updatedBy : nat) (store : Store)
    : Store * result SettingsObject :=
  updateDriverReportSettings DEFAULT_DRIVER_REPORT_SETTINGS updatedBy store.

(** [getCalculationSettings()] of reportCalculationService.js, as far as
    the calculation reads it (the rental rate and the trip levy). *)
Definition getCalculationSettings (store : Store) : Reconciliation.Settings :=
  let s := getDriverReportSettings store in
  {| Reconciliation.rentalRatePercentage :=
       match rentalRatePercentage s with
       | Some (JsNumber v) => v
       | _ =>
           Reconciliation.rentalRatePercentage
             Reconciliation.DEFAULT_SETTINGS
       end;
     Reconciliation.tripLevyRate :=
       match tripLevyRate s with
       | Some (JsNumber v) => v
       | _ => Reconciliation.tripLevyRate Reconciliation.DEFAULT_SETTINGS
       end |}.

(** A number between two bounds, and a boolean. *)
Definition numberIn (v : option JsValue) (lo : Q) (hi : option Q) : Prop :=
  exists q, v = Some (JsNumber q) /\ lo <= q /\
            match hi with Some h => q <= h | None => True end.

Definition isBoolean (v : option JsValue) : Prop :=
  exists b, v = Some (JsBoolean b).

(** The ranges of [getSettingsSchema()] that [validateSettings] checks. *)
Definition withinRanges (s : SettingsObject) : Prop :=
  numberIn (rentalRatePercentage s) 0 (Some 100) /\
  numberIn (tripLevyRate s) 0 None /\
  numberIn (gstRate s) 0 (Some 50) /\
  numberIn (photoUploadMaxSize s) 1 (Some 50) /\
  numberIn (retentionPeriodDays s) 30 (Some 3650) /\
  numberIn (autoApproveThreshold s) 0 None.

Definition booleansAreBooleans (s : SettingsObject) : Prop :=
  isBoolean (requirePhotoForEFTPOS s) /\
  isBoolean (requirePhotoForExpenses s) /\
  isBoolean (notifyAdminsOnSubmission s) /\
  isBoolean (allowReportEditsAfterSubmission s).

(** An entry of [getSettingsSchema()], as far as it constrains the value
    (the label and the description are left out). *)
Inductive FieldSchema : Type :=
| NumberField (min max : Q)
| BooleanField.

Record SettingsSchema : Type := {
  s_rentalRatePercentage : FieldSchema;
  s_tripLevyRate : FieldSchema;
  s_gstRate : FieldSchema;
  s_photoUploadMaxSize : FieldSchema;
  s_requirePhotoForEFTPOS : FieldSchema;
  s_requirePhotoForExpenses : FieldSchema;
  s_autoApproveThreshold : FieldSchema;
  s_notifyAdminsOnSubmission : FieldSchema;
  s_retentionPeriodDays : FieldSchema;
  s_allowReportEditsAfterSubmission : FieldSchema
}.

(** [getSettingsSchema()]. *)
Definition getSettingsSchema : SettingsSchema :=
  {| s_rentalRatePercentage := NumberField 0 100;
     s_tripLevyRate := NumberField 0 10;
     s_gstRate := NumberField 0 50;
     s_photoUploadMaxSize := NumberField 1 50;
     s_requirePhotoForEFTPOS := BooleanField;
     s_requirePhotoForExpenses := BooleanField;
     s_autoApproveThreshold := NumberField 0 10000;
     s_notifyAdminsOnSubmission := BooleanField;
     s_retentionPeriodDays := NumberField 30 3650;
     s_allowReportEditsAfterSubmission := BooleanField |}.

(** A value that an entry of the schema allows. *)
Definition conforms (f : FieldSchema) (v : option JsValue) : Prop :=
  match f with
  | NumberField min max => numberIn v min (Some max)
  | BooleanField => isBoolean v
  end.

Definition conformsTo (schema : SettingsSchema) (s : SettingsObject) : Prop :=
  conforms (s_rentalRatePercentage schema) (rentalRatePercentage s) /\
  conforms (s_tripLevyRate schema) (tripLevyRate s) /\
  conforms (s_gstRate schema) (gstRate s) /\
  conforms (s_photoUploadMaxSize schema) (photoUploadMaxSize s) /\
  conforms (s_requirePhotoForEFTPOS schema) (requirePhotoForEFTPOS s) /\
  conforms (s_requirePhotoForExpenses schema) (requirePhotoForExpenses s) /\
  conforms (s_autoApproveThreshold schema) (autoApproveThreshold s) /\
  conforms (s_notifyAdminsOnSubmission schema) (notifyAdminsOnSubmission s) /\
  conforms (s_retentionPeriodDays schema) (retentionPeriodDays s) /\
  conforms (s_allowReportEditsAfterSubmission schema)
    (allowReportEditsAfterSubmission s).

End ReportSettings.

(** ** The rest of the life of a report: driverReportController.js *)

Module ReportLifecycle.
Import Num Reconciliation DriverReports.

Definition setStatus (s : ReportStatus) (report : Report) : Report :=
  {| reportId := reportId report;
     driver := driver report;
     status := s;
     taxiNumber := taxiNumber report;
     shiftStartTotal := shiftStartTotal report;
     shiftEndTotal := shiftEndTotal report;
     liftings := liftings report;
     cashFares := cashFares report;
     totalEFTPOS := totalEFTPOS report;
     totalAccountTrips := totalAccountTrips report;
     cashExpenses := cashExpenses report;
     totalTripsCount := totalTripsCount report;
     calculations := calculations report;
     notes := notes report;
     submittedAt := submittedAt report |}.

(** [report.<reading>.photoUrl = photoUrl] for the four readings. *)
Definition setPhoto (photoUrl : string) (m : Metered) : Metered :=
  {| amount := amount m; photoUrl := Some photoUrl |}.

Definition setReadings (start end_ eftpos expenses : Metered)
    (report : Report) : Report :=
  {| reportId := reportId report;
     driver := driver report;
     status := status report;
     taxiNumber := taxiNumber report;
     shiftStartTotal := start;
     shiftEndTotal := end_;
     liftings := liftings report;
     cashFares := cashFares report;
     totalEFTPOS := eftpos;
     totalAccountTrips := totalAccountTrips report;
     cashExpenses := expenses;
     totalTripsCount := totalTripsCount report;
     calculations := calculations report;
     notes := notes report;
     submittedAt := submittedAt report |}.

(** [updateReportPhotoUrl]; [found] is the result of
    [DriverReport.findOne({ reportId, driver: driverId })].  The schema
    trims the photo of the two meter readings when it is assigned. *)
Definition updateReportPhotoUrl (found : option Report)
    (photoType photoUrl : option string) : Outcome :=
  match photoType, photoUrl with
  | Some photoType, Some photoUrl =>
      if String.eqb photoType "" || String.eqb photoUrl ""
      then Respond 400 "MISSING_FIELDS"
      else if negb (includes ["meter_start"; "meter_end"; "eftpos";
                              "expense"]%string photoType)
      then Respond 400 "INVALID_PHOTO_TYPE"
      else
        match found with
        | None => Respond 404 "REPORT_NOT_FOUND"
        | Some report =>
            if negb (canEdit report) then Respond 400 "REPORT_NOT_EDITABLE"
            else if String.eqb photoType "meter_start" then
              Saved (setReadings
                       (setPhoto (trim photoUrl) (shiftStartTotal report))
                       (shiftEndTotal report) (totalEFTPOS report)
                       (cashExpenses report) report)
            else if String.eqb photoType "meter_end" then
              Saved (setReadings (shiftStartTotal report)
                       (setPhoto (trim photoUrl) (shiftEndTotal report))
                       (totalEFTPOS report) (cashExpenses report) report)
            else if String.eqb photoType "eftpos" then
              Saved (setReadings (shiftStartTotal report)
                       (shiftEndTotal report)
                       (setPhoto photoUrl (totalEFTPOS report))
                       (cashExpenses report) report)
            else if String.eqb photoType "expense" then
              Saved (setReadings (shiftStartTotal report)
                       (shiftEndTotal report) (totalEFTPOS report)
                       (setPhoto photoUrl (cashExpenses report)) report)
            else Saved report
        end
  | _, _ => Respond 400 "MISSING_FIELDS"
  end.

(** The review fields that [reviewReport] assigns; [rejectionReason] is
    [None] when it is not assigned. *)
Record Review : Type := {
  reviewedBy : nat;
  reviewedAt : nat;
  reviewNotes : string;
  rejectionReason : option string
}.

Inductive ReviewOutcome : Type :=
| ReviewRespond (http : nat) (code : string)
| Reviewed (report : Report) (review : Review).

(** [reviewReport]; [found] is the result of
    [DriverReport.findOne({ reportId })].  The schema trims the two
    strings when they are assigned. *)
Definition reviewReport (found : option Report)
    (action notes : option string) (reviewerId now : nat) : ReviewOutcome :=
  let action := match action with Some a => a | None => ""%string end in
  if negb (includes ["approve"; "reject"]%string action)
  then ReviewRespond 400 "INVALID_ACTION"
  else
    match found with
    | None => ReviewRespond 404 "REPORT_NOT_FOUND"
    | Some report =>
        match status report with
        | submitted =>
            Reviewed
              (setStatus (if String.eqb action "approve"
                          then approved else rejected) report)
              {| reviewedBy := reviewerId;
                 reviewedAt := now;
                 reviewNotes := trim (RideController.notesOr notes "");
                 rejectionReason :=
                   if String.eqb action "reject"
                   then Some (trim (RideController.notesOr notes
                                      "No reason provided"))
                   else None |}
        | _ => ReviewRespond 400 "INVALID_STATUS"
        end
    end.

Inductive DeleteOutcome : Type :=
| DeleteRespond (http : nat) (code : string)
| Deleted (photosToDelete : list string).

(** [deleteReport]; [found] is the result of
    [DriverReport.findOne({ reportId, driver: driverId })]. *)
Definition deleteReport (found : option Report) : DeleteOutcome :=
  match found with
  | None => DeleteRespond 404 "REPORT_NOT_FOUND"
  | Some report =>
      match status report with
      | draft =>
          Deleted
            (omap (fun p : option string =>
                     if truthy_string p then p else None)
               [photoUrl (shiftStartTotal report);
                photoUrl (shiftEndTotal report);
                photoUrl (totalEFTPOS report);
                photoUrl (cashExpenses report)])
      | _ => DeleteRespond 400 "REPORT_NOT_DELETABLE"
      end
  end.

(** The requests that work on a report that exists. *)
Inductive ReportRequest : Type :=
| PUT_report (updateData : UpdateData)
| POST_report_submit
| PATCH_report_photos (photoType photoUrl : option string)
| PUT_report_review (action notes : option string)
| DELETE_report.

(** What a request does to the stored report: nothing, a [save] of the
    document, or its removal. *)
Inductive Effect : Type :=
| Untouched
| Written (report : Report)
| Removed.

Definition effectOf (req : ReportRequest) (found : option Report)
    (settings : Settings) (user now : nat) : Effect :=
  match req with
  | PUT_report updateData =>
      match updateDriverReport found updateData settings with
      | Saved r => Written r
      | _ => Untouched
      end
  | POST_report_submit =>
      match submitReport found settings now with
      | Saved r => Written r
      | _ => Untouched
      end
  | PATCH_report_photos photoType photoUrl =>
      match updateReportPhotoUrl found photoType photoUrl with
      | Saved r => Written r
      | _ => Untouched
      end
  | PUT_report_review action notes =>
      match reviewReport found action notes user now with
      | Reviewed r _ => Written r
      | ReviewRespond _ _ => Untouched
      end
  | DELETE_report =>
      match deleteReport found with
      | Deleted _ => Removed
      | DeleteRespond _ _ => Untouched
      end
  end.

End ReportLifecycle.

(** ** The GST divisor: settingsController.js and routes/settings.js *)

Module SettingsController.











End SettingsController.

(** ** The queries of shiftController.js *)

Module ShiftQueries.
Import RideController ShiftController.








End ShiftQueries.

(** ** The drivers that can be given a ride: rideController.js *)

Module DriverQueries.
Import RideController.

(** The filter [{ role: ROLES.DRIVER, status: DRIVER_STATUS.FREE }]. *)
Definition isFreeDriver (u : User.t) : bool :=
  Role_eqb (User.role u) DRIVER
  && match User.status u with
     | FREE => true
     | _ => false
     end.

(** [getAvailableDrivers]: the documents of the answer (their order, by
    name, is not modelled). *)
Definition getAvailableDrivers : M (gmap nat User.t) :=
  gets (fun db => filter (fun kv => isFreeDriver kv.2 = true) (users db)).

End DriverQueries.

(** * Properties *)

(** ** Rounding *)

Section Rounding.
Import Num.

Lemma Qltb_lt (a b : Q) : Qltb a b = true <-> a < b.
Proof.
  unfold Qltb. rewrite negb_true_iff.
  destruct (Qle_bool b a) eqn:E.
  - apply Qle_bool_iff in E. split; [discriminate | intros H; lra].
  - split; [intros _ | reflexivity].
    destruct (Qlt_le_dec a b) as [H | H]; [exact H |].
    apply Qle_bool_iff in H. congruence.
Qed.

Lemma Qltb_ge (a b : Q) : Qltb a b = false <-> b <= a.
Proof.
  unfold Qltb. rewrite negb_false_iff. apply Qle_bool_iff.
Qed.

Lemma EPSILON_pos : 0 < EPSILON.
Proof. reflexivity. Qed.





End Rounding.

(** ** The reconciliation engine *)

Section ReconciliationFacts.
Import Num Reconciliation DriverReports ReportExamples.

Lemma Qdiv100 (n : Q) : n / 100 == n * (1 # 100).
Proof. reflexivity. Qed.


Lemma round2_nonneg (x : Q) : 0 <= x -> 0 <= round2 x.
Proof.
  intros Hx. unfold round2, Math_round. rewrite Qdiv100.
  assert (H : (0 <= Qfloor ((x + EPSILON) * 100 + (1 # 2)))%Z).
  { change 0%Z with (Qfloor 0). apply Qfloor_resp_le.
    pose proof EPSILON_pos. lra. }
  rewrite Zle_Qle in H. change (inject_Z 0) with 0 in H. lra.
Qed.

(** With the end meter at or above the start meter the calculation is the
    full one, whatever [allowPartial] is. *)
Lemma calculateReportTotals_full (rd : Report) (settings : Settings)
    (allowPartial : bool) :
  num (amount (shiftStartTotal rd)) <= num (amount (shiftEndTotal rd)) ->
  exists c,
    calculateReportTotals (Some rd) settings allowPartial = Return c /\
    partial c = false /\
    let stf := num (amount (shiftEndTotal rd))
               - num (amount (shiftStartTotal rd)) in
    let tfl := stf + num (liftings rd) + num (cashFares rd) in
    let rent := tfl * rentalRatePercentage settings / 100 in
    let sub := rent - (num (amount (totalEFTPOS rd))
                       + num (totalAccountTrips rd)
                       + num (amount (cashExpenses rd))) in
    let levy := inject_Z (int (totalTripsCount rd)) * tripLevyRate settings in
    shiftTotalFares c = round2 stf /\
    totalFareAndLiftings c = round2 tfl /\
    rentals c = round2 rent /\
    subTotal c = round2 sub /\
    tripLevy c = round2 levy /\
    driverNetPay c = round2 (- (sub + levy)) /\
    operatorEarnings c = round2 (tfl - rent).
Proof.
  intros Hle. unfold calculateReportTotals, canCalculateTotals.
  apply Qle_bool_iff in Hle. rewrite Hle. cbn [andb negb rethrow].
  eexists. split; [reflexivity |]. cbn. repeat split; reflexivity.
Qed.

(** With the end meter below the start meter the calculation returns the
    zero object when [allowPartial] is set, and throws otherwise. *)
Lemma calculateReportTotals_short (rd : Report) (settings : Settings) :
  num (amount (shiftEndTotal rd)) < num (amount (shiftStartTotal rd)) ->
  (exists c,
     calculateReportTotals (Some rd) settings true = Return c /\
     partial c = true /\
     shiftTotalFares c = 0 /\ totalFareAndLiftings c = 0 /\
     rentals c = 0 /\ subTotal c = 0 /\ tripLevy c = 0 /\
     driverNetPay c = 0 /\ operatorEarnings c = 0) /\
  calculateReportTotals (Some rd) settings false =
    Throw ("Failed to calculate report totals: "
           ++ "Shift end total cannot be less than shift start total").
Proof.
  intros Hlt. unfold calculateReportTotals, canCalculateTotals.
  assert (Hb : Qle_bool (num (amount (shiftStartTotal rd)))
                        (num (amount (shiftEndTotal rd))) = false).
  { apply Qltb_lt in Hlt. unfold Qltb in Hlt.
    apply negb_true_iff in Hlt. exact Hlt. }
  rewrite Hb. cbn [andb negb]. split.
  - eexists. split; [reflexivity |]. cbn. repeat split; reflexivity.
  - apply Qltb_lt in Hlt. rewrite Hlt. reflexivity.
Qed.




(** C8 (as amended).  Outside partial mode: an end meter below the start
    meter makes the calculation throw; on a returned calculation the
    validation rejects when [rentals > totalFareAndLiftings] and when the
    trip count is negative; and it accepts, with no errors, exactly when
    [totalFareAndLiftings] is not negative, [rentals] does not exceed it
    and the trip count is not negative. *)
Theorem validateCalculations_accepts_iff :
  forall (rd : Report) (settings : Settings),
    (num (amount (shiftEndTotal rd)) < num (amount (shiftStartTotal rd)) ->
     calculateReportTotals (Some rd) settings false =
       Throw ("Failed to calculate report totals: "
              ++ "Shift end total cannot be less than shift start total")) /\
    (forall c : Calculations,
       totalFareAndLiftings c < rentals c ->
       isValid (validateCalculations c rd) = false) /\
    (forall c : Calculations,
       (int (totalTripsCount rd) < 0)%Z ->
       isValid (validateCalculations c rd) = false) /\
    (forall c : Calculations,
       calculateReportTotals (Some rd) settings false = Return c ->
       (isValid (validateCalculations c rd) = true <->
        0 <= totalFareAndLiftings c /\
        rentals c <= totalFareAndLiftings c /\
        (0 <= int (totalTripsCount rd))%Z) /\
       (isValid (validateCalculations c rd) = true ->
        errors (validateCalculations c rd) = [])).
Proof.
  intros rd settings. split; [| split; [| split]].
  - intros Hlt. apply (calculateReportTotals_short rd settings Hlt).
  - intros c Hlt. unfold validateCalculations.
    apply Qltb_lt in Hlt. rewrite Hlt.
    destruct (Qltb (shiftTotalFares c) 0), (Qltb (totalFareAndLiftings c) 0),
      (match totalTripsCount rd with Some n => n | None => 0%Z end <? 0)%Z;
      reflexivity.
  - intros c Hlt. unfold validateCalculations.
    assert (Ht : (match totalTripsCount rd with Some n => n | None => 0%Z end
                  <? 0)%Z = true) by (apply Z.ltb_lt; exact Hlt).
    rewrite Ht.
    destruct (Qltb (shiftTotalFares c) 0), (Qltb (totalFareAndLiftings c) 0),
      (Qltb (totalFareAndLiftings c) (rentals c)); reflexivity.
  - intros c Hc.
    assert (Hs : Qltb (shiftTotalFares c) 0 = false).
    { destruct (Qlt_le_dec (num (amount (shiftEndTotal rd)))
                           (num (amount (shiftStartTotal rd)))) as [Hlt | Hle].
      - rewrite (proj2 (calculateReportTotals_short rd settings Hlt)) in Hc.
        discriminate Hc.
      - destruct (calculateReportTotals_full rd settings false Hle)
          as (c' & Hc' & _ & H1 & _).
        rewrite Hc' in Hc. injection Hc as <-. rewrite H1.
        apply Qltb_ge. apply round2_nonneg. lra. }
    unfold validateCalculations, int. rewrite Hs.
    destruct (Qltb (totalFareAndLiftings c) 0) eqn:E1;
      destruct (Qltb (totalFareAndLiftings c) (rentals c)) eqn:E2;
      destruct (match totalTripsCount rd with Some n => n | None => 0%Z end
                <? 0)%Z eqn:E3;
      cbn;
      try apply Qltb_lt in E1; try apply Qltb_ge in E1;
      try apply Qltb_lt in E2; try apply Qltb_ge in E2;
      try apply Z.ltb_lt in E3; try apply Z.ltb_ge in E3;
      (split; [split; [intros H; try discriminate H | intros (H1 & H2 & H3)]
              | intros H; try discriminate H]);
      try reflexivity; try (repeat split; assumption); try lra; try lia.
Qed.

(** C8 at the worked scenario. *)
Lemma validateCalculations_accepts_scenario :
  exists c,
    calculateReportTotals (Some scenario) DEFAULT_SETTINGS false = Return c /\
    isValid (validateCalculations c scenario) = true.
Proof.
  assert (H0 : num (amount (shiftStartTotal scenario))
               <= num (amount (shiftEndTotal scenario)))
    by (vm_compute; discriminate).
  destruct (calculateReportTotals_full scenario DEFAULT_SETTINGS false H0)
    as (c & Hc & _).
  destruct (validateCalculations_accepts_iff scenario DEFAULT_SETTINGS)
    as (_ & _ & _ & H).
  destruct (H c Hc) as [Hiff _].
  exists c. split; [exact Hc |]. apply Hiff.
  assert (Hc' := Hc). vm_compute in Hc'. injection Hc' as <-.
  repeat split; vm_compute; discriminate.
Defined.

(** C8, the statement as written fails: with a rental rate of 100 and
    liftings of -10 the end meter is not below the start meter, the rentals
    (-10) do not exceed the total (-10) and the trip count is 0, yet the
    validation rejects, because the total is negative. *)
Lemma validation_rejects_a_negative_total :
  exists c,
    calculateReportTotals (Some negativeLiftings) fullRate false = Return c /\
    num (amount (shiftStartTotal negativeLiftings))
      <= num (amount (shiftEndTotal negativeLiftings)) /\
    rentals c <= totalFareAndLiftings c /\
    (0 <= int (totalTripsCount negativeLiftings))%Z /\
    isValid (validateCalculations c negativeLiftings) = false /\
    errors (validateCalculations c negativeLiftings) =
      ["Total fare and liftings cannot be negative"%string].
Proof.
  eexists. split; [reflexivity |].
  repeat split; vm_compute; try reflexivity; discriminate.
Qed.

End ReconciliationFacts.

(** ** Draft editing and submission *)

Section DriverReportFacts.
Import Num Reconciliation DriverReports ReportExamples.

(** An edit that leaves the end meter below the start meter and touches a
    field of the calculation ends in the exception of the calculation. *)
Lemma updateDriverReport_short (report : Report) (updateData : UpdateData)
    (settings : Settings) :
  canEdit report = true ->
  is_some (u_shiftStartTotal updateData)
  || is_some (u_shiftEndTotal updateData)
  || truthy_num (u_liftings updateData)
  || truthy_num (u_cashFares updateData)
  || is_some (u_totalEFTPOS updateData)
  || truthy_num (u_totalAccountTrips updateData)
  || is_some (u_cashExpenses updateData)
  || truthy_int (u_totalTripsCount updateData) = true ->
  num (amount (shiftEndTotal (applyUpdate report updateData)))
    < num (amount (shiftStartTotal (applyUpdate report updateData))) ->
  updateDriverReport (Some report) updateData settings =
    Next ("Failed to calculate report totals: "
          ++ "Shift end total cannot be less than shift start total").
Proof.
  intros He Hf Hlt. unfold updateDriverReport.
  rewrite He. cbn [negb]. cbv zeta. rewrite Hf.
  rewrite (proj2 (calculateReportTotals_short _ settings Hlt)).
  reflexivity.
Qed.

(** C2, the behaviour of the code where it departs from the statement.
    The calculation has the partial mode: with the end meter below the
    start meter it returns the zero object tagged partial when
    [allowPartial] is set, and throws otherwise.  [updateDriverReport]
    calls it without [allowPartial], so an edit of a draft that touches a
    field of the calculation while the end meter is below the start meter
    ends in the exception.  On a draft whose end meter is not entered and
    whose start meter is 100, the edit [{ liftings: 20 }] ends in the
    exception, and so does entering the start meter 100 on a draft on
    which nothing was entered.  And with [allowPartial] set, a draft with
    start meter 0 and no end meter gets a full calculation, not the zero
    object. *)
Theorem draft_edit_throws_without_end_meter :
  (forall (rd : Report) (settings : Settings),
     num (amount (shiftEndTotal rd)) < num (amount (shiftStartTotal rd)) ->
     (exists c,
        calculateReportTotals (Some rd) settings true = Return c /\
        partial c = true /\
        shiftTotalFares c = 0 /\ totalFareAndLiftings c = 0 /\
        rentals c = 0 /\ subTotal c = 0 /\ tripLevy c = 0 /\
        driverNetPay c = 0 /\ operatorEarnings c = 0) /\
     calculateReportTotals (Some rd) settings false =
       Throw ("Failed to calculate report totals: "
              ++ "Shift end total cannot be less than shift start total")) /\
  (forall (report : Report) (updateData : UpdateData) (settings : Settings),
     canEdit report = true ->
     is_some (u_shiftStartTotal updateData)
     || is_some (u_shiftEndTotal updateData)
     || truthy_num (u_liftings updateData)
     || truthy_num (u_cashFares updateData)
     || is_some (u_totalEFTPOS updateData)
     || truthy_num (u_totalAccountTrips updateData)
     || is_some (u_cashExpenses updateData)
     || truthy_int (u_totalTripsCount updateData) = true ->
     num (amount (shiftEndTotal (applyUpdate report updateData)))
       < num (amount (shiftStartTotal (applyUpdate report updateData))) ->
     updateDriverReport (Some report) updateData settings =
       Next ("Failed to calculate report totals: "
             ++ "Shift end total cannot be less than shift start total")) /\
  updateDriverReport (Some noEndMeter) setLiftings DEFAULT_SETTINGS =
    Next ("Failed to calculate report totals: "
          ++ "Shift end total cannot be less than shift start total") /\
  updateDriverReport (Some freshDraft) setStartMeter DEFAULT_SETTINGS =
    Next ("Failed to calculate report totals: "
          ++ "Shift end total cannot be less than shift start total") /\
  (exists c,
     calculateReportTotals (Some zeroStartNoEnd) DEFAULT_SETTINGS true
       = Return c /\
     partial c = false /\
     totalFareAndLiftings c == 20 /\
     rentals c == 9 /\
     operatorEarnings c == 11).
Proof.
  split; [exact calculateReportTotals_short |].
  split; [exact updateDriverReport_short |].
  split; [reflexivity |]. split; [reflexivity |].
  eexists. split; [reflexivity |].
  repeat split; vm_compute; reflexivity.
Qed.

(** C2 at a concrete edit: the draft has the start meter 100 and no end
    meter, and the body is [{ liftings: 20 }]. *)
Lemma draft_edit_of_liftings_throws :
  canEdit noEndMeter = true /\
  updateDriverReport (Some noEndMeter) setLiftings DEFAULT_SETTINGS =
    Next ("Failed to calculate report totals: "
          ++ "Shift end total cannot be less than shift start total").
Proof.
  split; [reflexivity |].
  apply (proj1 (proj2 draft_edit_throws_without_end_meter)
           noEndMeter setLiftings DEFAULT_SETTINGS).
  - reflexivity.
  - reflexivity.
  - vm_compute. reflexivity.
Defined.




End DriverReportFacts.

(** ** The ride state machine *)

Section RideFacts.
Import RideController ShiftController Routes Transitions.

Lemma RideStatus_eqb_eq (a b : RideStatus) :
  RideStatus_eqb a b = true <-> a = b.
Proof. destruct a, b; cbn; split; intros H; congruence. Qed.

Lemma along_refl (r : Ride.t) : along r r.
Proof. left. reflexivity. Qed.

(** Writing a document that moved along the table keeps every ride of the
    collection along the table. *)
Lemma rides_along_insert (m : gmap nat Ride.t) (k : nat) (old new : Ride.t) :
  m !! k = Some old -> along old new ->
  forall i r r', m !! i = Some r -> <[k := new]> m !! i = Some r' ->
                 along r r'.
Proof.
  intros Hk Hal i r r' Hi Hi'.
  destruct (decide (k = i)) as [-> | Hne].
  - rewrite lookup_insert_eq in Hi'. congruence.
  - rewrite lookup_insert_ne in Hi' by exact Hne.
    rewrite Hi in Hi'. injection Hi' as <-. apply along_refl.
Qed.

Lemma rides_along_fresh (m : gmap nat Ride.t) (new : Ride.t) :
  forall i r r', m !! i = Some r ->
                 <[fresh (dom m) := new]> m !! i = Some r' -> along r r'.
Proof.
  intros i r r' Hi Hi'.
  destruct (decide (fresh (dom m) = i)) as [He | Hne].
  - exfalso. apply (is_fresh (dom m)). rewrite He.
    apply elem_of_dom. eauto.
  - rewrite lookup_insert_ne in Hi' by exact Hne.
    rewrite Hi in Hi'. injection Hi' as <-. apply along_refl.
Qed.

Lemma rides_along_same (m : gmap nat Ride.t) :
  forall i r r', m !! i = Some r -> m !! i = Some r' -> along r r'.
Proof. intros i r r' H1 H2. rewrite H1 in H2. injection H2 as <-. left. reflexivity. Qed.

Lemma rides_along_delete (m : gmap nat Ride.t) (k : nat) :
  forall i r r', m !! i = Some r -> delete k m !! i = Some r' -> along r r'.
Proof.
  intros i r r' Hi Hi'.
  destruct (decide (k = i)) as [-> | Hne].
  - rewrite lookup_delete_eq in Hi'. discriminate.
  - rewrite lookup_delete_ne in Hi' by exact Hne.
    rewrite Hi in Hi'. injection Hi' as <-. apply along_refl.
Qed.

(** *** Symbolic execution of handlers *)

Lemma wp_ret {A : Type} (a : A) Q db : Q db (inl a) -> wp (ret a) Q db.
Proof. exact (fun H => H). Qed.

Lemma wp_bind {A B : Type} (m : M A) (k : A -> M B) Q db :
  wp m (fun db' x => match x with
                     | inl a => wp (k a) Q db'
                     | inr e => Q db' (inr e)
                     end) db ->
  wp (bind m k) Q db.
Proof.
  unfold wp, bind. destruct (m db) as [db' [a | e]]; cbn; exact (fun H => H).
Qed.

Lemma wp_respond {A : Type} (r : Response) (Q : Db -> A + Exit -> Prop) db :
  Q db (inr (Answered r)) -> wp (respond r) Q db.
Proof. exact (fun H => H). Qed.

Lemma wp_throw {A : Type} s c (Q : Db -> A + Exit -> Prop) db :
  Q db (inr (Thrown s c)) -> wp (throw s c) Q db.
Proof. exact (fun H => H). Qed.

Lemma wp_throwError {A : Type} (Q : Db -> A + Exit -> Prop) db :
  Q db (inr (Thrown None None)) -> wp throwError Q db.
Proof. exact (fun H => H). Qed.

Lemma wp_gets {A : Type} (f : Db -> A) Q db :
  Q db (inl (f db)) -> wp (gets f) Q db.
Proof. exact (fun H => H). Qed.

Lemma wp_modify (f : Db -> Db) Q db :
  Q (f db) (inl tt) -> wp (modify f) Q db.
Proof. exact (fun H => H). Qed.

Lemma wp_failWhen (c : bool) (r : Response) Q db :
  (c = true -> Q db (inr (Answered r))) ->
  (c = false -> Q db (inl tt)) ->
  wp (failWhen c r) Q db.
Proof. destruct c; intros H1 H2; [apply H1 | apply H2]; reflexivity. Qed.

Lemma run_wp (h : M Response) (P : Db -> Response -> Prop) db :
  wp h (fun db' x => P db' match x with
                           | inl r => r
                           | inr (Answered r) => r
                           | inr (Thrown s c) => errorHandler s c
                           end) db ->
  P (run h db).1 (run h db).2.
Proof.
  unfold wp, run. destruct (h db) as [db' [r | [r | s c]]]; exact (fun H => H).
Qed.

Lemma runCatch_wp (code : string) (h : M Response)
    (P : Db -> Response -> Prop) db :
  wp h (fun db' x => P db' match x with
                           | inl r => r
                           | inr (Answered r) => r
                           | inr (Thrown _ _) => Fail 500 code
                           end) db ->
  P (runCatch code h db).1 (runCatch code h db).2.
Proof.
  unfold wp, runCatch.
  destruct (h db) as [db' [r | [r | s c]]]; exact (fun H => H).
Qed.

Lemma requireRole_wp roles user h (P : Db -> Response -> Prop) db :
  (existsb (Role_eqb (actor_role user)) roles = false ->
   P db (Fail 403 "FORBIDDEN")) ->
  (existsb (Role_eqb (actor_role user)) roles = true ->
   P (h db).1 (h db).2) ->
  P (requireRole roles user h db).1 (requireRole roles user h db).2.
Proof.
  unfold requireRole. intros H1 H2.
  destruct (existsb (Role_eqb (actor_role user)) roles);
    [apply H2; reflexivity | apply H1; reflexivity].
Qed.

Lemma ro_ret {A : Type} (a : A) : ro (ret a).
Proof. intros db. reflexivity. Qed.

Lemma ro_respond {A : Type} (r : Response) : ro (respond r : M A).
Proof. intros db. reflexivity. Qed.

Lemma ro_throw {A : Type} s c : ro (throw s c : M A).
Proof. intros db. reflexivity. Qed.

Lemma ro_throwError {A : Type} : ro (throwError : M A).
Proof. intros db. reflexivity. Qed.

Lemma ro_gets {A : Type} (f : Db -> A) : ro (gets f).
Proof. intros db. reflexivity. Qed.

Lemma ro_failWhen c r : ro (failWhen c r).
Proof. intros db. destruct c; reflexivity. Qed.

Lemma ro_bind {A B : Type} (m : M A) (k : A -> M B) :
  ro m -> (forall a, ro (k a)) -> ro (bind m k).
Proof.
  intros Hm Hk db. unfold bind. specialize (Hm db).
  destruct (m db) as [db' [a | e]]; cbn in *; subst db'.
  - apply Hk.
  - reflexivity.
Qed.

Lemma wp_bind_ro {A B : Type} (m : M A) (k : A -> M B) Q db :
  ro m ->
  (forall e, Q db (inr e)) ->
  (forall a, wp (k a) Q db) ->
  wp (bind m k) Q db.
Proof.
  intros Hm He Hk. unfold wp, bind. specialize (Hm db).
  destruct (m db) as [db' [a | e]]; cbn in *; subst db'.
  - apply Hk.
  - apply He.
Qed.

Ltac wp_unfold :=
  unfold Ride_findById, Ride_save, Ride_create, User_findById,
    User_findByIdAndUpdate, Shift_findOne, Shift_findOneAndUpdate,
    Shift_create, Client_countDocuments, Destination_exists, Client_create,
    Destination_create, calculateGST, getCurrentGSTRate, setDriverStatus,
    driverString, ensureDriverFree, validateRefs, populatedDriver,
    changedDestination.

Ltac ro_step :=
  lazymatch goal with
  | |- ro (ret _) => apply ro_ret
  | |- ro (respond _) => apply ro_respond
  | |- ro throwError => apply ro_throwError
  | |- ro (throw _ _) => apply ro_throw
  | |- ro (gets _) => apply ro_gets
  | |- ro (failWhen _ _) => apply ro_failWhen
  | |- ro (bind _ _) => apply ro_bind; [| intros ?]
  | |- ro (match ?x with _ => _ end) => destruct x
  | |- ro (if ?x then _ else _) => destruct x
  | |- ro (let x := _ in _) => cbv zeta
  | |- ro _ => progress wp_unfold
  end.

Ltac ro_run := repeat ro_step.

(** One step of the execution: the monad operations by their rule, a
    query or a compound operation by unfolding, a branch by cases.  A
    step whose value is computed by a read-only computation with branches
    of its own is taken as a whole: its exits leave the store as it is and
    its value is arbitrary. *)
Ltac wp_bind_step leaf :=
  lazymatch goal with
  | |- wp (bind ?m _) _ _ =>
      lazymatch m with
      | match _ with _ => _ end =>
          first [ apply wp_bind_ro; [solve [ro_run] | intros ?; leaf | intros ?]
                | apply wp_bind ]
      | if _ then _ else _ =>
          first [ apply wp_bind_ro; [solve [ro_run] | intros ?; leaf | intros ?]
                | apply wp_bind ]
      | changedDestination _ _ =>
          apply wp_bind_ro; [solve [ro_run] | intros ?; leaf | intros ?]
      | calculateGST _ =>
          apply wp_bind_ro; [solve [ro_run] | intros ?; leaf | intros ?]
      | validateRefs _ _ _ =>
          apply wp_bind_ro; [solve [ro_run] | intros ?; leaf | intros ?]
      | ensureDriverFree _ =>
          apply wp_bind_ro; [solve [ro_run] | intros ?; leaf | intros ?]
      | _ => apply wp_bind
      end
  end.

Ltac wp_step leaf :=
  lazymatch goal with
  | |- wp (bind _ _) _ _ => wp_bind_step leaf
  | |- wp (ret _) _ _ => apply wp_ret
  | |- wp (respond _) _ _ => apply wp_respond
  | |- wp throwError _ _ => apply wp_throwError
  | |- wp (throw _ _) _ _ => apply wp_throw
  | |- wp (gets _) _ _ => apply wp_gets
  | |- wp (modify _) _ _ => apply wp_modify
  | |- wp (failWhen _ _) _ _ => apply wp_failWhen; intros ?
  | |- wp (match ?x with _ => _ end) _ _ =>
      first [ is_var x; destruct x
            | let E := fresh "E" in destruct x eqn:E ]
  | |- wp (if ?x then _ else _) _ _ =>
      let E := fresh "E" in destruct x eqn:E
  | |- wp (let x := _ in _) _ _ => cbv zeta
  | |- wp _ _ _ => progress wp_unfold
  | |- _ => progress cbv beta iota
  end.

Ltac wp_run leaf := repeat (wp_step leaf).

(** The execution that follows every branch of every step. *)
Ltac wp_step_exact :=
  lazymatch goal with
  | |- wp (bind _ _) _ _ => apply wp_bind
  | |- _ => wp_step idtac
  end.

Ltac wp_run_exact := repeat wp_step_exact.

Ltac db_simpl :=
  unfold modify, ret, gets;
  cbn [fst snd rides users shifts clients destinations gst_rate
       set_rides set_users set_shifts set_clients set_destinations].

Ltac ride_simpl :=
  cbn [Ride.status Ride.set_status Ride.set_bookingType Ride.set_clients
       Ride.set_from Ride.set_to Ride.set_quickTripDetails
       Ride.set_scheduledTime Ride.set_passengers Ride.set_fare
       Ride.set_driver Ride.set_shift Ride.set_assignedBy Ride.set_notes
       Ride.set_driverNotes Ride.set_acceptedAt Ride.set_startedAt
       Ride.set_rejectedAt Ride.set_droppedAt Ride.set_cancelledAt
       Ride.set_cancellationReason Ride.set_cancellationNote
       Ride.set_abortedBy Ride.set_abortedAt Ride.set_abortReason
       Ride.set_abortNote Ride.set_isQuickTrip Ride.set_isSelfAssigned
       Ride.driver Ride.shift Ride.acceptedAt Ride.fare Ride.clients
       Ride.passengers Ride.startedAt Ride.isQuickTrip] in *.

(** *** Every request moves rides along the table *)

Ltac along_status :=
  unfold along, backfillShift; ride_simpl;
  repeat case_match; ride_simpl;
  first
    [ left; reflexivity
    | right;
      repeat match goal with
             | H : context [Ride.status ?t] |- _ => revert H
             end;
      match goal with
      | |- context [Ride.status ?t] => destruct (Ride.status t)
      end; cbn; intros;
      first [ reflexivity | discriminate | congruence ] ].

Ltac along_leaf :=
  db_simpl; intros;
  match goal with
  | H1 : ?m !! ?i = Some ?r, H2 : ?m !! ?i = Some ?r' |- along ?r ?r' =>
      exact (rides_along_same m i r r' H1 H2)
  | H1 : ?m !! ?i = Some ?r,
    H2 : <[fresh (dom ?m) := ?new]> ?m !! ?i = Some ?r' |- along ?r ?r' =>
      exact (rides_along_fresh m new i r r' H1 H2)
  | H1 : ?m !! ?i = Some ?r, H2 : delete ?k ?m !! ?i = Some ?r'
    |- along ?r ?r' =>
      exact (rides_along_delete m k i r r' H1 H2)
  | E : ?m !! ?k = Some ?old, H1 : ?m !! ?i = Some ?r,
    H2 : <[?k := ?new]> ?m !! ?i = Some ?r' |- along ?r ?r' =>
      refine (rides_along_insert m k old new E _ i r r' H1 H2);
      along_status
  end.

Ltac unfold_handlers :=
  unfold assignRide, createScheduledBooking, assignScheduledBooking,
    updateScheduledBooking, deleteScheduledBooking, acceptRide, rejectRide,
    startRide, dropRide, cancelOngoingRide, updateRideDestinations_body,
    updateRideStatus, reassignRide, abortRide, createQuickTrip,
    completeQuickTripDetails, createSelfAssignedRide, startShift_body,
    updateShift_body, endShift_body.

(** No request moves a ride off the table: a ride that is in the store
    before and after a request has the status it had, or one that the
    table allows after it. *)
Lemma handle_rides_along (user : Actor) (now : nat) (req : Request)
    (db : Db) :
  forall i r r',
    rides db !! i = Some r ->
    rides (handle user now req db).1 !! i = Some r' -> along r r'.
Proof.
  destruct req; unfold handle, isAdminOrManager;
    try (apply (requireRole_wp _ _ _
                  (fun db' _ => forall i r r', rides db !! i = Some r ->
                     rides db' !! i = Some r' -> along r r'));
         [intros _; apply rides_along_same | intros _]);
    try apply (run_wp _
                 (fun db' _ => forall i r r', rides db !! i = Some r ->
                    rides db' !! i = Some r' -> along r r'));
    try apply (runCatch_wp _ _
                 (fun db' _ => forall i r r', rides db !! i = Some r ->
                    rides db' !! i = Some r' -> along r r')).
  all: unfold_handlers.
  4: solve [wp_run_exact; along_leaf].
  all: wp_run ltac:(try solve [along_leaf]).
  all: along_leaf.
Qed.

(** *** A request for a transition that is not in the table *)

Ltac same_ride :=
  match goal with
  | Hr : Some ?t = Some ?r |- _ => is_var t; injection Hr as ->
  | Hr : None = Some _ |- _ => discriminate Hr
  | Hr : ?x = Some ?r, E : ?x = Some ?t |- _ =>
      rewrite E in Hr; injection Hr as ->
  | Hr : ?x = Some ?r, E : ?x = None |- _ =>
      rewrite E in Hr; discriminate Hr
  end.

Ltac norm_hyps :=
  repeat match goal with
         | H : _ && _ = true |- _ => apply andb_prop in H; destruct H
         | H : negb _ = true |- _ => apply negb_true_iff in H
         | H : negb _ = false |- _ => apply negb_false_iff in H
         | H : String.eqb ?s _ = true |- _ =>
             is_var s; apply String.eqb_eq in H; subst s
         | H : status_of_string _ = Some _ |- _ =>
             vm_compute in H; injection H as <-
         end.

Ltac norm_eqs :=
  norm_hyps;
  repeat match goal with
         | H : Nat.eqb _ _ = true |- _ => apply Nat.eqb_eq in H
         | H : Nat.eqb _ _ = false |- _ => apply Nat.eqb_neq in H
         end.

Ltac status_contra :=
  exfalso; norm_hyps;
  repeat match goal with
         | H : context [Ride.status ?t] |- _ => revert H
         end;
  match goal with
  | |- context [Ride.status ?t] => destruct (Ride.status t)
  end; cbn; intros; discriminate.

Ltac refused_leaf :=
  db_simpl;
  split; [reflexivity |];
  eexists; eexists; split; [reflexivity |];
  let Hp := fresh "Hp" in
  intros Hp;
  try solve [left; reflexivity];
  try solve [right; reflexivity];
  exfalso;
  unfold passesEarlierChecks, isDriverOf, validReason, falsy, is_none in *;
  cbn [existsb orb] in *;
  repeat match goal with
         | E : ?x = _ |- _ =>
             lazymatch x with
             | Ride.driver _ => rewrite E in Hp
             | users _ !! _ => rewrite E in Hp
             | Role_eqb _ _ => rewrite E in Hp
             | includes _ _ => rewrite E in Hp
             | Ride.isQuickTrip _ => rewrite E in Hp
             end
         end;
  norm_hyps;
  repeat match goal with
         | E : ?x = _ |- _ =>
             lazymatch x with
             | Ride.driver _ => rewrite E in *
             | users _ !! _ => rewrite E in *
             | Role_eqb _ _ => rewrite E in *
             | includes _ _ => rewrite E in *
             | Ride.isQuickTrip _ => rewrite E in *
             | Nat.eqb _ _ => rewrite E in *
             end
         end;
  cbn in *;
  repeat case_match; try discriminate; try congruence.

(** A request that asks for a status the table does not allow after the
    current one writes nothing and is answered with an error; the error is
    the one of the status guard when the request passes the checks that
    come before it. *)
Lemma handle_refuses_off_table (user : Actor) (now : nat) (req : Request)
    (db : Db) (i : nat) (t : RideStatus) (r : Ride.t) :
  target req = Some (i, t) ->
  rides db !! i = Some r ->
  edge (Ride.status r) t = false ->
  (handle user now req db).1 = db /\
  exists http code,
    (handle user now req db).2 = Fail http code /\
    (passesEarlierChecks user r db req = true ->
     code = "INVALID_TRANSITION"%string \/ code = "INVALID_STATUS"%string).
Proof.
  intros Ht Hr He.
  destruct req; cbn [target] in Ht; try discriminate Ht;
    try (destruct (status_of_string status) eqn:Es; [| discriminate Ht]);
    injection Ht as Hi Ht; subst i t;
    unfold handle, isAdminOrManager;
    try (apply (requireRole_wp _ _ _
                  (fun db' resp => db' = db /\ exists http code,
                     resp = Fail http code /\ (_ -> _)));
         [intros Hrole | intros Hrole]);
    try apply (run_wp _ (fun db' resp => db' = db /\ exists http code,
                     resp = Fail http code /\ (_ -> _))).
  all: unfold_handlers.
  all: repeat (wp_step_exact; try same_ride; try solve [status_contra]).
  all: try solve [refused_leaf].
  all: split; [reflexivity |]; eexists; eexists; split; [reflexivity |];
    intros Hp; exfalso;
    unfold passesEarlierChecks, validReason, falsy in *;
    destruct (actor_role user); try destruct reason as [reason |];
    cbn in *; try discriminate;
    repeat match goal with
           | H : context [includes ?l ?x] |- _ =>
               destruct (includes l x); cbn in *
           | H : context [String.eqb ?a ?b] |- _ =>
               destruct (String.eqb a b); cbn in *
           end;
    discriminate.
Qed.

(** C4 (as amended).  For every ride and every request, the status of the
    ride stays as it is or moves along an edge of the transition table;
    and a request for a transition that is not in the table writes nothing
    and is answered with an error, which is INVALID_TRANSITION or
    INVALID_STATUS whenever the request passes the checks that the handler
    makes before it looks at the status (role of the route, validation of
    the body, authorisation of the actor on the ride, quick-trip flag). *)
Theorem status_moves_along_the_table :
  (forall (user : Actor) (now : nat) (req : Request) (db : Db)
          (i : nat) (r r' : Ride.t),
     rides db !! i = Some r ->
     rides (handle user now req db).1 !! i = Some r' ->
     along r r') /\
  (forall (user : Actor) (now : nat) (req : Request) (db : Db)
          (i : nat) (t : RideStatus) (r : Ride.t),
     target req = Some (i, t) ->
     rides db !! i = Some r ->
     edge (Ride.status r) t = false ->
     (handle user now req db).1 = db /\
     exists http code,
       (handle user now req db).2 = Fail http code /\
       (passesEarlierChecks user r db req = true ->
        code = "INVALID_TRANSITION"%string \/
        code = "INVALID_STATUS"%string)).
Proof.
  split.
  - intros user now req db. apply handle_rides_along.
  - intros user now req db i t r. apply handle_refuses_off_table.
Qed.

(** C4 at a concrete request: the driver of an assigned ride asks to start
    it; nothing is written and the answer is INVALID_STATUS. *)
Lemma start_of_an_assigned_ride_is_refused :
  (handle Fleet.driverA 7 (PATCH_rides_start 100) Fleet.noShift).1
    = Fleet.noShift /\
  (handle Fleet.driverA 7 (PATCH_rides_start 100) Fleet.noShift).2
    = Fail 409 "INVALID_STATUS".
Proof.
  destruct (proj2 status_moves_along_the_table Fleet.driverA 7%nat
              (PATCH_rides_start 100) Fleet.noShift 100%nat started
              Fleet.assignedRide eq_refl eq_refl eq_refl)
    as (Hdb & http & code & Hresp & Hcode).
  split; [exact Hdb |]. vm_compute. reflexivity.
Defined.

(** C4, the statement as written fails: the driver of an assigned ride who
    asks the generic endpoint for the status "started" (not an edge from
    assigned) is answered VALIDATION_ERROR; and a driver who asks to accept
    a completed ride of another driver is answered FORBIDDEN. *)
Lemma off_table_requests_answered_otherwise :
  rides Fleet.noShift !! 100%nat = Some Fleet.assignedRide /\
  target (PUT_rides_status 100 "started") = Some (100%nat, started) /\
  edge (Ride.status Fleet.assignedRide) started = false /\
  (handle Fleet.driverA 7 (PUT_rides_status 100 "started") Fleet.noShift).2
    = Fail 400 "VALIDATION_ERROR" /\
  rides Fleet.noShift !! 101%nat = Some Fleet.completedRide /\
  target (PATCH_rides_accept 101) = Some (101%nat, accepted) /\
  edge (Ride.status Fleet.completedRide) accepted = false /\
  (handle Fleet.driverB 7 (PATCH_rides_accept 101) Fleet.noShift).2
    = Fail 403 "FORBIDDEN".
Proof. repeat split; vm_compute; reflexivity. Qed.

(** *** The fare of a dropped ride *)

Lemma wp_bind_ro_val {A B : Type} (m : M A) (k : A -> M B) Q db :
  ro m ->
  (forall e, Q db (inr e)) ->
  (forall a, (m db).2 = inl a -> wp (k a) Q db) ->
  wp (bind m k) Q db.
Proof.
  intros Hm He Hk. unfold wp, bind. pose proof (Hm db) as Hdb.
  destruct (m db) as [db' [a | e]] eqn:E; cbn in *; subst db'.
  - apply Hk. reflexivity.
  - apply He.
Qed.


(** The scrutinee that decides the value of a computation. *)
Ltac scrutinee t :=
  lazymatch t with
  | match ?x with _ => _ end => scrutinee x
  | if ?x then _ else _ => scrutinee x
  | snd ?p => scrutinee p
  | ?f _ =>
      lazymatch f with
      | match ?x with _ => _ end => scrutinee x
      | if ?x then _ else _ => scrutinee x
      | _ => t
      end
  | _ => t
  end.

(** Case analysis of [H : (m db).2 = inl a] along the branches that [m]
    takes. *)
Ltac val_hyp H :=
  unfold Ride_findById, Client_countDocuments, calculateGST,
    getCurrentGSTRate, bind, failWhen, ret, respond, gets, throwError,
    throw in H;
  repeat (cbn [fst snd] in H;
          lazymatch type of H with
          | ?l = _ =>
              let x := scrutinee l in
              tryif constr_eq x l then fail
              else (first [ is_var x; destruct x
                          | let E := fresh "E" in destruct x eqn:E ])
          end;
          try discriminate H);
  cbn [fst snd] in H.







(** *** Requests that are refused *)

(** A step taken as a whole when its exits can be settled where they
    arise, and followed branch by branch otherwise. *)
Ltac wp_step_try leaf :=
  lazymatch goal with
  | |- wp (bind _ _) _ _ =>
      first [ apply wp_bind_ro_val;
              [solve [ro_run] | intros ?; solve [leaf] | intros ? ?]
            | apply wp_bind ]
  | |- _ => wp_step idtac
  end.

Ltac unwritten_leaf :=
  db_simpl; cbv beta;
  let H := fresh "H" in
  let L := fresh "L" in
  intros ? ? H L;
  first [ reflexivity
        | discriminate H
        | exfalso; unfold errorHandler in H; injection H as <- <-; lia ].

Lemma updateFirst_not_found (p : Shift.t -> bool) (f : Shift.t -> Shift.t)
    (l : list Shift.t) :
  find p l = None -> updateFirst p f l = l.
Proof.
  induction l as [| s l IH]; cbn; [reflexivity |].
  destruct (p s); [discriminate |]. intros H. rewrite (IH H). reflexivity.
Qed.

Lemma set_shifts_same (db : Db) : set_shifts (shifts db) db = db.
Proof. destruct db; reflexivity. Qed.

Lemma refusal_writes_nothing (user : Actor) (now : nat) (req : Request)
    (db : Db) (http : nat) (code : string) :
  match req with POST_rides_reassign _ _ => False | _ => True end ->
  (handle user now req db).2 = Fail http code ->
  (http < 500)%nat ->
  (handle user now req db).1 = db.
Proof.
  intros Hreq. revert http code.
  destruct req; try contradiction; clear Hreq;
    unfold handle, isAdminOrManager;
    try (apply (requireRole_wp _ _ _
                  (fun db' resp => forall http code,
                     resp = Fail http code -> (http < 500)%nat -> db' = db));
         [intros _; reflexivity | intros _]);
    try apply (run_wp _
                 (fun db' resp => forall http code,
                    resp = Fail http code -> (http < 500)%nat -> db' = db));
    try apply (runCatch_wp _ _
                 (fun db' resp => forall http code,
                    resp = Fail http code -> (http < 500)%nat -> db' = db)).
  all: unfold_handlers.
  all: repeat wp_step_try unwritten_leaf.
  all: try solve [unwritten_leaf].
  all: intros http code _ _.
  all: match goal with
       | H : (gets _ _).2 = inl ?a |- _ =>
           unfold gets in H; cbn [fst snd] in H; injection H as <-
       end.
  all: match goal with
       | H : is_none (option_map _ ?x) = true |- _ =>
           destruct x eqn:E; [discriminate H |]
       end.
  all: rewrite updateFirst_not_found by exact E.
  all: apply set_shifts_same.
Qed.

(** A refused reassignment has written nothing, unless it is the new driver
    who is refused: the old driver has been freed by then. *)
Lemma reassign_refusal (user : Actor) (now i : nat) (d : option nat)
    (db : Db) (http : nat) (code : string) :
  (handle user now (POST_rides_reassign i d) db).2 = Fail http code ->
  (http < 500)%nat ->
  (handle user now (POST_rides_reassign i d) db).1 = db \/
  exists r old,
    rides db !! i = Some r /\
    Ride.status r = assigned /\
    Ride.driver r = Some old /\
    http = 400%nat /\
    (code = "INVALID_DRIVER"%string \/ code = "DRIVER_NOT_FREE"%string) /\
    (handle user now (POST_rides_reassign i d) db).1
    = (User_findByIdAndUpdate old FREE db).1.
Proof.
  revert http code. unfold handle, isAdminOrManager.
  apply (requireRole_wp _ _ _
           (fun db' resp => forall http code,
              resp = Fail http code -> (http < 500)%nat ->
              db' = db \/ exists r old, _ /\ _ /\ _ /\ _ /\ _ /\ db' = _));
    [intros _ ? ? _ _; left; reflexivity | intros _].
  apply (run_wp _
           (fun db' resp => forall http code,
              resp = Fail http code -> (http < 500)%nat ->
              db' = db \/ exists r old, _ /\ _ /\ _ /\ _ /\ _ /\ db' = _)).
  unfold reassignRide. repeat wp_step_exact.
  all: db_simpl; cbv beta.
  all: intros http code Hresp Hlt.
  all: try solve [left; reflexivity].
  all: try discriminate Hresp.
  all: try solve [exfalso; unfold errorHandler in Hresp; injection Hresp as <- <-; lia].
  all: right; unfold errorHandler in Hresp; injection Hresp as <- <-.
  all: match goal with
       | E : Ride.driver ?t = Some ?n |- _ => exists t, n
       end.
  all: repeat split; try reflexivity; try assumption.
  all: try (apply RideStatus_eqb_eq;
            first [assumption | apply negb_false_iff; assumption]).
  all: first [left; reflexivity | right; reflexivity].
Qed.

(** C9, the behaviour of the code.  A request other than a reassignment
    that is refused with a status below 500 has written nothing.  A
    refused reassignment has written nothing unless it is the new driver
    who is refused (INVALID_DRIVER, DRIVER_NOT_FREE): then the old driver
    has already been set free.  A manager reassigns the assigned ride 100
    from driver 1 to driver 2, who is on a ride: the request is refused
    with DRIVER_NOT_FREE and the ride is as it was, still assigned to
    driver 1, but driver 1, who was on a ride before the request, is free
    after it. *)
Theorem refused_reassignment_frees_the_old_driver :
  (forall (user : Actor) (now : nat) (req : Request) (db : Db)
          (http : nat) (code : string),
     match req with POST_rides_reassign _ _ => False | _ => True end ->
     (handle user now req db).2 = Fail http code ->
     (http < 500)%nat ->
     (handle user now req db).1 = db) /\
  (forall (user : Actor) (now i : nat) (d : option nat) (db : Db)
          (http : nat) (code : string),
     (handle user now (POST_rides_reassign i d) db).2 = Fail http code ->
     (http < 500)%nat ->
     (handle user now (POST_rides_reassign i d) db).1 = db \/
     exists r old,
       rides db !! i = Some r /\
       Ride.status r = assigned /\
       Ride.driver r = Some old /\
       http = 400%nat /\
       (code = "INVALID_DRIVER"%string \/ code = "DRIVER_NOT_FREE"%string) /\
       (handle user now (POST_rides_reassign i d) db).1
       = (User_findByIdAndUpdate old FREE db).1) /\
  (handle Fleet.managerM 7 (POST_rides_reassign 100 (Some 2%nat))
          Fleet.noShift).2 = Fail 400 "DRIVER_NOT_FREE" /\
  rides (handle Fleet.managerM 7 (POST_rides_reassign 100 (Some 2%nat))
                Fleet.noShift).1 !! 100%nat = Some Fleet.assignedRide /\
  Ride.driver Fleet.assignedRide = Some 1%nat /\
  Ride.status Fleet.assignedRide = assigned /\
  users Fleet.noShift !! 1%nat = Some (Fleet.user 1 DRIVER ON_RIDE) /\
  users (handle Fleet.managerM 7 (POST_rides_reassign 100 (Some 2%nat))
                Fleet.noShift).1 !! 1%nat = Some (Fleet.user 1 DRIVER FREE).
Proof.
  split; [exact refusal_writes_nothing |].
  split; [exact reassign_refusal |].
  repeat split; vm_compute; reflexivity.
Qed.

(** C9 at a concrete request: the drop of the assigned ride 100 is refused
    and writes nothing. *)
Lemma refused_drop_writes_nothing :
  handle Fleet.driverA 7 (PATCH_rides_drop 100 (Fleet.dropBody None []))
         Fleet.noShift
  = (Fleet.noShift, Fail 409 "INVALID_STATUS").
Proof.
  assert (Hresp : (handle Fleet.driverA 7
                     (PATCH_rides_drop 100 (Fleet.dropBody None []))
                     Fleet.noShift).2 = Fail 409 "INVALID_STATUS")
    by (vm_compute; reflexivity).
  assert (Hlt : (409 < 500)%nat) by lia.
  pose proof (proj1 refused_reassignment_frees_the_old_driver
                Fleet.driverA 7%nat
                (PATCH_rides_drop 100 (Fleet.dropBody None []))
                Fleet.noShift 409%nat "INVALID_STATUS"%string I Hresp Hlt)
    as Hdb.
  destruct (handle Fleet.driverA 7
              (PATCH_rides_drop 100 (Fleet.dropBody None []))
              Fleet.noShift) as [db' resp].
  cbn in Hdb, Hresp. subst db' resp. reflexivity.
Defined.

(** *** Accepting a ride *)

Lemma castFilter_activeShiftOf (d : nat) :
  castFilter strictQuery shiftSchema_paths (activeShiftOf d)
  = activeShiftOf d.
Proof. reflexivity. Qed.

Lemma Shift_matches_active (d : nat) (s : Shift.t) :
  Shift_matches (activeShiftOf d) s = true <->
  Shift.driver s = d /\ Shift.isActive s = true.
Proof.
  unfold Shift_matches, activeShiftOf. cbn.
  rewrite !andb_true_iff, Nat.eqb_eq.
  destruct (Shift.isActive s); cbn; intuition congruence.
Qed.

(** [Shift.findOne({ driver, isActive: true })] finds an active shift of
    the driver when there is one, and only such a shift. *)
Lemma findOne_active_Some (d : nat) (l : list Shift.t) (s : Shift.t) :
  Shift_findOne_with strictQuery (activeShiftOf d) l = Some s ->
  In s l /\ Shift.driver s = d /\ Shift.isActive s = true.
Proof.
  unfold Shift_findOne_with. rewrite castFilter_activeShiftOf.
  intros H. apply find_some in H. destruct H as [Hin Hm].
  apply Shift_matches_active in Hm. tauto.
Qed.

Lemma findOne_active_None (d : nat) (l : list Shift.t) :
  Shift_findOne_with strictQuery (activeShiftOf d) l = None <->
  (forall s, In s l -> Shift.driver s = d -> Shift.isActive s = false).
Proof.
  unfold Shift_findOne_with. rewrite castFilter_activeShiftOf. split.
  - intros H s Hin Hd.
    pose proof (find_none _ _ H s Hin) as Hn.
    destruct (Shift.isActive s) eqn:Ea; [| reflexivity].
    assert (Hm : Shift_matches (activeShiftOf d) s = true)
      by (apply Shift_matches_active; tauto).
    congruence.
  - intros H.
    destruct (find (Shift_matches (activeShiftOf d)) l) as [s |] eqn:E;
      [| reflexivity].
    apply find_some in E. destruct E as [Hin Hm].
    apply Shift_matches_active in Hm. destruct Hm as [Hd Ha].
    rewrite (H s Hin Hd) in Ha. discriminate Ha.
Qed.

Lemma Ride_validate_accept (r : Ride.t) (s now : nat) :
  Ride_validate
    (Ride.set_shift (Some s)
       (Ride.set_acceptedAt (Some now) (Ride.set_status accepted r)))
  = Ride_validate r.
Proof. reflexivity. Qed.

(** C5 (as amended).  On the accept endpoint an assigned ride is accepted
    only by its assigned driver and only when an active shift of that
    driver exists: on success [acceptedAt] is set and the ride is linked to
    an active shift of the driver; when the driver has no active shift the
    request fails, with NO_ACTIVE_SHIFT for the assigned driver, and the
    ride stays assigned; an actor who is not the assigned driver is
    refused.  On the generic status endpoint a successful accept of an
    assigned ride comes from the assigned driver or from an admin or a
    manager, and leaves the ride accepted with [acceptedAt] set (kept when
    it was already set). *)
Theorem accept_guard :
  forall (user : Actor) (now i : nat) (db : Db) (r : Ride.t),
    rides db !! i = Some r ->
    Ride.status r = assigned ->
    ((handle user now (PATCH_rides_accept i) db).2 = Ok 200 ->
     Ride.driver r = Some (id user) /\
     exists s,
       In s (shifts db) /\ Shift.driver s = id user /\
       Shift.isActive s = true /\
       rides (handle user now (PATCH_rides_accept i) db).1 !! i
         = Some (Ride.set_shift (Some (Shift._id s))
                   (Ride.set_acceptedAt (Some now)
                      (Ride.set_status accepted r)))) /\
    ((forall s, In s (shifts db) -> Shift.driver s = id user ->
                Shift.isActive s = false) ->
     (handle user now (PATCH_rides_accept i) db).1 = db /\
     exists http code,
       (handle user now (PATCH_rides_accept i) db).2 = Fail http code /\
       (Ride.driver r = Some (id user) ->
        http = 400%nat /\ code = "NO_ACTIVE_SHIFT"%string)) /\
    (Ride.driver r <> Some (id user) ->
     (handle user now (PATCH_rides_accept i) db).1 = db /\
     exists http code,
       (handle user now (PATCH_rides_accept i) db).2 = Fail http code) /\
    (Ride.driver r = Some (id user) ->
     Ride_validate r = true ->
     forall s, In s (shifts db) -> Shift.driver s = id user ->
               Shift.isActive s = true ->
               (handle user now (PATCH_rides_accept i) db).2 = Ok 200) /\
    ((handle user now (PUT_rides_status i "accepted") db).2 = Ok 200 ->
     (Ride.driver r = Some (id user) /\ actor_role user = DRIVER \/
      actor_role user = ADMIN \/ actor_role user = MANAGER) /\
     exists r',
       rides (handle user now (PUT_rides_status i "accepted") db).1 !! i
         = Some r' /\
       Ride.status r' = accepted /\
       Ride.acceptedAt r' = orNow (Ride.acceptedAt r) now).
Proof.
  intros user now i db r Hr Hs.
  split; [| split; [| split; [| split]]].
  - unfold handle.
    apply (run_wp _ (fun db' resp =>
             resp = Ok 200 ->
             _ /\ exists s, _ /\ _ /\ _ /\ rides db' !! i = _)).
    unfold acceptRide. repeat (wp_step_exact; try same_ride).
    all: db_simpl; try discriminate.
    all: intros _; norm_eqs; subst;
      (split; [reflexivity |]);
      match goal with
      | E : Shift_findOne_with _ _ _ = Some ?t |- _ =>
          apply findOne_active_Some in E; destruct E as (Hin & Hd & Ha);
          exists t; repeat split; try assumption;
          apply lookup_insert_eq
      end.
  - intros Hnone. apply findOne_active_None in Hnone. unfold handle.
    apply (run_wp _ (fun db' resp =>
             db' = db /\ exists http code, resp = Fail http code /\ (_ -> _))).
    unfold acceptRide. repeat (wp_step_exact; try same_ride).
    all: db_simpl; try congruence.
    all: split; [reflexivity |]; eexists; eexists; split; [reflexivity |].
    all: intros Hd; try (split; reflexivity); exfalso; norm_eqs.
    all: try (rewrite Hs in *; discriminate); try congruence.
    all: congruence.
  - intros Hne. unfold handle.
    apply (run_wp _ (fun db' resp =>
             db' = db /\ exists http code, resp = Fail http code)).
    unfold acceptRide. repeat (wp_step_exact; try same_ride).
    all: db_simpl.
    all: try (split; [reflexivity |]; eexists; eexists; reflexivity).
    all: exfalso; norm_eqs; congruence.
  - intros Hd Hv s Hin Hsd Ha. unfold handle.
    apply (run_wp _ (fun db' resp => resp = Ok 200)).
    unfold acceptRide. repeat (wp_step_exact; try same_ride).
    all: db_simpl; try reflexivity; exfalso; norm_eqs.
    all: try (rewrite Hs in *; discriminate).
    all: try (rewrite Ride_validate_accept in *; congruence).
    all: try congruence.
    all: match goal with
         | E : Shift_findOne_with _ _ _ = None |- _ =>
             rewrite findOne_active_None in E;
             rewrite (E s Hin Hsd) in Ha; discriminate Ha
         end.
  - unfold handle.
    apply (run_wp _ (fun db' resp =>
             resp = Ok 200 ->
             _ /\ exists r', rides db' !! i = Some r' /\ _ /\ _)).
    unfold updateRideStatus. repeat (wp_step_exact; try same_ride).
    all: db_simpl; try discriminate.
    all: try (exfalso; norm_eqs; rewrite Hs in *; discriminate).
    all: intros _; norm_eqs.
    all: split;
      [ destruct (actor_role user); cbn in *; try discriminate; auto;
        solve [ left; split; [| reflexivity];
                match goal with
                | H : context [Nat.eqb ?a ?b] |- _ =>
                    destruct (Nat.eqb_spec a b); cbn in *;
                    [congruence | discriminate]
                end ]
      | eexists; split; [apply lookup_insert_eq |]; split; reflexivity ].
Qed.

(** C5 at a concrete request: driver 1, who has an active shift, accepts
    the ride assigned to them. *)
Lemma accept_guard_on_shift :
  (handle Fleet.driverA 7 (PATCH_rides_accept 100) Fleet.onShift).2 = Ok 200.
Proof.
  assert (Hr : rides Fleet.onShift !! 100%nat = Some Fleet.assignedRide)
    by (vm_compute; reflexivity).
  destruct (accept_guard Fleet.driverA 7%nat 100%nat Fleet.onShift
              Fleet.assignedRide Hr eq_refl) as (_ & _ & _ & H4 & _).
  apply (H4 eq_refl eq_refl (Fleet.shiftOf 70 1 true)).
  - left. reflexivity.
  - reflexivity.
  - reflexivity.
Defined.

(** C5, the statement as written fails: on the generic status endpoint the
    manager 9, who is not the driver of ride 100, accepts it; the ride is
    accepted although its driver has no active shift, and it gets no shift
    reference. *)
Lemma manager_accepts_on_the_generic_endpoint :
  rides Fleet.noShift !! 100%nat = Some Fleet.assignedRide /\
  Ride.status Fleet.assignedRide = assigned /\
  Ride.driver Fleet.assignedRide = Some 1%nat /\
  id Fleet.managerM = 9%nat /\
  shifts Fleet.noShift = [] /\
  (handle Fleet.managerM 7 (PUT_rides_status 100 "accepted")
          Fleet.noShift).2 = Ok 200 /\
  exists r',
    rides (handle Fleet.managerM 7 (PUT_rides_status 100 "accepted")
                  Fleet.noShift).1 !! 100%nat = Some r' /\
    Ride.status r' = accepted /\
    Ride.acceptedAt r' = Some 7%nat /\
    Ride.shift r' = None.
Proof.
  repeat split; try (vm_compute; reflexivity).
  eexists. split; [vm_compute; reflexivity |].
  repeat split; reflexivity.
Qed.

(** *** The lookup [{ driver, status: "active" }] *)

Lemma find_ext_eq {A : Type} (f g : A -> bool) (l : list A) :
  (forall x, f x = g x) -> find f l = find g l.
Proof.
  intros H. induction l as [| x l IH]; cbn; [reflexivity |].
  rewrite H, IH. reflexivity.
Qed.

Lemma find_false {A : Type} (f : A -> bool) (l : list A) :
  (forall x, f x = false) -> find f l = None.
Proof.
  intros H. induction l as [| x l IH]; cbn; [reflexivity |].
  rewrite H. exact IH.
Qed.

(** Under [strictQuery] the condition on [status] is dropped: the lookup
    is the lookup by driver alone. *)
Lemma findOne_statusActive (d : nat) (l : list Shift.t) :
  Shift_findOne_with strictQuery (statusActiveShiftOf d) l
  = find (fun s => Nat.eqb (Shift.driver s) d) l.
Proof.
  unfold Shift_findOne_with.
  change (castFilter strictQuery shiftSchema_paths (statusActiveShiftOf d))
    with [("driver"%string, VId d)].
  apply find_ext_eq. intros s. unfold Shift_matches. cbn.
  apply andb_true_r.
Qed.

(** Without [strictQuery] the condition stays and no shift has a value at
    [status]. *)
Lemma findOne_statusActive_not_strict (d : nat) (l : list Shift.t) :
  Shift_findOne_with false (statusActiveShiftOf d) l = None.
Proof.
  unfold Shift_findOne_with. apply find_false. intros s.
  unfold Shift_matches. cbn. apply andb_false_r.
Qed.

Lemma find_driver_None (d : nat) (l : list Shift.t) :
  find (fun s => Nat.eqb (Shift.driver s) d) l = None <->
  (forall s, In s l -> Shift.driver s <> d).
Proof.
  split.
  - intros H s Hin Hd. pose proof (find_none _ _ H s Hin) as Hn.
    cbv beta in Hn. rewrite Hd, Nat.eqb_refl in Hn. discriminate Hn.
  - intros H.
    destruct (find (fun s => Nat.eqb (Shift.driver s) d) l) as [s |] eqn:E;
      [| reflexivity].
    apply find_some in E. destruct E as [Hin Hd].
    apply Nat.eqb_eq in Hd. exfalso. exact (H s Hin Hd).
Qed.

Lemma selfAssign_no_shift (user : Actor) (body : SelfAssignBody)
    (rideId : string) (now : nat) (db : Db) :
  actor_role user = DRIVER ->
  ((handle user now (POST_rides_self_assign body rideId) db).2
     = Fail 400 "NO_ACTIVE_SHIFT" <->
   (forall s, In s (shifts db) -> Shift.driver s <> id user)).
Proof.
  intros Hrole. rewrite <- find_driver_None, <- findOne_statusActive.
  unfold handle.
  apply (run_wp _ (fun db' resp => resp = Fail 400 "NO_ACTIVE_SHIFT" <-> _)).
  unfold createSelfAssignedRide.
  repeat wp_step_exact.
  all: db_simpl.
  all: try (rewrite Hrole in *; discriminate).
  all: try (split; [intros Hx; discriminate Hx | congruence]).
  all: try (split; [reflexivity | congruence]).
Qed.

Lemma quickTrip_shift (user : Actor) (d : nat) (notes : option string)
    (rideId : string) (now : nat) (db : Db) :
  (handle user now (POST_rides_quick_trip (Some d) notes rideId) db).2
    = Ok 201 ->
  exists r',
    rides (handle user now (POST_rides_quick_trip (Some d) notes rideId)
                  db).1 !! fresh (dom (rides db)) = Some r' /\
    Ride.isQuickTrip r' = true /\
    Ride.driver r' = Some d /\
    Ride.shift r'
      = option_map Shift._id
          (find (fun s => Nat.eqb (Shift.driver s) d) (shifts db)).
Proof.
  unfold handle, isAdminOrManager.
  apply (requireRole_wp _ _ _
           (fun db' resp => resp = Ok 201 ->
              exists r', rides db' !! fresh (dom (rides db)) = Some r' /\ _));
    [intros _ Hx; discriminate Hx | intros _].
  apply (run_wp _
           (fun db' resp => resp = Ok 201 ->
              exists r', rides db' !! fresh (dom (rides db)) = Some r' /\ _)).
  unfold createQuickTrip. repeat wp_step_exact.
  all: db_simpl; try (intros Hx; discriminate Hx).
  all: intros _; eexists; (split; [apply lookup_insert_eq |]).
  all: rewrite <- findOne_statusActive; repeat split; reflexivity.
Qed.

(** C10 (as amended).  [createQuickTrip] and [createSelfAssignedRide] look
    up the shift of the driver with the filter
    [{ driver, status: "active" }].  The shift schema has no [status]
    path and config/db.js sets [strictQuery] to true, so the condition on
    [status] is dropped and the lookup returns the first shift of the
    driver, active or ended.  Hence the creation of a self-assigned ride
    is answered NO_ACTIVE_SHIFT exactly when the driver has no shift
    record at all, and a quick trip refers to the first shift of its
    driver, if there is one.  With [strictQuery] off the lookup would
    match no shift. *)
Theorem status_filter_matches_by_driver :
  (forall (d : nat) (l : list Shift.t),
     Shift_findOne_with strictQuery (statusActiveShiftOf d) l
     = find (fun s => Nat.eqb (Shift.driver s) d) l) /\
  (forall (user : Actor) (body : SelfAssignBody) (rideId : string)
          (now : nat) (db : Db),
     actor_role user = DRIVER ->
     ((handle user now (POST_rides_self_assign body rideId) db).2
        = Fail 400 "NO_ACTIVE_SHIFT" <->
      (forall s, In s (shifts db) -> Shift.driver s <> id user))) /\
  (forall (user : Actor) (d : nat) (notes : option string)
          (rideId : string) (now : nat) (db : Db),
     (handle user now (POST_rides_quick_trip (Some d) notes rideId) db).2
       = Ok 201 ->
     exists r',
       rides (handle user now (POST_rides_quick_trip (Some d) notes rideId)
                     db).1 !! fresh (dom (rides db)) = Some r' /\
       Ride.isQuickTrip r' = true /\
       Ride.driver r' = Some d /\
       Ride.shift r'
         = option_map Shift._id
             (find (fun s => Nat.eqb (Shift.driver s) d) (shifts db))) /\
  (forall (d : nat) (l : list Shift.t),
     Shift_findOne_with false (statusActiveShiftOf d) l = None).
Proof.
  split; [exact findOne_statusActive |].
  split; [exact selfAssign_no_shift |].
  split; [exact quickTrip_shift |].
  exact findOne_statusActive_not_strict.
Qed.

(** C10 at concrete stores: a driver without any shift record is answered
    NO_ACTIVE_SHIFT, and a driver whose only shift has ended is not. *)
Lemma status_filter_at_ended_shift :
  (handle Fleet.driverA 7
     (POST_rides_self_assign Fleet.selfAssignBody "RIDE-20250101-CCCCCC")
     Fleet.noShift).2 = Fail 400 "NO_ACTIVE_SHIFT" /\
  (handle Fleet.driverA 7
     (POST_rides_self_assign Fleet.selfAssignBody "RIDE-20250101-CCCCCC")
     Fleet.afterShift).2 <> Fail 400 "NO_ACTIVE_SHIFT".
Proof.
  destruct status_filter_matches_by_driver as (_ & H & _).
  split.
  - apply (proj2 (H Fleet.driverA Fleet.selfAssignBody
                     "RIDE-20250101-CCCCCC"%string 7%nat Fleet.noShift
                     eq_refl)).
    intros s [].
  - intros Hx.
    pose proof (proj1 (H Fleet.driverA Fleet.selfAssignBody
                         "RIDE-20250101-CCCCCC"%string 7%nat
                         Fleet.afterShift eq_refl) Hx) as Hn.
    apply (Hn (Fleet.shiftOf 70 1 false)); [left |]; reflexivity.
Defined.

(** C10, the statement as written fails: after driver 1 has started a
    shift, the lookup with the [status] filter returns that shift and the
    self-assigned ride is created; and after driver 3 has started a shift,
    the quick trip that the manager creates for driver 3 refers to that
    shift. *)
Lemma status_filter_finds_the_started_shift :
  (handle Fleet.driverA 1 (POST_shifts_start Fleet.startBody)
          Fleet.noShift).2 = Ok 201 /\
  (exists s,
     shifts (handle Fleet.driverA 1 (POST_shifts_start Fleet.startBody)
                    Fleet.noShift).1 = [s] /\
     Shift.driver s = 1%nat /\
     Shift.isActive s = true /\
     Shift_findOne_with strictQuery (statusActiveShiftOf 1)
       (shifts (handle Fleet.driverA 1 (POST_shifts_start Fleet.startBody)
                       Fleet.noShift).1) = Some s) /\
  (handle Fleet.driverA 2
     (POST_rides_self_assign Fleet.selfAssignBody "RIDE-20250101-CCCCCC")
     (handle Fleet.driverA 1 (POST_shifts_start Fleet.startBody)
             Fleet.noShift).1).2 = Ok 201 /\
  (handle Fleet.managerM 2
     (POST_rides_quick_trip (Some 3%nat) None "RIDE-20250101-DDDDDD")
     (handle Fleet.driverC 1 (POST_shifts_start Fleet.startBody)
             Fleet.noShift).1).2 = Ok 201 /\
  (exists r' s,
     shifts (handle Fleet.driverC 1 (POST_shifts_start Fleet.startBody)
                    Fleet.noShift).1 = [s] /\
     Shift.isActive s = true /\
     rides (handle Fleet.managerM 2
              (POST_rides_quick_trip (Some 3%nat) None
                 "RIDE-20250101-DDDDDD")
              (handle Fleet.driverC 1 (POST_shifts_start Fleet.startBody)
                      Fleet.noShift).1).1 !! 104%nat = Some r' /\
     Ride.isQuickTrip r' = true /\
     Ride.shift r' = Some (Shift._id s)).
Proof.
  split; [vm_compute; reflexivity |].
  split; [eexists; split; [vm_compute; reflexivity |];
          repeat split; vm_compute; reflexivity |].
  split; [vm_compute; reflexivity |].
  split; [vm_compute; reflexivity |].
  eexists. eexists. split; [vm_compute; reflexivity |].
  split; [reflexivity |].
  split; [vm_compute; reflexivity |].
  split; reflexivity.
Qed.

(** ** Shifts *)

(** *** One active shift for each driver *)

Lemma existsb_false_filter {A : Type} (f : A -> bool) (l : list A) :
  existsb f l = false -> List.filter f l = [].
Proof.
  induction l as [| x l IH]; cbn; [reflexivity |].
  destruct (f x); cbn; [discriminate | exact IH].
Qed.

(** The insertion that the unique index allows keeps the invariant. *)
Lemma oneActiveShift_insert (s : Shift.t) (l : list Shift.t) :
  oneActiveShift l -> Shift_index_allows s l = true ->
  oneActiveShift (l ++ [s]).
Proof.
  intros Hl Hix d. unfold oneActiveShift in Hl.
  rewrite List.filter_app, length_app. cbn [List.filter].
  destruct (Shift.isActive s && Nat.eqb (Shift.driver s) d) eqn:Es;
    cbn [length]; [| specialize (Hl d); lia].
  apply andb_prop in Es. destruct Es as [Ea Ed]. apply Nat.eqb_eq in Ed.
  unfold Shift_index_allows in Hix. rewrite Ea in Hix. cbn in Hix.
  apply negb_true_iff in Hix. subst d.
  rewrite (existsb_false_filter _ _ Hix). cbn. lia.
Qed.

Lemma updateFirst_filter_le (g p : Shift.t -> bool)
    (f : Shift.t -> Shift.t) (l : list Shift.t) :
  (forall s, g (f s) = true -> g s = true) ->
  (length (List.filter g (updateFirst p f l))
   <= length (List.filter g l))%nat.
Proof.
  intros Hf. induction l as [| x l IH]; cbn; [lia |].
  destruct (p x); cbn.
  - destruct (g (f x)) eqn:E.
    + rewrite (Hf x E). cbn. lia.
    + destruct (g x); cbn; lia.
  - destruct (g x); cbn; lia.
Qed.

(** An update that activates no shift and moves no shift to another driver
    keeps the invariant. *)
Lemma oneActiveShift_updateFirst (p : Shift.t -> bool)
    (f : Shift.t -> Shift.t) (l : list Shift.t) :
  (forall s, Shift.isActive (f s) = true -> Shift.isActive s = true) ->
  (forall s, Shift.driver (f s) = Shift.driver s) ->
  oneActiveShift l -> oneActiveShift (updateFirst p f l).
Proof.
  intros Ha Hd Hl d. specialize (Hl d).
  pose proof (updateFirst_filter_le
                (fun s => Shift.isActive s && Nat.eqb (Shift.driver s) d)
                p f l) as Hle.
  cbv beta in Hle.
  assert (Hf : forall s,
             Shift.isActive (f s) && Nat.eqb (Shift.driver (f s)) d = true ->
             Shift.isActive s && Nat.eqb (Shift.driver s) d = true).
  { intros s H. apply andb_prop in H. destruct H as [H1 H2].
    rewrite Hd in H2. rewrite (Ha s H1), H2. reflexivity. }
  specialize (Hle Hf). lia.
Qed.

Lemma handle_keeps_oneActiveShift (user : Actor) (now : nat) (req : Request)
    (db : Db) :
  oneActiveShift (shifts db) ->
  oneActiveShift (shifts (handle user now req db).1).
Proof.
  intros Hinv.
  destruct req; unfold handle, isAdminOrManager;
    try (apply (requireRole_wp _ _ _
                  (fun db' _ => oneActiveShift (shifts db')));
         [intros _; exact Hinv | intros _]);
    try apply (run_wp _ (fun db' _ => oneActiveShift (shifts db')));
    try apply (runCatch_wp _ _ (fun db' _ => oneActiveShift (shifts db'))).
  all: unfold_handlers.
  all: wp_run ltac:(try solve [db_simpl; exact Hinv]).
  all: try solve [db_simpl; exact Hinv].
  all: db_simpl.
  all: try (apply oneActiveShift_insert;
            [exact Hinv
            | match goal with
              | H : negb (Shift_index_allows _ _) = false |- _ =>
                  apply negb_false_iff in H; exact H
              end]).
  all: apply oneActiveShift_updateFirst;
    [intros s0; cbn; first [discriminate | exact (fun H => H)]
    | intros s0; reflexivity
    | exact Hinv].
Qed.

Lemma after_keeps_oneActiveShift (trace : list (Actor * nat * Request))
    (db : Db) :
  oneActiveShift (shifts db) -> oneActiveShift (shifts (after trace db)).
Proof.
  revert db. induction trace as [| e trace IH]; intros db Hinv; cbn.
  - exact Hinv.
  - apply IH. apply handle_keeps_oneActiveShift. exact Hinv.
Qed.

(** Starting a shift while one is active writes nothing and fails. *)
Lemma startShift_while_active (user : Actor) (now : nat)
    (body : StartShiftBody) (db : Db) (s : Shift.t) :
  In s (shifts db) -> Shift.driver s = id user -> Shift.isActive s = true ->
  (handle user now (POST_shifts_start body) db).1 = db /\
  exists http message,
    (handle user now (POST_shifts_start body) db).2 = Fail http message /\
    (actor_role user = DRIVER -> validStart body ->
     http = 400%nat /\ message = "You already have an active shift"%string).
Proof.
  intros Hin Hd Ha. unfold handle.
  apply (requireRole_wp _ _ _
           (fun db' resp => db' = db /\ exists http message,
              resp = Fail http message /\ (_ -> _ -> _))).
  - intros Hrole. split; [reflexivity |]. eexists. eexists.
    split; [reflexivity |]. intros Hr. rewrite Hr in Hrole.
    discriminate Hrole.
  - intros _.
    apply (runCatch_wp _ _
             (fun db' resp => db' = db /\ exists http message,
                resp = Fail http message /\ (_ -> _ -> _))).
    unfold startShift_body. repeat wp_step_exact.
    all: db_simpl.
    all: try (exfalso;
              match goal with
              | H : negb (is_none ?x) = false |- _ =>
                  destruct x eqn:Ef; [discriminate H |];
                  rewrite findOne_active_None in Ef;
                  rewrite (Ef s Hin Hd) in Ha; discriminate Ha
              end).
    all: split; [reflexivity |]; eexists; eexists; split; [reflexivity |].
    all: intros _ [Ht (m & Hm & Hpos)]; try (split; reflexivity); exfalso.
    all: try congruence.
    all: try (match goal with
              | H : Num.Qltb ?q 0 = true |- _ =>
                  apply Qltb_lt in H; assert (q = m) by congruence; subst q;
                  lra
              end).
    all: discriminate.
Qed.

(** C6. At most one shift of a driver is active at any time: no shift is
    active in the empty store, every request keeps the invariant, and so it
    holds after any sequence of requests.  A start by somebody who has an
    active shift writes nothing and is answered with a failure; when a
    driver sends a valid body, the failure is 400 "You already have an
    active shift". *)
Theorem one_active_shift_per_driver :
  (forall trace : list (Actor * nat * Request),
     oneActiveShift (shifts (after trace Fleet.emptyDb))) /\
  (forall (user : Actor) (now : nat) (req : Request) (db : Db),
     oneActiveShift (shifts db) ->
     oneActiveShift (shifts (handle user now req db).1)) /\
  (forall (user : Actor) (now : nat) (body : StartShiftBody) (db : Db)
          (s : Shift.t),
     In s (shifts db) -> Shift.driver s = id user ->
     Shift.isActive s = true ->
     (handle user now (POST_shifts_start body) db).1 = db /\
     exists http message,
       (handle user now (POST_shifts_start body) db).2 = Fail http message /\
       (actor_role user = DRIVER -> validStart body ->
        http = 400%nat /\
        message = "You already have an active shift"%string)).
Proof.
  split; [| split].
  - intros trace. apply after_keeps_oneActiveShift.
    intros d. cbn. lia.
  - exact handle_keeps_oneActiveShift.
  - exact startShift_while_active.
Qed.

(** C6 at a concrete request: driver 1 has shift 70 open and starts another
    one. *)
Lemma second_start_is_refused :
  oneActiveShift (shifts Fleet.onShift) /\
  oneActiveShift
    (shifts (handle Fleet.driverA 5 (POST_shifts_start Fleet.startBody)
                    Fleet.onShift).1) /\
  handle Fleet.driverA 5 (POST_shifts_start Fleet.startBody) Fleet.onShift
  = (Fleet.onShift, Fail 400 "You already have an active shift").
Proof.
  destruct one_active_shift_per_driver as (_ & Hkeep & Hstart).
  assert (Hinv : oneActiveShift (shifts Fleet.onShift)).
  { intros d. destruct d as [| [| d]]; vm_compute; lia. }
  split; [exact Hinv |].
  split; [apply Hkeep; exact Hinv |].
  destruct (Hstart Fleet.driverA 5%nat Fleet.startBody Fleet.onShift
              (Fleet.shiftOf 70 1 true)
              (or_introl eq_refl) eq_refl eq_refl)
    as (Hdb & http & message & Hresp & Hwhy).
  destruct (handle Fleet.driverA 5 (POST_shifts_start Fleet.startBody)
                   Fleet.onShift) as [db' resp].
  cbn in Hdb, Hresp. subst db' resp.
  destruct (Hwhy eq_refl) as [-> ->].
  - split; [reflexivity |]. exists 100. split; [reflexivity |].
    unfold Qle. cbn. lia.
  - reflexivity.
Defined.
(** ** What a request writes *)

Import Footprint.

Ltac nonterminal :=
  repeat match goal with
         | H : context [Ride.status ?t] |- _ => revert H
         end;
  match goal with
  | |- context [Ride.status ?t] => destruct (Ride.status t)
  end; cbn; intros;
  first [ reflexivity | discriminate | congruence ].

Ltac written_leaf :=
  db_simpl;
  first
    [ apply rw_none; reflexivity
    | eapply rw_created; [reflexivity | reflexivity | eassumption]
    | eapply rw_deleted;
      [reflexivity | eassumption | reflexivity
      | apply RideStatus_eqb_eq; apply negb_false_iff; assumption]
    | eapply rw_saved;
      [reflexivity | eassumption | reflexivity | nonterminal | eassumption] ].

Lemma handle_ridesWritten (user : Actor) (now : nat) (req : Request)
    (db : Db) :
  ridesWritten req (rides db) (rides (handle user now req db).1).
Proof.
  destruct req; unfold handle, isAdminOrManager;
    try (apply (requireRole_wp _ _ _
                  (fun db' _ => ridesWritten _ (rides db) (rides db')));
         [intros _; apply rw_none; reflexivity | intros _]);
    try apply (run_wp _ (fun db' _ => ridesWritten _ (rides db) (rides db')));
    try apply (runCatch_wp _ _
                 (fun db' _ => ridesWritten _ (rides db) (rides db'))).
  all: unfold_handlers.
  all: wp_run ltac:(try solve [written_leaf]).
  all: try solve [written_leaf].
Qed.

Lemma handle_keeps_terminal (user : Actor) (now : nat) (req : Request)
    (db : Db) (i : nat) (r : Ride.t) :
  rides db !! i = Some r ->
  terminal (Ride.status r) = true ->
  rides (handle user now req db).1 !! i = Some r.
Proof.
  intros Hr Ht.
  destruct (handle_ridesWritten user now req db)
    as [-> | new _ -> _ | k old new _ Hk -> Hnt _ | k old _ Hk -> Hs].
  - exact Hr.
  - rewrite lookup_insert_ne; [exact Hr |].
    intros <-. pose proof (is_fresh (dom (rides db))) as Hf.
    apply Hf. apply elem_of_dom. eauto.
  - destruct (decide (k = i)) as [-> | Hne].
    + rewrite Hr in Hk. injection Hk as <-. congruence.
    + rewrite lookup_insert_ne by exact Hne. exact Hr.
  - destruct (decide (k = i)) as [-> | Hne].
    + rewrite Hr in Hk. injection Hk as <-. rewrite Hs in Ht. discriminate Ht.
    + rewrite lookup_delete_ne by exact Hne. exact Hr.
Qed.

Lemma after_keeps_terminal (trace : list (Actor * nat * Request)) (db : Db)
    (i : nat) (r : Ride.t) :
  rides db !! i = Some r ->
  terminal (Ride.status r) = true ->
  rides (after trace db) !! i = Some r.
Proof.
  revert db. induction trace as [| e trace IH]; intros db Hr Ht; cbn.
  - exact Hr.
  - apply IH; [| exact Ht]. apply handle_keeps_terminal; assumption.
Qed.

(** X1.  A ride that has reached a terminal state (rejected, cancelled,
    aborted, completed) is never written again: after any request, and so
    after any sequence of requests, the document is the one it was. *)
Theorem terminal_rides_are_frozen :
  forall (trace : list (Actor * nat * Request)) (db : Db) (i : nat)
         (r : Ride.t),
    rides db !! i = Some r ->
    terminal (Ride.status r) = true ->
    rides (after trace db) !! i = Some r.
Proof. exact after_keeps_terminal. Qed.

(** X1 at a concrete store: the completed ride 101 after a drop, an abort
    and a generic status change that name it. *)
Lemma completed_ride_101_is_frozen :
  rides (after [(Fleet.driverA, 1%nat,
                 PATCH_rides_drop 101 (Fleet.dropBody (Some (Some 30)) []));
                (Fleet.managerM, 2%nat,
                 POST_rides_abort 101 (Some "other"%string) None);
                (Fleet.managerM, 3%nat, PUT_rides_status 101 "cancelled")]
               Fleet.noShift) !! 101%nat
  = Some Fleet.completedRide.
Proof.
  apply terminal_rides_are_frozen.
  - vm_compute. reflexivity.
  - reflexivity.
Defined.

Lemma handle_writes_one_ride (user : Actor) (now : nat) (req : Request)
    (db : Db) (j : nat) :
  (forall r, rideOf req <> Some j -> rides db !! j = Some r ->
             rides (handle user now req db).1 !! j = Some r) /\
  (forall r', rides db !! j = None ->
              rides (handle user now req db).1 !! j = Some r' ->
              rideOf req = None /\ j = fresh (dom (rides db))) /\
  (forall r, rides db !! j = Some r ->
             rides (handle user now req db).1 !! j = None ->
             req = DELETE_rides_scheduled j /\ Ride.status r = scheduled).
Proof.
  destruct (handle_ridesWritten user now req db)
    as [-> | new Hn -> _ | k old new Hk Ho -> _ _ | k old -> Ho -> Hs].
  - repeat split; intros; congruence.
  - split; [| split].
    + intros r _ Hr. rewrite lookup_insert_ne; [exact Hr |].
      intros <-. apply (is_fresh (dom (rides db))).
      apply elem_of_dom. eauto.
    + intros r' Hnone Hr'. split; [exact Hn |].
      destruct (decide (fresh (dom (rides db)) = j)) as [E | Hne];
        [symmetry; exact E |].
      rewrite lookup_insert_ne in Hr' by exact Hne. congruence.
    + intros r Hr Hnone.
      destruct (decide (fresh (dom (rides db)) = j)) as [<- | Hne].
      * rewrite lookup_insert_eq in Hnone. discriminate Hnone.
      * rewrite lookup_insert_ne in Hnone by exact Hne. congruence.
  - split; [| split].
    + intros r Hne Hr. rewrite lookup_insert_ne; [exact Hr |]. congruence.
    + intros r' Hnone Hr'.
      destruct (decide (k = j)) as [<- | Hne]; [congruence |].
      rewrite lookup_insert_ne in Hr' by exact Hne. congruence.
    + intros r Hr Hnone.
      destruct (decide (k = j)) as [<- | Hne].
      * rewrite lookup_insert_eq in Hnone. discriminate Hnone.
      * rewrite lookup_insert_ne in Hnone by exact Hne. congruence.
  - split; [| split].
    + intros r Hne Hr. cbn in Hne.
      rewrite lookup_delete_ne; [exact Hr |]. congruence.
    + intros r' Hnone Hr'.
      destruct (decide (k = j)) as [<- | Hne].
      * rewrite lookup_delete_eq in Hr'. discriminate Hr'.
      * rewrite lookup_delete_ne in Hr' by exact Hne. congruence.
    + intros r Hr Hnone.
      destruct (decide (k = j)) as [<- | Hne].
      * split; [reflexivity |]. congruence.
      * rewrite lookup_delete_ne in Hnone by exact Hne. congruence.
Qed.

(** X2.  A request writes at most one ride.  Every ride other than the one
    it names is left as it is; a ride that appears was created by a
    request that names none, under an id that was not in use; and a ride
    disappears only by the deletion of a scheduled booking. *)
Theorem requests_write_one_ride :
  forall (user : Actor) (now : nat) (req : Request) (db : Db) (j : nat),
    (forall r, rideOf req <> Some j -> rides db !! j = Some r ->
               rides (handle user now req db).1 !! j = Some r) /\
    (forall r', rides db !! j = None ->
                rides (handle user now req db).1 !! j = Some r' ->
                rideOf req = None /\ j = fresh (dom (rides db))) /\
    (forall r, rides db !! j = Some r ->
               rides (handle user now req db).1 !! j = None ->
               req = DELETE_rides_scheduled j /\ Ride.status r = scheduled).
Proof. exact handle_writes_one_ride. Qed.

(** X2 at a concrete request: the drop of ride 103 leaves ride 100 as it
    is. *)
Lemma drop_of_103_leaves_100 :
  rides (handle Fleet.driverA 7
           (PATCH_rides_drop 103 (Fleet.dropBody (Some (Some 100)) [53%nat]))
           Fleet.onShift).1 !! 100%nat = Some Fleet.assignedRide.
Proof.
  apply (proj1 (requests_write_one_ride Fleet.driverA 7%nat
                  (PATCH_rides_drop 103
                     (Fleet.dropBody (Some (Some 100)) [53%nat]))
                  Fleet.onShift 100%nat)).
  - cbn. discriminate.
  - vm_compute. reflexivity.
Defined.

Lemma handle_keeps_ridesValid (user : Actor) (now : nat) (req : Request)
    (db : Db) :
  ridesValid db -> ridesValid (handle user now req db).1.
Proof.
  intros Hv i r. 
  destruct (handle_ridesWritten user now req db)
    as [-> | new _ -> Hn | k old new _ _ -> _ Hn | k old _ _ -> _].
  - apply Hv.
  - destruct (decide (fresh (dom (rides db)) = i)) as [<- | Hne].
    + rewrite lookup_insert_eq. intros [= <-]. exact Hn.
    + rewrite lookup_insert_ne by exact Hne. apply Hv.
  - destruct (decide (k = i)) as [<- | Hne].
    + rewrite lookup_insert_eq. intros [= <-]. exact Hn.
    + rewrite lookup_insert_ne by exact Hne. apply Hv.
  - destruct (decide (k = i)) as [<- | Hne].
    + rewrite lookup_delete_eq. discriminate.
    + rewrite lookup_delete_ne by exact Hne. apply Hv.
Qed.

Lemma after_keeps_ridesValid (trace : list (Actor * nat * Request))
    (db : Db) :
  ridesValid db -> ridesValid (after trace db).
Proof.
  revert db. induction trace as [| e trace IH]; intros db H0; cbn;
    [exact H0 |].
  apply IH. apply handle_keeps_ridesValid. exact H0.
Qed.

(** X3.  The validators of the ride schema hold of every stored ride: a
    request keeps this, so after any sequence of requests that starts in
    the empty store every ride has at least one passenger and no negative
    fare field. *)
Theorem stored_rides_stay_valid :
  (forall (user : Actor) (now : nat) (req : Request) (db : Db),
     ridesValid db -> ridesValid (handle user now req db).1) /\
  (forall (trace : list (Actor * nat * Request)) (i : nat) (r : Ride.t),
     rides (after trace Fleet.emptyDb) !! i = Some r ->
     (1 <= Ride.passengers r)%Z /\
     0 <= total (Ride.fare r) /\ 0 <= perPerson (Ride.fare r) /\
     0 <= halfFare (Ride.fare r) /\ 0 <= gst (Ride.fare r)).
Proof.
  split; [exact handle_keeps_ridesValid |].
  intros trace i r Hr.
  assert (Hv : ridesValid (after trace Fleet.emptyDb))
    by (apply after_keeps_ridesValid; intros j x Hx; discriminate Hx).
  specialize (Hv i r Hr). unfold Ride_validate in Hv.
  rewrite !andb_true_iff, Z.leb_le, !Qle_bool_iff in Hv. tauto.
Qed.

(** X3 at a concrete history: a driver starts a shift and creates a
    self-assigned ride in the empty store. *)
Lemma self_assigned_ride_is_valid :
  exists r,
    rides (after [(Fleet.driverA, 1%nat, POST_shifts_start Fleet.startBody);
                  (Fleet.driverA, 2%nat,
                   POST_rides_self_assign Fleet.selfAssignBody
                     "RIDE-20250101-CCCCCC")]
                 Fleet.emptyDb) !! 0%nat = Some r /\
    (1 <= Ride.passengers r)%Z /\ 0 <= total (Ride.fare r).
Proof.
  assert (H : exists r,
             rides (after [(Fleet.driverA, 1%nat,
                            POST_shifts_start Fleet.startBody);
                           (Fleet.driverA, 2%nat,
                            POST_rides_self_assign Fleet.selfAssignBody
                              "RIDE-20250101-CCCCCC")]
                          Fleet.emptyDb) !! 0%nat = Some r)
    by (vm_compute; eexists; reflexivity).
  destruct H as [r Hr]. exists r. split; [exact Hr |].
  destruct (proj2 stored_rides_stay_valid _ _ _ Hr) as (H1 & H2 & _).
  split; assumption.
Defined.

(** *** Users and shifts *)

Lemma sameUsers_refl (m : gmap nat User.t) : sameUsersButStatus m m.
Proof. intros i. destruct (m !! i); [split; reflexivity | exact I]. Qed.

Lemma sameUsers_alter (m m' : gmap nat User.t) (d : nat) (s : DriverStatus) :
  sameUsersButStatus m m' ->
  sameUsersButStatus m
    (alter (fun u => {| User._id := User._id u; User.role := User.role u;
                        User.status := s |}) d m').
Proof.
  intros H i. specialize (H i).
  destruct (decide (d = i)) as [<- | Hne].
  - rewrite lookup_alter_eq.
    destruct (m !! d), (m' !! d); cbn; exact H.
  - rewrite lookup_alter_ne by exact Hne. exact H.
Qed.

Ltac users_leaf :=
  db_simpl; repeat apply sameUsers_alter; apply sameUsers_refl.

Lemma handle_sameUsers (user : Actor) (now : nat) (req : Request) (db : Db) :
  sameUsersButStatus (users db) (users (handle user now req db).1).
Proof.
  destruct req; unfold handle, isAdminOrManager;
    try (apply (requireRole_wp _ _ _
                  (fun db' _ => sameUsersButStatus (users db) (users db')));
         [intros _; apply sameUsers_refl | intros _]);
    try apply (run_wp _
                 (fun db' _ => sameUsersButStatus (users db) (users db')));
    try apply (runCatch_wp _ _
                 (fun db' _ => sameUsersButStatus (users db) (users db'))).
  all: unfold_handlers.
  all: wp_run ltac:(try solve [users_leaf]).
  all: try solve [users_leaf].
Qed.

Ltac frame_leaf :=
  db_simpl; unfold frameOf; cbn [isShiftRequest];
  db_simpl;
  repeat split; intros; try discriminate; try reflexivity; set_solver.

Lemma handle_frame (user : Actor) (now : nat) (req : Request) (db : Db) :
  frameOf req db (handle user now req db).1.
Proof.
  destruct req; unfold handle, isAdminOrManager;
    try (apply (requireRole_wp _ _ _ (fun db' _ => frameOf _ db db'));
         [intros _; frame_leaf | intros _]);
    try apply (run_wp _ (fun db' _ => frameOf _ db db'));
    try apply (runCatch_wp _ _ (fun db' _ => frameOf _ db db')).
  all: unfold_handlers.
  all: wp_run ltac:(try solve [frame_leaf]).
  all: try solve [frame_leaf].
Qed.

Lemma shiftKept_refl (s : Shift.t) : shiftKept s s.
Proof. unfold shiftKept. repeat split; auto. Qed.

Lemma Forall2_shiftKept_refl (l : list Shift.t) : Forall2 shiftKept l l.
Proof. induction l; constructor; [apply shiftKept_refl | assumption]. Qed.

Lemma Forall2_shiftKept_updateFirst (p : Shift.t -> bool)
    (f : Shift.t -> Shift.t) (l : list Shift.t) :
  (forall s, p s = true -> shiftKept s (f s)) ->
  Forall2 shiftKept l (updateFirst p f l).
Proof.
  intros Hf. induction l as [| s l IH]; cbn; [constructor |].
  destruct (p s) eqn:E.
  - constructor; [apply Hf; exact E | apply Forall2_shiftKept_refl].
  - constructor; [apply shiftKept_refl | exact IH].
Qed.

Lemma shiftsAppended_refl (user : Actor) (l : list Shift.t) :
  shiftsAppended user l l.
Proof.
  exists l, []. rewrite app_nil_r.
  split; [reflexivity |]. split; [apply Forall2_shiftKept_refl |].
  left. reflexivity.
Qed.

Lemma shiftsAppended_updateFirst (user : Actor) (p : Shift.t -> bool)
    (f : Shift.t -> Shift.t) (l : list Shift.t) :
  (forall s, p s = true -> shiftKept s (f s)) ->
  shiftsAppended user l (updateFirst p f l).
Proof.
  intros Hf. exists (updateFirst p f l), []. rewrite app_nil_r.
  split; [reflexivity |].
  split; [apply Forall2_shiftKept_updateFirst; exact Hf |].
  left. reflexivity.
Qed.

Lemma fresh_shift_id (l : list Shift.t) :
  ~ In (fresh (list_to_set (map Shift._id l) : gset nat)) (map Shift._id l).
Proof.
  intros Hin.
  apply (is_fresh (list_to_set (map Shift._id l) : gset nat)).
  apply elem_of_list_to_set. apply list_elem_of_In. exact Hin.
Qed.

Ltac shifts_leaf :=
  db_simpl;
  first
    [ apply shiftsAppended_refl
    | apply shiftsAppended_updateFirst;
      let s := fresh "s" in
      let H := fresh "H" in
      intros s H; unfold shiftKept; cbn;
      repeat split; try reflexivity; try discriminate;
      try (intros; assumption);
      let Hi := fresh "Hi" in
      intros Hi; exfalso; cbn in H; rewrite Hi in H; cbn in H;
      rewrite !andb_false_r in H; discriminate H
    | eexists; eexists; split; [reflexivity |];
      split; [apply Forall2_shiftKept_refl |];
      right; eexists; split; [reflexivity |];
      cbn; repeat split; try reflexivity; apply fresh_shift_id ].

Lemma handle_shiftsAppended (user : Actor) (now : nat) (req : Request)
    (db : Db) :
  shiftsAppended user (shifts db) (shifts (handle user now req db).1).
Proof.
  destruct req; unfold handle, isAdminOrManager;
    try (apply (requireRole_wp _ _ _
                  (fun db' _ => shiftsAppended user (shifts db) (shifts db')));
         [intros _; apply shiftsAppended_refl | intros _]);
    try apply (run_wp _
                 (fun db' _ => shiftsAppended user (shifts db) (shifts db')));
    try apply (runCatch_wp _ _
                 (fun db' _ => shiftsAppended user (shifts db) (shifts db'))).
  all: unfold_handlers.
  all: wp_run ltac:(try solve [shifts_leaf]).
  all: try solve [shifts_leaf].
Qed.

Lemma sameUsers_trans (m1 m2 m3 : gmap nat User.t) :
  sameUsersButStatus m1 m2 -> sameUsersButStatus m2 m3 ->
  sameUsersButStatus m1 m3.
Proof.
  intros H12 H23 i. specialize (H12 i). specialize (H23 i).
  destruct (m1 !! i), (m2 !! i), (m3 !! i); try tauto.
  destruct H12, H23. split; congruence.
Qed.

(** X4.  The ride and shift requests never create or delete a user and
    never change a role: after any sequence of requests the users are the
    users there were, with the ids and roles they had; at most their
    availability has changed. *)
Theorem users_keep_ids_and_roles :
  forall (trace : list (Actor * nat * Request)) (db : Db) (i : nat),
    match users db !! i, users (after trace db) !! i with
    | Some u, Some u' =>
        User._id u' = User._id u /\ User.role u' = User.role u
    | None, None => True
    | _, _ => False
    end.
Proof.
  intros trace db.
  change (sameUsersButStatus (users db) (users (after trace db))).
  revert db. induction trace as [| e trace IH]; intros db; cbn.
  - apply sameUsers_refl.
  - eapply sameUsers_trans; [apply handle_sameUsers | apply IH].
Qed.

(** X5.  Ride requests and shift requests write disjoint parts of the
    store.  A ride request leaves the shifts as they are; a shift request
    leaves rides, users, clients and destinations as they are (starting or
    ending a shift neither frees a driver nor ends a ride); and no request
    removes a client or a destination or changes the GST setting. *)
Theorem ride_and_shift_requests_are_separate :
  forall (user : Actor) (now : nat) (req : Request) (db : Db),
    (isShiftRequest req = false ->
     shifts (handle user now req db).1 = shifts db) /\
    (isShiftRequest req = true ->
     rides (handle user now req db).1 = rides db /\
     users (handle user now req db).1 = users db /\
     clients (handle user now req db).1 = clients db /\
     destinations (handle user now req db).1 = destinations db) /\
    clients db ⊆ clients (handle user now req db).1 /\
    destinations db ⊆ destinations (handle user now req db).1 /\
    gst_rate (handle user now req db).1 = gst_rate db.
Proof. exact handle_frame. Qed.

(** X5 at a concrete request: driver 1 ends shift 70 while ride 103 is
    started; the ride and the availability of the driver are as before. *)
Lemma end_of_shift_leaves_the_ride :
  rides (handle Fleet.driverA 9 (POST_shifts_end 70) Fleet.onShift).1
  = rides Fleet.onShift /\
  users (handle Fleet.driverA 9 (POST_shifts_end 70) Fleet.onShift).1
  = users Fleet.onShift.
Proof.
  destruct (ride_and_shift_requests_are_separate Fleet.driverA 9%nat
              (POST_shifts_end 70) Fleet.onShift) as (_ & H & _).
  destruct (H eq_refl) as (H1 & H2 & _). split; assumption.
Defined.

(** X6.  The shifts are an append-only history.  After a request of
    [user] every shift that was stored is still stored, at its position,
    with its id, driver, taxi number, start meter and start time; a shift
    that had ended has not become active again and keeps its end time;
    and at most one shift was added, at the end: an active shift of
    [user] under an id that was not in use. *)
Theorem shift_history_is_append_only :
  forall (user : Actor) (now : nat) (req : Request) (db : Db),
    exists kept new,
      shifts (handle user now req db).1 = kept ++ new /\
      Forall2 shiftKept (shifts db) kept /\
      (new = [] \/
       exists s, new = [s] /\ Shift.isActive s = true /\
                 Shift.driver s = id user /\
                 ~ In (Shift._id s) (map Shift._id (shifts db))).
Proof. exact handle_shiftsAppended. Qed.

(** *** Requests that succeed *)

Lemma refuses_ret {A : Type} (a : A) : refuses (ret a).
Proof. intros db e H. discriminate H. Qed.

Lemma refuses_gets {A : Type} (f : Db -> A) : refuses (gets f).
Proof. intros db e H. discriminate H. Qed.

Lemma refuses_respond {A : Type} http code :
  refuses (respond (Fail http code) : M A).
Proof. intros db e H. injection H as <-. exact I. Qed.

Lemma refuses_throw {A : Type} s c : refuses (throw s c : M A).
Proof. intros db e H. injection H as <-. exact I. Qed.

Lemma refuses_throwError {A : Type} : refuses (throwError : M A).
Proof. intros db e H. injection H as <-. exact I. Qed.

Lemma refuses_failWhen c http code : refuses (failWhen c (Fail http code)).
Proof.
  intros db e H. destruct c; cbn in H; [| discriminate H].
  injection H as <-. exact I.
Qed.

Lemma refuses_bind {A B : Type} (m : M A) (k : A -> M B) :
  refuses m -> (forall a, refuses (k a)) -> refuses (bind m k).
Proof.
  intros Hm Hk db e. unfold bind. specialize (Hm db).
  destruct (m db) as [db' [a | e']]; cbn in *.
  - apply Hk.
  - intros [= <-]. apply Hm. reflexivity.
Qed.

(** A read-only step whose exits are refusals, taken as a whole. *)
Lemma wp_bind_refuses {A B : Type} (m : M A) (k : A -> M B) Q db :
  ro m -> refuses m ->
  (forall e, isRefusal e -> Q db (inr e)) ->
  (forall a, (m db).2 = inl a -> wp (k a) Q db) ->
  wp (bind m k) Q db.
Proof.
  intros Hro Hm He Hk. unfold wp, bind.
  pose proof (Hro db) as Hdb. specialize (Hm db).
  destruct (m db) as [db' [a | e]] eqn:E; cbn in *; subst db'.
  - apply Hk. reflexivity.
  - apply He. apply Hm. reflexivity.
Qed.

Ltac refuses_step :=
  lazymatch goal with
  | |- refuses (ret _) => apply refuses_ret
  | |- refuses (respond (Fail _ _)) => apply refuses_respond
  | |- refuses throwError => apply refuses_throwError
  | |- refuses (throw _ _) => apply refuses_throw
  | |- refuses (gets _) => apply refuses_gets
  | |- refuses (failWhen _ (Fail _ _)) => apply refuses_failWhen
  | |- refuses (bind _ _) => apply refuses_bind; [| intros ?]
  | |- refuses (match ?x with _ => _ end) => destruct x
  | |- refuses (if ?x then _ else _) => destruct x
  | |- refuses (let x := _ in _) => cbv zeta
  | |- refuses _ => progress wp_unfold
  end.

Ltac refuses_run := repeat refuses_step.

(** The execution for a property of the requests that succeed: a
    read-only step is taken as a whole, with its value known by an
    equation and its exits known to be refusals. *)
Ltac ok_step leaf :=
  lazymatch goal with
  | |- wp (bind _ _) _ _ =>
      first [ apply wp_bind_refuses;
              [solve [ro_run] | solve [refuses_run]
              | intros ? ?; solve [leaf] | intros ? ?]
            | apply wp_bind ]
  | |- _ => wp_step idtac
  end.

Ltac ok_run leaf := repeat (ok_step leaf).

(** An exit that is a refusal is not answered with success. *)
Lemma refusal_not_Ok (e : Exit) (http : nat) :
  isRefusal e ->
  match e with
  | Answered r => r
  | Thrown s c => errorHandler s c
  end = Ok http -> False.
Proof.
  destruct e as [[h | h c] | s c]; cbn; intros H E;
    [exact H | discriminate E | discriminate E].
Qed.

Ltac refused_exit :=
  db_simpl; cbv beta;
  let h := fresh "http" in
  let H := fresh "Hresp" in
  intros h H;
  first [ discriminate H
        | exfalso; eapply refusal_not_Ok; eassumption ].

Ltac edge_taken :=
  repeat match goal with
         | H : context [Ride.status ?t] |- _ => revert H
         end;
  match goal with
  | |- context [Ride.status ?t] => destruct (Ride.status t)
  end; cbn; intros;
  first [ reflexivity | discriminate | congruence ].

Lemma failWhen_inl (c : bool) (r : Response) (db : Db) (a : unit) :
  (failWhen c r db).2 = inl a -> c = false.
Proof. destruct c; [discriminate | reflexivity]. Qed.

Lemma findById_inl (i : nat) (db : Db) (o : option Ride.t) :
  (Ride_findById i db).2 = inl o -> rides db !! i = o.
Proof. intros [= <-]. reflexivity. Qed.

(** The equations of the steps taken as a whole, in the form of the
    facts they give. *)
Ltac norm_vals :=
  repeat match goal with
         | H : (failWhen _ _ _).2 = inl _ |- _ => apply failWhen_inl in H
         | H : (Ride_findById _ _).2 = inl _ |- _ => apply findById_inl in H
         | H : is_none (Some _) = true |- _ => discriminate H
         | H : (_ && _) = true |- _ =>
             apply andb_true_iff in H; destruct H
         | H : String.eqb ?s _ = true |- _ =>
             apply String.eqb_eq in H; subst s
         end.

Ltac target_leaf :=
  norm_vals; db_simpl; intros ? _;
  repeat match goal with
         | H : match status_of_string _ with _ => _ end = Some _ |- _ =>
             cbn in H; injection H as <- <-
         end;
  eexists; eexists;
  split; [eassumption |];
  split; [apply lookup_insert_eq |];
  split; [repeat case_match; reflexivity |];
  edge_taken.

Lemma handle_success_target (user : Actor) (now : nat) (req : Request)
    (db : Db) (i : nat) (t : RideStatus) :
  target req = Some (i, t) ->
  forall http, (handle user now req db).2 = Ok http ->
  exists r r',
    rides db !! i = Some r /\
    rides (handle user now req db).1 !! i = Some r' /\
    Ride.status r' = t /\
    edge (Ride.status r) t = true.
Proof.
  intros Ht.
  destruct req; cbn in Ht; try discriminate Ht;
    try (injection Ht as <- <-);
    unfold handle, isAdminOrManager;
    try (apply (requireRole_wp _ _ _
                  (fun db' resp => forall http, resp = Ok http ->
                     exists r r', rides db !! _ = Some r /\
                       rides db' !! _ = Some r' /\ _ /\ _));
         [intros _ ? [=] | intros _]);
    try apply (run_wp _
                 (fun db' resp => forall http, resp = Ok http ->
                    exists r r', rides db !! _ = Some r /\
                      rides db' !! _ = Some r' /\ _ /\ _)).
  all: unfold_handlers.
  all: ok_run ltac:(refused_exit).
  all: try solve [refused_exit].
  all: target_leaf.
Qed.

Ltac same_driver :=
  repeat match goal with
         | H : Ride.driver _ = Some _ |- _ => progress ride_simpl
         | H : context [if ?c then _ else _] |- _ =>
             match type of H with
             | Ride.driver _ = _ => destruct c
             end
         end.

Lemma populatedDriver_Some (t : Ride.t) (db : Db) (n : nat) :
  (populatedDriver t db).2 = inl (Some n) ->
  Ride.driver t = Some n /\ is_Some (users db !! n).
Proof.
  unfold populatedDriver, User_findById, bind, gets, ret.
  destruct (Ride.driver t) as [d |]; cbn; [| discriminate].
  destruct (users db !! d) eqn:E; cbn; [| discriminate].
  intros [= <-]. split; [reflexivity |]. rewrite E. eauto.
Qed.

Lemma handle_releases_driver (user : Actor) (now : nat) (req : Request)
    (db : Db) (i d : nat) (r : Ride.t) :
  releases req = true ->
  rideOf req = Some i ->
  rides db !! i = Some r ->
  Ride.driver r = Some d ->
  forall http, (handle user now req db).2 = Ok http ->
  users (handle user now req db).1 !! d = withStatus FREE <$> users db !! d.
Proof.
  intros Hrel Hi Hr Hd.
  destruct req; cbn in Hrel; try discriminate Hrel;
    cbn in Hi; injection Hi as ->;
    unfold handle, isAdminOrManager;
    try (apply (requireRole_wp _ _ _
                  (fun db' resp => forall http, resp = Ok http ->
                     users db' !! d = withStatus FREE <$> users db !! d));
         [intros _ ? [=] | intros _]);
    try apply (run_wp _
                 (fun db' resp => forall http, resp = Ok http ->
                    users db' !! d = withStatus FREE <$> users db !! d)).
  all: unfold_handlers.
  all: ok_run ltac:(refused_exit).
  all: try solve [refused_exit].
  all: norm_vals; db_simpl; intros ? _.
  all: try discriminate Hrel.
  all: try match goal with
       | H : (match d_passengers _ with _ => _ end _).2 = inl ?a,
         Hr : rides _ !! _ = Some ?t, Hd : Ride.driver ?t = Some _ |- _ =>
           assert (Ride.driver a = Ride.driver t)
             by (val_hyp H; simplify_eq; unfold backfillShift;
                 repeat case_match; reflexivity);
           clear H
       end.
  all: try match goal with
       | H : ((if negb (length ?ids =? 0) then _ else _) _).2 = inl ?a,
         H6 : Ride.driver ?a6 = Ride.driver _ |- _ =>
           assert (Ride.driver a = Ride.driver a6)
             by (val_hyp H; simplify_eq; reflexivity);
           clear H
       end.
  all: try match goal with
       | H : (populatedDriver _ _).2 = inl (Some _) |- _ =>
           apply populatedDriver_Some in H; destruct H as [H _]
       end.
  all: repeat match goal with
              | H : (_ _).2 = inl _ |- _ => clear H
              end.
  all: match goal with
       | H1 : rides ?m !! ?k = Some ?t, H2 : rides ?m !! ?k = Some ?t' |- _ =>
           assert (t = t') by congruence; subst t
       end.
  all: repeat match goal with
              | H : Ride.driver ?x = _ |- _ =>
                  match x with
                  | context [if ?c then _ else _] => destruct c
                  end
              end; ride_simpl; try congruence.
  all: try (match goal with
       | H : Ride.driver _ = Some ?n |- alter _ ?n _ !! ?d = _ =>
           assert (n = d) by congruence; subst n
       end; exact (lookup_alter_eq _ _ _)).
Qed.

Lemma ensureDriverFree_inl (o : option nat) (db : Db) (u : User.t) :
  (ensureDriverFree o db).2 = inl u ->
  exists d, o = Some d /\ users db !! d = Some u /\
            User.role u = DRIVER /\ User.status u = FREE.
Proof.
  unfold ensureDriverFree, User_findById, bind, gets, ret, throw.
  destruct o as [d |]; cbn; [| discriminate].
  destruct (users db !! d) as [x |] eqn:E; cbn; [| discriminate].
  destruct (Role_eqb (User.role x) DRIVER) eqn:Er; cbn; [| discriminate].
  destruct (User.status x) eqn:Es; cbn; try discriminate.
  intros [= <-]. exists d. repeat split; try assumption.
  destruct (User.role x); try discriminate Er. reflexivity.
Qed.

Lemma driverString_inl (t : Ride.t) (db : Db) (d : nat) :
  (driverString t db).2 = inl d -> Ride.driver t = Some d.
Proof.
  unfold driverString. destruct (Ride.driver t); cbn; [| discriminate].
  intros [= <-]. reflexivity.
Qed.

Lemma handle_gives_driver (user : Actor) (now : nat) (req : Request)
    (db : Db) (d : nat) :
  givesTo user req = Some d ->
  forall http, (handle user now req db).2 = Ok http ->
  users (handle user now req db).1 !! d
  = withStatus ON_RIDE <$> users db !! d /\
  match req with
  | POST_rides_self_assign _ _ => True
  | POST_rides_reassign i _ =>
      exists u, users db !! d = Some u /\ User.role u = DRIVER /\
                (User.status u = FREE \/
                 exists r, rides db !! i = Some r /\ Ride.driver r = Some d)
  | _ =>
      exists u, users db !! d = Some u /\ User.role u = DRIVER /\
                User.status u = FREE
  end.
Proof.
  intros Hg.
  destruct req; cbn in Hg; try discriminate Hg;
    unfold handle, isAdminOrManager;
    try (apply (requireRole_wp _ _ _
                  (fun db' resp => forall http, resp = Ok http ->
                     users db' !! d = withStatus ON_RIDE <$> users db !! d /\ _));
         [intros _ ? [=] | intros _]);
    try apply (run_wp _
                 (fun db' resp => forall http, resp = Ok http ->
                    users db' !! d = withStatus ON_RIDE <$> users db !! d /\ _)).
  all: unfold_handlers.
  all: ok_run ltac:(refused_exit).
  all: try solve [refused_exit].
  all: norm_vals; db_simpl; intros ? _.
  all: try discriminate.
  all: repeat match goal with
              | H : (driverString _ _).2 = inl _ |- _ =>
                  apply driverString_inl in H
              end.
  all: repeat match goal with
              | H : (ensureDriverFree _ _).2 = inl _ |- _ =>
                  apply ensureDriverFree_inl in H;
                  destruct H as (? & ? & ? & ? & ?)
              | H : _ = inl ?a |- _ =>
                  lazymatch type of a with
                  | User.t =>
                      apply (ensureDriverFree_inl (Some _)) in H;
                      destruct H as (? & ? & ? & ? & ?)
                  end
              end.
  all: simplify_eq.
  all: try solve [split; [exact (lookup_alter_eq _ _ _) | eauto]].
  match goal with
  | H : users (set_users (alter _ ?old _) _) !! ?d = Some ?u |- _ =>
      cbn [users set_users] in H;
      destruct (decide (old = d)) as [-> | Hne]
  end.
  - rewrite !lookup_alter_eq in *.
    destruct (users db !! d) as [u0 |] eqn:Eu; [| discriminate].
    cbn in *. simplify_eq. split; [reflexivity |].
    exists u0. split; [reflexivity |]. split; [assumption |].
    right. eauto.
  - rewrite lookup_alter_eq. rewrite lookup_alter_ne in * by exact Hne.
    split; [reflexivity |]. eexists. split; [eassumption |].
    split; [assumption |]. left. assumption.
Qed.

(** X7.  A status-change request that is answered with success found the
    ride it names, took an edge of the transition table from the status
    the ride had, and left the ride in the status it asked for. *)
Theorem successful_transition_takes_an_edge :
  forall (user : Actor) (now : nat) (req : Request) (db : Db) (i : nat)
         (t : RideStatus) (http : nat),
    target req = Some (i, t) ->
    (handle user now req db).2 = Ok http ->
    exists r r',
      rides db !! i = Some r /\
      rides (handle user now req db).1 !! i = Some r' /\
      Ride.status r' = t /\
      edge (Ride.status r) t = true.
Proof.
  intros user now req db i t http Ht Hok.
  exact (handle_success_target user now req db i t Ht http Hok).
Qed.

(** X7 at a concrete request: driver 1 rejects the ride 100 assigned to
    them. *)
Lemma reject_of_ride_100_takes_an_edge :
  exists r',
    rides (handle Fleet.driverA 7 (PATCH_rides_reject 100) Fleet.noShift).1
      !! 100%nat = Some r' /\
    Ride.status r' = rejected.
Proof.
  assert (Hok : (handle Fleet.driverA 7 (PATCH_rides_reject 100)
                        Fleet.noShift).2 = Ok 200)
    by (vm_compute; reflexivity).
  destruct (successful_transition_takes_an_edge Fleet.driverA 7%nat
              (PATCH_rides_reject 100) Fleet.noShift 100%nat rejected
              200%nat eq_refl Hok) as (r & r' & _ & Hr' & Hs & _).
  exists r'. split; assumption.
Defined.

(** X8.  The availability of a driver follows the ride.  A request that
    ends a ride (reject, cancel, abort, drop, completion of a quick trip,
    "cancelled" or "completed" on the generic endpoint) and succeeds
    leaves the driver of the ride free.  A request that gives a ride to a
    driver and succeeds leaves that driver on a ride; unless the driver
    assigns the ride to themself, the driver is a user with the role
    driver who was free, or, in a reassignment, who was free or had the
    ride already. *)
Theorem driver_availability_follows_the_ride :
  (forall (user : Actor) (now : nat) (req : Request) (db : Db) (i d : nat)
          (r : Ride.t) (http : nat),
     releases req = true ->
     rideOf req = Some i ->
     rides db !! i = Some r ->
     Ride.driver r = Some d ->
     (handle user now req db).2 = Ok http ->
     users (handle user now req db).1 !! d
     = withStatus FREE <$> users db !! d) /\
  (forall (user : Actor) (now : nat) (req : Request) (db : Db) (d : nat)
          (http : nat),
     givesTo user req = Some d ->
     (handle user now req db).2 = Ok http ->
     users (handle user now req db).1 !! d
     = withStatus ON_RIDE <$> users db !! d /\
     match req with
     | POST_rides_self_assign _ _ => True
     | POST_rides_reassign i _ =>
         exists u, users db !! d = Some u /\ User.role u = DRIVER /\
                   (User.status u = FREE \/
                    exists r, rides db !! i = Some r /\
                              Ride.driver r = Some d)
     | _ =>
         exists u, users db !! d = Some u /\ User.role u = DRIVER /\
                   User.status u = FREE
     end).
Proof.
  split.
  - intros user now req db i d r http H1 H2 H3 H4 H5.
    exact (handle_releases_driver user now req db i d r H1 H2 H3 H4 http H5).
  - intros user now req db d http H1 H2.
    exact (handle_gives_driver user now req db d H1 http H2).
Qed.

(** X8 at a concrete request: after the reject of ride 100 driver 1 is
    free. *)
Lemma reject_of_ride_100_frees_driver_1 :
  users (handle Fleet.driverA 7 (PATCH_rides_reject 100) Fleet.noShift).1
    !! 1%nat = Some (Fleet.user 1 DRIVER FREE).
Proof.
  assert (Hok : (handle Fleet.driverA 7 (PATCH_rides_reject 100)
                        Fleet.noShift).2 = Ok 200)
    by (vm_compute; reflexivity).
  assert (Hr : rides Fleet.noShift !! 100%nat = Some Fleet.assignedRide)
    by (vm_compute; reflexivity).
  rewrite (proj1 driver_availability_follows_the_ride Fleet.driverA 7%nat
             (PATCH_rides_reject 100) Fleet.noShift 100%nat 1%nat
             Fleet.assignedRide 200%nat eq_refl eq_refl Hr eq_refl Hok).
  vm_compute. reflexivity.
Defined.

(** *** The current shift *)

Import ShiftQueries.









(** *** When an assignment succeeds *)

Lemma size_list_to_set_le (l : list nat) :
  (size (list_to_set l : gset nat) <= length l)%nat /\
  (size (list_to_set l : gset nat) = length l -> NoDup l).
Proof.
  induction l as [| x l [IH1 IH2]]; cbn [list_to_set length].
  - split; [rewrite size_empty; lia | intros _; constructor].
  - destruct (decide (x ∈ (list_to_set l : gset nat))) as [Hin | Hni].
    + assert (E : ({[x]} ∪ list_to_set l : gset nat) = list_to_set l)
        by (apply subseteq_union_1_L, singleton_subseteq_l; exact Hin).
      rewrite E. split; lia.
    + rewrite size_union by (apply disjoint_singleton_l; exact Hni).
      rewrite size_singleton.
      split; [lia |]. intros H. constructor.
      * rewrite elem_of_list_to_set in Hni. exact Hni.
      * apply IH2. lia.
Qed.

(** [countDocuments({ _id: { $in: ids } })] equals the number of ids
    exactly when the ids are distinct and all exist. *)
Lemma count_all_found (c : gset nat) (ids : list nat) :
  size (c ∩ list_to_set ids) = length ids <->
  NoDup ids /\ forall i, i ∈ ids -> i ∈ c.
Proof.
  split.
  - intros H.
    destruct (size_list_to_set_le ids) as [Hle Hnd].
    assert (Hsub : c ∩ list_to_set ids ⊆ (list_to_set ids : gset nat))
      by apply intersection_subseteq_r.
    pose proof (subseteq_size _ _ Hsub) as Hs.
    assert (Heq : c ∩ list_to_set ids = (list_to_set ids : gset nat)).
    { apply set_subseteq_size_eq; [exact Hsub | lia]. }
    split; [apply Hnd; lia |].
    intros i Hi. assert (Hc : i ∈ c ∩ list_to_set ids)
      by (rewrite Heq; apply elem_of_list_to_set; exact Hi).
    apply elem_of_intersection in Hc. tauto.
  - intros [Hnd Hall].
    assert (Heq : c ∩ list_to_set ids = (list_to_set ids : gset nat)).
    { apply set_eq. intros i. rewrite elem_of_intersection.
      rewrite elem_of_list_to_set. split; [tauto |]. intros Hi.
      split; [apply Hall; exact Hi | exact Hi]. }
    rewrite Heq. apply size_list_to_set. exact Hnd.
Qed.

Lemma assignRide_success (user : Actor) (now : nat) (body : AssignBody)
    (rideId : string) (db : Db) (http : nat) :
  (handle user now (POST_rides_assign body rideId) db).2 = Ok http ->
  (actor_role user = ADMIN \/ actor_role user = MANAGER) /\
  exists cs f t time d u,
    a_clients body = Some cs /\ cs <> [] /\ NoDup cs /\
    (forall c, c ∈ cs -> c ∈ clients db) /\
    a_from body = Some f /\ f ∈ destinations db /\
    a_to body = Some t /\ t ∈ destinations db /\
    a_scheduledTime body = Some time /\
    a_driver body = Some d /\ users db !! d = Some u /\
    User.role u = DRIVER /\ User.status u = FREE.
Proof.
  unfold handle, isAdminOrManager.
  apply (requireRole_wp _ _ _ (fun db' resp => resp = Ok http -> _ /\ _)).
  - intros _ H. discriminate H.
  - intros Hrole.
    apply (run_wp _ (fun db' resp => resp = Ok http -> _ /\ _)).
    unfold assignRide. repeat wp_step_exact.
    all: db_simpl; cbv beta iota.
    all: try solve [let H := fresh in intros H; discriminate H].
    all: intros _.
    all: try (exfalso;
              match goal with
              | H : _ || is_none None || _ || _ = false |- _ =>
                  rewrite !orb_false_iff in H; cbn in H; intuition congruence
              | H : _ || _ || is_none None || _ = false |- _ =>
                  rewrite !orb_false_iff in H; cbn in H; intuition congruence
              end).
    split.
    { destruct (actor_role user); cbn in Hrole; auto. discriminate Hrole. }
    match goal with
    | Hu : users db !! ?d = Some ?u |- _ =>
        exists l, n0, n1, n, d, u
    end.
    apply negb_false_iff, Nat.eqb_eq, count_all_found in E1.
    destruct E1 as [Hnd Hall].
    apply orb_false_iff in E4. destruct E4 as [Hf Ht].
    apply negb_false_iff, bool_decide_eq_true in Hf, Ht.
    rewrite !orb_false_iff in H. destruct H as [[[Hl _] _] _].
    apply Nat.eqb_neq in Hl.
    apply negb_false_iff in E7.
    repeat split; try assumption; try reflexivity.
    + intros ->. apply Hl. reflexivity.
    + destruct (User.role t); try discriminate E7. reflexivity.
Qed.

Lemma assignRide_succeeds (user : Actor) (now : nat) (body : AssignBody)
    (rideId : string) (db : Db) (cs : list nat) (f t time d : nat)
    (u : User.t) :
  (actor_role user = ADMIN \/ actor_role user = MANAGER) ->
  a_clients body = Some cs -> cs <> [] -> NoDup cs ->
  (forall c, c ∈ cs -> c ∈ clients db) ->
  a_from body = Some f -> f ∈ destinations db ->
  a_to body = Some t -> t ∈ destinations db ->
  a_scheduledTime body = Some time ->
  a_driver body = Some d -> users db !! d = Some u ->
  User.role u = DRIVER -> User.status u = FREE ->
  exists r,
    handle user now (POST_rides_assign body rideId) db
    = (set_users (<[d := withStatus ON_RIDE u]> (users db))
         (set_rides (<[fresh (dom (rides db)) := r]> (rides db)) db),
       Ok 201) /\
    Ride.status r = assigned /\
    Ride.driver r = Some d /\
    Ride.clients r = cs /\
    Ride.passengers r = Z.of_nat (length cs) /\
    Ride.from r = Some f /\ Ride.to r = Some t /\
    Ride.scheduledTime r = time /\
    Ride.fare r = zeroFare /\
    Ride.assignedBy r = Some (id user) /\
    Ride.shift r = None /\
    Ride.startedAt r = None.
Proof.
  intros Hrole Ec Hne Hnd Hall Ef Hf Et Ht Es Ed Eu Hr Hs.
  eexists. split.
  - unfold handle, isAdminOrManager, requireRole.
    assert (Hx : existsb (Role_eqb (actor_role user)) [ADMIN; MANAGER]
                 = true)
      by (destruct Hrole as [-> | ->]; reflexivity).
    rewrite Hx. unfold run, assignRide. rewrite Ec, Es, Ef, Et, Ed.
    assert (Hl : (length cs =? 0) = false)
      by (destruct cs; [congruence | reflexivity]).
    unfold bind at 1. unfold failWhen. rewrite Hl. cbn [orb is_none].
    unfold ret at 1.
    unfold bind at 1. unfold validateRefs, Client_countDocuments.
    unfold bind at 1. unfold gets at 1.
    assert (Hcount : size (clients db ∩ list_to_set cs) = length cs)
      by (apply count_all_found; split; assumption).
    rewrite Hcount, Nat.eqb_refl. cbn [negb].
    unfold Destination_exists, bind, gets, ret.
    rewrite !bool_decide_eq_true_2 by assumption. cbn [negb orb].
    unfold ensureDriverFree, User_findById, bind, gets, ret. cbn [fst snd].
    rewrite Eu, Hr, Hs. cbn [Role_eqb negb].
    unfold Ride_create, Ride_save, bind, gets.
    match goal with
    | |- context [Ride_validate ?r] =>
        assert (Hv : Ride_validate r = true)
    end.
    { unfold Ride_validate. ride_simpl. cbn.
      rewrite !andb_true_r. apply Z.leb_le.
      destruct cs; [congruence | cbn; lia]. }
    rewrite Hv. unfold modify, User_findByIdAndUpdate, modify, ret.
    cbn [fst snd users rides set_rides set_users].
    f_equal. f_equal.
    apply map_eq. intros k. destruct (decide (k = d)) as [-> | Hk].
    + rewrite lookup_alter_eq, lookup_insert_eq, Eu. reflexivity.
    + rewrite lookup_alter_ne, lookup_insert_ne by congruence. reflexivity.
  - ride_simpl. cbn. repeat split; reflexivity.
Qed.

(** X10.  When an assignment succeeds, and what it does.  An assignment
    that is answered with success was sent by an admin or a manager, with
    a list of clients that is not empty, names no client twice and only
    clients that exist, with two destinations that exist, a time, and a
    driver who is a user with the role driver and free.  Conversely every
    such assignment is answered with 201; it stores one new ride, assigned
    to the driver, with these clients, their number as passengers, the
    destinations, the time, a fare of zero, no shift and no start time,
    and puts the driver on a ride. *)
Theorem assignment_succeeds_exactly_when :
  (forall (user : Actor) (now : nat) (body : AssignBody) (rideId : string)
          (db : Db) (http : nat),
     (handle user now (POST_rides_assign body rideId) db).2 = Ok http ->
     (actor_role user = ADMIN \/ actor_role user = MANAGER) /\
     exists cs f t time d u,
       a_clients body = Some cs /\ cs <> [] /\ NoDup cs /\
       (forall c, c ∈ cs -> c ∈ clients db) /\
       a_from body = Some f /\ f ∈ destinations db /\
       a_to body = Some t /\ t ∈ destinations db /\
       a_scheduledTime body = Some time /\
       a_driver body = Some d /\ users db !! d = Some u /\
       User.role u = DRIVER /\ User.status u = FREE) /\
  (forall (user : Actor) (now : nat) (body : AssignBody) (rideId : string)
          (db : Db) (cs : list nat) (f t time d : nat) (u : User.t),
     (actor_role user = ADMIN \/ actor_role user = MANAGER) ->
     a_clients body = Some cs -> cs <> [] -> NoDup cs ->
     (forall c, c ∈ cs -> c ∈ clients db) ->
     a_from body = Some f -> f ∈ destinations db ->
     a_to body = Some t -> t ∈ destinations db ->
     a_scheduledTime body = Some time ->
     a_driver body = Some d -> users db !! d = Some u ->
     User.role u = DRIVER -> User.status u = FREE ->
     exists r,
       handle user now (POST_rides_assign body rideId) db
       = (set_users (<[d := withStatus ON_RIDE u]> (users db))
            (set_rides (<[fresh (dom (rides db)) := r]> (rides db)) db),
          Ok 201) /\
       Ride.status r = assigned /\
       Ride.driver r = Some d /\
       Ride.clients r = cs /\
       Ride.passengers r = Z.of_nat (length cs) /\
       Ride.from r = Some f /\ Ride.to r = Some t /\
       Ride.scheduledTime r = time /\
       Ride.fare r = zeroFare /\
       Ride.assignedBy r = Some (id user) /\
       Ride.shift r = None /\
       Ride.startedAt r = None).
Proof.
  split.
  - exact assignRide_success.
  - exact assignRide_succeeds.
Qed.

(** X10 at a concrete request: the manager assigns a ride with client 53
    to the free driver 3. *)
Lemma manager_assigns_a_ride_to_driver_3 :
  (handle Fleet.managerM 7
     (POST_rides_assign
        {| a_clients := Some [53%nat]; a_from := Some 60%nat;
           a_to := Some 61%nat; a_scheduledTime := Some 8%nat;
           a_driver := Some 3%nat; a_notes := None |}
        "RIDE-20250101-DDDDDD")
     Fleet.noShift).2 = Ok 201.
Proof.
  destruct (proj2 assignment_succeeds_exactly_when Fleet.managerM 7%nat
              {| a_clients := Some [53%nat]; a_from := Some 60%nat;
                 a_to := Some 61%nat; a_scheduledTime := Some 8%nat;
                 a_driver := Some 3%nat; a_notes := None |}
              "RIDE-20250101-DDDDDD"%string Fleet.noShift
              [53%nat] 60%nat 61%nat 8%nat 3%nat
              (Fleet.user 3 DRIVER FREE))
    as (r & H & _).
  - right. reflexivity.
  - reflexivity.
  - discriminate.
  - apply NoDup_singleton.
  - intros c Hc. apply list_elem_of_singleton in Hc. subst c.
    apply (bool_decide_unpack _). vm_compute. exact I.
  - reflexivity.
  - apply (bool_decide_unpack _). vm_compute. exact I.
  - reflexivity.
  - apply (bool_decide_unpack _). vm_compute. exact I.
  - reflexivity.
  - reflexivity.
  - vm_compute. reflexivity.
  - reflexivity.
  - reflexivity.
  - rewrite H. reflexivity.
Defined.

(** *** A ride from its assignment to its completion *)











(** *** The statistics of a shift *)








(** *** The drivers that are offered *)

Import DriverQueries.

Lemma available_lookup (db : Db) (d : nat) (u : User.t) :
  (getAvailableDrivers db).2 = inl (filter (fun kv => isFreeDriver kv.2 = true)
                                      (users db)) /\
  (filter (fun kv => isFreeDriver kv.2 = true) (users db) !! d = Some u <->
   users db !! d = Some u /\ User.role u = DRIVER /\ User.status u = FREE).
Proof.
  split; [reflexivity |].
  rewrite map_lookup_filter_Some. cbn. unfold isFreeDriver.
  rewrite andb_true_iff.
  destruct (User.role u), (User.status u); cbn; intuition congruence.
Qed.

Lemma offered_iff_guard (db : Db) (d : nat) (u : User.t) :
  (exists l, (getAvailableDrivers db).2 = inl l /\ l !! d = Some u) <->
  ensureDriverFree (Some d) db = (db, inl u).
Proof.
  split.
  - intros (l & Hl & Hd). injection Hl as <-.
    apply (proj2 (available_lookup db d u)) in Hd.
    destruct Hd as (Hu & Hr & Hs).
    unfold ensureDriverFree, User_findById, bind, gets.
    rewrite Hu, Hr, Hs. reflexivity.
  - intros H. eexists. split; [reflexivity |].
    apply (proj2 (available_lookup db d u)).
    apply (f_equal snd) in H. apply (ensureDriverFree_inl (Some d)) in H.
    destruct H as (d0 & [= <-] & H). exact H.
Qed.

Lemma not_offered_when_on_ride (db db' : Db) (d : nat) :
  users db' !! d = withStatus ON_RIDE <$> users db !! d ->
  filter (fun kv => isFreeDriver kv.2 = true) (users db') !! d = None.
Proof.
  intros H. apply map_lookup_filter_None. right. intros x Hx. cbn.
  rewrite H in Hx. destruct (users db !! d) as [u |]; [| discriminate Hx].
  injection Hx as <-. unfold isFreeDriver. cbn. rewrite andb_false_r.
  discriminate.
Qed.

Lemma offered_when_freed (db db' : Db) (d : nat) (u : User.t) :
  users db !! d = Some u -> User.role u = DRIVER ->
  users db' !! d = withStatus FREE <$> users db !! d ->
  filter (fun kv => isFreeDriver kv.2 = true) (users db') !! d
  = Some (withStatus FREE u).
Proof.
  intros Hu Hr H. apply map_lookup_filter_Some. rewrite H, Hu. cbn.
  split; [reflexivity |]. unfold isFreeDriver. cbn. rewrite Hr. reflexivity.
Qed.

(** X13.  The drivers that are offered are the drivers that can be given
    a ride.  A user is in the answer of [getAvailableDrivers] exactly when
    the check of an assignment, [ensureDriverFree], accepts the id of the user.  After
    a request that gives a ride to a driver and succeeds, the driver is no
    longer offered; after a request that ends the ride of a driver and
    succeeds, the driver is offered again. *)
Theorem offered_drivers_can_be_assigned :
  (forall (db : Db) (d : nat) (u : User.t),
     (exists l, (getAvailableDrivers db).2 = inl l /\ l !! d = Some u) <->
     ensureDriverFree (Some d) db = (db, inl u)) /\
  (forall (user : Actor) (now : nat) (req : Request) (db : Db) (d http : nat),
     givesTo user req = Some d ->
     (handle user now req db).2 = Ok http ->
     exists l,
       (getAvailableDrivers (handle user now req db).1).2 = inl l /\
       l !! d = None) /\
  (forall (user : Actor) (now : nat) (req : Request) (db : Db)
          (i d http : nat) (r : Ride.t) (u : User.t),
     releases req = true ->
     rideOf req = Some i ->
     rides db !! i = Some r ->
     Ride.driver r = Some d ->
     users db !! d = Some u ->
     User.role u = DRIVER ->
     (handle user now req db).2 = Ok http ->
     exists l,
       (getAvailableDrivers (handle user now req db).1).2 = inl l /\
       l !! d = Some (withStatus FREE u)).
Proof.
  split; [exact offered_iff_guard |]. split.
  - intros user now req db d http Hg Hok.
    eexists. split; [reflexivity |].
    apply (not_offered_when_on_ride db).
    exact (proj1 (handle_gives_driver user now req db d Hg http Hok)).
  - intros user now req db i d http r u Hrel Hi Hr Hd Hu Hrole Hok.
    eexists. split; [reflexivity |].
    apply (offered_when_freed db _ d u Hu Hrole).
    exact (handle_releases_driver user now req db i d r Hrel Hi Hr Hd
             http Hok).
Qed.

(** X13 at a concrete request: after the reject of ride 100 driver 1 is
    offered. *)
Lemma driver_1_is_offered_after_the_reject :
  exists l,
    (getAvailableDrivers
       (handle Fleet.driverA 7 (PATCH_rides_reject 100) Fleet.noShift).1).2
    = inl l /\
    l !! 1%nat = Some (Fleet.user 1 DRIVER FREE).
Proof.
  assert (Hok : (handle Fleet.driverA 7 (PATCH_rides_reject 100)
                        Fleet.noShift).2 = Ok 200)
    by (vm_compute; reflexivity).
  assert (Hr : rides Fleet.noShift !! 100%nat = Some Fleet.assignedRide)
    by (vm_compute; reflexivity).
  assert (Hu : users Fleet.noShift !! 1%nat
               = Some (Fleet.user 1 DRIVER ON_RIDE))
    by (vm_compute; reflexivity).
  exact (proj2 (proj2 offered_drivers_can_be_assigned) Fleet.driverA 7%nat
           (PATCH_rides_reject 100) Fleet.noShift 100%nat 1%nat 200%nat
           Fleet.assignedRide (Fleet.user 1 DRIVER ON_RIDE)
           eq_refl eq_refl Hr eq_refl Hu eq_refl Hok).
Defined.

End RideFacts.
(** * Further properties of the reports, the settings and the queries *)

(** ** Rounding to cents keeps the order *)

Section RoundingOrder.
Import Num.

Lemma round2_proper (x y : Q) : x == y -> round2 x = round2 y.
Proof.
  intros H. unfold round2, Math_round.
  assert (E : Qfloor ((x + EPSILON) * 100 + (1 # 2))
              = Qfloor ((y + EPSILON) * 100 + (1 # 2)))
    by (apply Qfloor_comp; rewrite H; reflexivity).
  rewrite E. reflexivity.
Qed.




End RoundingOrder.

(** ** The live preview *)

Section PreviewFacts.
Import Num Reconciliation.

Lemma Math_max_0_nonneg (x : Q) : 0 <= x -> Preview.Math_max 0 x == x.
Proof.
  intros H. unfold Preview.Math_max.
  destruct (Qltb 0 x) eqn:E; [reflexivity |].
  apply Qltb_ge in E. lra.
Qed.

Lemma Math_max_0_neg (x : Q) : x < 0 -> Preview.Math_max 0 x = 0.
Proof.
  intros H. unfold Preview.Math_max.
  destruct (Qltb 0 x) eqn:E; [| reflexivity].
  apply Qltb_lt in E. lra.
Qed.

(** X14.  The live preview and the calculation agree.  When the
    calculation of a report returns, the preview of the same amounts with
    the same two rates shows the same seven figures.  When the calculation
    throws, the end meter is below the start meter, and the preview still
    answers: it shows 0 for the fares of the shift and the rounded sum of
    liftings and cash fares as the total. *)
Theorem preview_agrees_with_the_calculation (rd : Report)
    (settings : Settings) :
  match calculateReportTotals (Some rd) settings false with
  | Return c =>
      Preview.calculateRealtimePreview (Some (Preview.ofReport rd))
        (Some (Preview.ofSettings settings))
      = Preview.Figures (Preview.ofCalculations c)
  | Throw _ =>
      num (amount (shiftEndTotal rd)) < num (amount (shiftStartTotal rd)) /\
      exists t,
        Preview.calculateRealtimePreview (Some (Preview.ofReport rd))
          (Some (Preview.ofSettings settings))
        = Preview.Figures t /\
        Preview.shiftTotalFares t == 0 /\
        Preview.totalFareAndLiftings t
        = round2 (num (liftings rd) + num (cashFares rd))
  end.
Proof.
  destruct (Qlt_le_dec (num (amount (shiftEndTotal rd)))
                       (num (amount (shiftStartTotal rd)))) as [Hlt | Hle].
  - rewrite (proj2 (calculateReportTotals_short rd settings Hlt)).
    split; [exact Hlt |].
    eexists. split; [reflexivity |]. cbn.
    rewrite Math_max_0_neg by lra.
    split; [vm_compute; reflexivity |].
    apply round2_proper. ring.
  - destruct (calculateReportTotals_full rd settings false Hle)
      as (c & Hc & _).
    rewrite Hc.
    unfold calculateReportTotals, rethrow in Hc.
    assert (Hcan : canCalculateTotals (Some rd) = true).
    { unfold canCalculateTotals. cbn. apply Qle_bool_iff. exact Hle. }
    rewrite Hcan in Hc. cbn in Hc. injection Hc as <-.
    unfold Preview.calculateRealtimePreview, Preview.ofCalculations. cbn.
    pose proof (Math_max_0_nonneg
                  (num (amount (shiftEndTotal rd))
                   - num (amount (shiftStartTotal rd)))) as Hm.
    assert (Hm' := Hm ltac:(lra)). clear Hm.
    f_equal. f_equal; apply round2_proper; rewrite Hm'; reflexivity.
Qed.

End PreviewFacts.

(** ** Submission of a draft with sound inputs *)

Section SoundInputs.
Import Num Reconciliation DriverReports ReportExamples.





End SoundInputs.

(** ** The comparison of a report with the rides of the system *)

Section ComparisonFacts.
Import Num Reconciliation SystemComparison.







End ComparisonFacts.

(** ** The settings of the driver reports *)

Section ReportSettingsFacts.
Import Num ReportSettings.

Lemma notNumberOr_false (v : option JsValue) (bad : Q -> bool) :
  notNumberOr v bad = false <-> exists q, v = Some (JsNumber q) /\ bad q = false.
Proof.
  unfold notNumberOr. destruct v as [[q | b | t] |].
  - split; [intros H; exists q; split; [reflexivity | exact H] |].
    intros (q' & E & H). injection E as <-. exact H.
  - split; [discriminate | intros (q' & E & _); discriminate E].
  - split; [discriminate | intros (q' & E & _); discriminate E].
  - split; [discriminate | intros (q' & E & _); discriminate E].
Qed.

Lemma between_false (lo hi q : Q) :
  Qltb q lo || Qltb hi q = false <-> lo <= q /\ q <= hi.
Proof.
  rewrite orb_false_iff, !Qltb_ge. reflexivity.
Qed.

Lemma validateSettings_Return (s v : SettingsObject) :
  validateSettings s = Return v <->
  withinRanges s /\
  v = {| rentalRatePercentage := rentalRatePercentage s;
         tripLevyRate := tripLevyRate s;
         gstRate := gstRate s;
         photoUploadMaxSize := photoUploadMaxSize s;
         requirePhotoForEFTPOS :=
           Some (JsBoolean (Boolean (requirePhotoForEFTPOS s)));
         requirePhotoForExpenses :=
           Some (JsBoolean (Boolean (requirePhotoForExpenses s)));
         autoApproveThreshold := autoApproveThreshold s;
         notifyAdminsOnSubmission :=
           Some (JsBoolean (Boolean (notifyAdminsOnSubmission s)));
         retentionPeriodDays := retentionPeriodDays s;
         allowReportEditsAfterSubmission :=
           Some (JsBoolean (Boolean (allowReportEditsAfterSubmission s))) |}.
Proof.
  unfold validateSettings, withinRanges, numberIn.
  destruct (notNumberOr (rentalRatePercentage s) _) eqn:E1.
  { split; [discriminate |]. intros (((q & Hq & H0 & H1) & _) & _).
    rewrite Hq in E1. cbn in E1. apply orb_true_iff in E1.
    destruct E1 as [E | E]; apply Qltb_lt in E; lra. }
  destruct (notNumberOr (tripLevyRate s) _) eqn:E2.
  { split; [discriminate |]. intros ((_ & (q & Hq & H0 & _) & _) & _).
    rewrite Hq in E2. cbn in E2. apply Qltb_lt in E2. lra. }
  destruct (notNumberOr (gstRate s) _) eqn:E3.
  { split; [discriminate |]. intros ((_ & _ & (q & Hq & H0 & H1) & _) & _).
    rewrite Hq in E3. cbn in E3. apply orb_true_iff in E3.
    destruct E3 as [E | E]; apply Qltb_lt in E; lra. }
  destruct (notNumberOr (photoUploadMaxSize s) _) eqn:E4.
  { split; [discriminate |]. intros ((_ & _ & _ & (q & Hq & H0 & H1) & _) & _).
    rewrite Hq in E4. cbn in E4. apply orb_true_iff in E4.
    destruct E4 as [E | E]; apply Qltb_lt in E; lra. }
  destruct (notNumberOr (retentionPeriodDays s) _) eqn:E5.
  { split; [discriminate |].
    intros ((_ & _ & _ & _ & (q & Hq & H0 & H1) & _) & _).
    rewrite Hq in E5. cbn in E5. apply orb_true_iff in E5.
    destruct E5 as [E | E]; apply Qltb_lt in E; lra. }
  destruct (notNumberOr (autoApproveThreshold s) _) eqn:E6.
  { split; [discriminate |].
    intros ((_ & _ & _ & _ & _ & (q & Hq & H0 & _)) & _).
    rewrite Hq in E6. cbn in E6. apply Qltb_lt in E6. lra. }
  apply notNumberOr_false in E1, E2, E3, E4, E5, E6.
  destruct E1 as (q1 & Hq1 & B1), E2 as (q2 & Hq2 & B2),
    E3 as (q3 & Hq3 & B3), E4 as (q4 & Hq4 & B4),
    E5 as (q5 & Hq5 & B5), E6 as (q6 & Hq6 & B6).
  apply between_false in B1, B3, B4, B5. apply Qltb_ge in B2, B6.
  split.
  - intros E. injection E as <-.
    split; [| reflexivity].
    repeat split.
    + exists q1. tauto.
    + exists q2. tauto.
    + exists q3. tauto.
    + exists q4. tauto.
    + exists q5. tauto.
    + exists q6. tauto.
  - intros (_ & ->). reflexivity.
Qed.

Lemma validated_fixed_point (s v : SettingsObject) :
  validateSettings s = Return v ->
  withinRanges v /\ booleansAreBooleans v /\ validateSettings v = Return v /\
  spread DEFAULT_DRIVER_REPORT_SETTINGS v = v.
Proof.
  intros H. apply validateSettings_Return in H. destruct H as [Hs ->].
  assert (Hv : withinRanges
                 {| rentalRatePercentage := rentalRatePercentage s;
                    tripLevyRate := tripLevyRate s;
                    gstRate := gstRate s;
                    photoUploadMaxSize := photoUploadMaxSize s;
                    requirePhotoForEFTPOS :=
                      Some (JsBoolean (Boolean (requirePhotoForEFTPOS s)));
                    requirePhotoForExpenses :=
                      Some (JsBoolean (Boolean (requirePhotoForExpenses s)));
                    autoApproveThreshold := autoApproveThreshold s;
                    notifyAdminsOnSubmission :=
                      Some (JsBoolean (Boolean (notifyAdminsOnSubmission s)));
                    retentionPeriodDays := retentionPeriodDays s;
                    allowReportEditsAfterSubmission :=
                      Some (JsBoolean
                              (Boolean (allowReportEditsAfterSubmission s)))
                 |}) by exact Hs.
  split; [exact Hv |].
  split; [repeat split; eexists; reflexivity |].
  split; [apply validateSettings_Return; split; [exact Hv | reflexivity] |].
  destruct Hs as ((q1 & E1 & _) & (q2 & E2 & _) & (q3 & E3 & _)
                  & (q4 & E4 & _) & (q5 & E5 & _) & (q6 & E6 & _)).
  unfold spread. cbn. rewrite E1, E2, E3, E4, E5, E6. reflexivity.
Qed.

(** X17.  [validateSettings] accepts a settings object exactly when its
    six numbers are numbers within their ranges.  The object it returns
    has the same numbers, has booleans for the four switches, and is
    accepted unchanged when it is validated again. *)
Theorem validated_settings_are_normal (s : SettingsObject) :
  match validateSettings s with
  | Return v =>
      withinRanges s /\
      withinRanges v /\
      booleansAreBooleans v /\
      rentalRatePercentage v = rentalRatePercentage s /\
      tripLevyRate v = tripLevyRate s /\
      gstRate v = gstRate s /\
      photoUploadMaxSize v = photoUploadMaxSize s /\
      retentionPeriodDays v = retentionPeriodDays s /\
      autoApproveThreshold v = autoApproveThreshold s /\
      validateSettings v = Return v
  | Throw _ => ~ withinRanges s
  end.
Proof.
  destruct (validateSettings s) as [v | message] eqn:E.
  - destruct (validated_fixed_point s v E) as (Hv & Hb & Hfix & _).
    apply validateSettings_Return in E. destruct E as [Hs ->].
    split; [exact Hs |]. split; [exact Hv |]. split; [exact Hb |].
    repeat (split; [reflexivity |]). exact Hfix.
  - intros Hs.
    assert (H : validateSettings s = Return
      {| rentalRatePercentage := rentalRatePercentage s;
         tripLevyRate := tripLevyRate s;
         gstRate := gstRate s;
         photoUploadMaxSize := photoUploadMaxSize s;
         requirePhotoForEFTPOS :=
           Some (JsBoolean (Boolean (requirePhotoForEFTPOS s)));
         requirePhotoForExpenses :=
           Some (JsBoolean (Boolean (requirePhotoForExpenses s)));
         autoApproveThreshold := autoApproveThreshold s;
         notifyAdminsOnSubmission :=
           Some (JsBoolean (Boolean (notifyAdminsOnSubmission s)));
         retentionPeriodDays := retentionPeriodDays s;
         allowReportEditsAfterSubmission :=
           Some (JsBoolean (Boolean (allowReportEditsAfterSubmission s))) |})
      by (apply validateSettings_Return; split; [exact Hs | reflexivity]).
    rewrite H in E. discriminate E.
Qed.

(** X18.  The settings that a successful update returns are the settings
    that are read afterwards; they are within the ranges, each number is
    the one of the request when the request has the key and the current
    one otherwise, and the calculation then runs with a rental rate
    between 0 and 100 and a trip levy that is not negative.  An update
    that throws leaves the stored settings as they were.  A reset always
    succeeds and the settings read afterwards are the defaults. *)
Theorem settings_update_round_trip (newSettings : SettingsObject)
    (updatedBy : nat) (store : Store) :
  match updateDriverReportSettings newSettings updatedBy store with
  | (store', Return s) =>
      getDriverReportSettings store' = s /\
      withinRanges s /\
      rentalRatePercentage s
      = rentalRatePercentage
          (spread (getDriverReportSettings store) newSettings) /\
      tripLevyRate s
      = tripLevyRate (spread (getDriverReportSettings store) newSettings) /\
      rentalRatePercentage s
      = Some (JsNumber (Reconciliation.rentalRatePercentage
                          (getCalculationSettings store'))) /\
      tripLevyRate s
      = Some (JsNumber (Reconciliation.tripLevyRate
                          (getCalculationSettings store'))) /\
      0 <= Reconciliation.rentalRatePercentage
             (getCalculationSettings store') <= 100 /\
      0 <= Reconciliation.tripLevyRate (getCalculationSettings store')
  | (store', Throw _) => store' = store
  end /\
  (resetToDefaults updatedBy store).2
  = Return DEFAULT_DRIVER_REPORT_SETTINGS /\
  getDriverReportSettings (resetToDefaults updatedBy store).1
  = DEFAULT_DRIVER_REPORT_SETTINGS.
Proof.
  split.
  - unfold updateDriverReportSettings.
    destruct (validateSettings
                (spread (getDriverReportSettings store) newSettings))
      as [v | message] eqn:E; [| reflexivity].
    destruct (validated_fixed_point _ v E) as (Hv & _ & _ & Hget).
    assert (E0 := E).
    apply validateSettings_Return in E. destruct E as [_ Ev].
    assert (E1 : rentalRatePercentage v
                 = rentalRatePercentage
                     (spread (getDriverReportSettings store) newSettings))
      by (rewrite Ev; reflexivity).
    assert (E2 : tripLevyRate v
                 = tripLevyRate
                     (spread (getDriverReportSettings store) newSettings))
      by (rewrite Ev; reflexivity).
    clear Ev.
    unfold getCalculationSettings.
    cbn [getDriverReportSettings value Reconciliation.rentalRatePercentage
           Reconciliation.tripLevyRate].
    rewrite Hget.
    destruct Hv as ((q1 & Q1 & L1 & U1) & (q2 & Q2 & L2 & _) & _).
    rewrite Q1, Q2.
    assert (Hv : withinRanges v).
    { destruct (validated_fixed_point _ v E0) as (H & _). exact H. }
    repeat split; try assumption; try congruence; apply Hv.
  - split; vm_compute; destruct store as [[v u] |]; reflexivity.
Qed.

End ReportSettingsFacts.

(** ** The life of a report *)

Section ReportLifecycleFacts.
Import Num Reconciliation DriverReports ReportLifecycle.

Lemma canEdit_draft (report : Report) :
  canEdit report = true -> status report = draft.
Proof. unfold canEdit. destruct (status report); congruence. Qed.

Lemma updateDriverReport_Saved (report r : Report) (u : UpdateData)
    (settings : Settings) :
  updateDriverReport (Some report) u settings = Saved r ->
  status report = draft /\ status r = draft /\
  reportId r = reportId report /\ driver r = driver report.
Proof.
  unfold updateDriverReport. intros H.
  destruct (canEdit report) eqn:Ec; cbn [negb] in H; [| discriminate H].
  apply canEdit_draft in Ec.
  match type of H with
  | (if ?c then _ else _) = _ => destruct c
  end.
  - destruct (calculateReportTotals _ _ _) as [c | m]; [| discriminate H].
    match type of H with
    | (if ?c then _ else _) = _ => destruct c
    end; [discriminate H |].
    injection H as <-. cbn. auto.
  - injection H as <-. cbn. auto.
Qed.

Lemma submitReport_Saved (report r : Report) (settings : Settings)
    (now : nat) :
  submitReport (Some report) settings now = Saved r ->
  status report = draft /\ status r = submitted /\
  reportId r = reportId report /\ driver r = driver report.
Proof.
  unfold submitReport. intros H.
  destruct (status report) eqn:Es; try discriminate H.
  match type of H with
  | (if ?c then _ else _) = _ => destruct c
  end; [discriminate H |].
  destruct (calculateReportTotals _ _ _) as [c | m]; [| discriminate H].
  match type of H with
  | (if ?c then _ else _) = _ => destruct c
  end; [discriminate H |].
  injection H as <-. cbn. auto.
Qed.

Lemma updateReportPhotoUrl_Saved (report r : Report)
    (photoType photoUrl : option string) :
  updateReportPhotoUrl (Some report) photoType photoUrl = Saved r ->
  status report = draft /\ status r = draft /\
  reportId r = reportId report /\ driver r = driver report.
Proof.
  unfold updateReportPhotoUrl. intros H.
  destruct photoType as [pt |], photoUrl as [pu |]; try discriminate H.
  repeat match type of H with
         | (if negb (canEdit report) then _ else _) = _ => fail 1
         | (if ?c then _ else _) = _ => destruct c; [discriminate H |]
         end.
  destruct (canEdit report) eqn:Ec; cbn [negb] in H; [| discriminate H].
  apply canEdit_draft in Ec.
  repeat match type of H with
         | (if ?c then _ else _) = _ => destruct c
         end; injection H as <-; cbn; auto.
Qed.

Lemma reviewReport_Reviewed (report r : Report) (action notes : option string)
    (user now : nat) (review : Review) :
  reviewReport (Some report) action notes user now = Reviewed r review ->
  status report = submitted /\
  (r = setStatus approved report \/ r = setStatus rejected report).
Proof.
  unfold reviewReport. intros H.
  match type of H with
  | (if ?c then _ else _) = _ => destruct c; [discriminate H |]
  end.
  destruct (status report) eqn:Es; try discriminate H.
  injection H as <- _. split; [reflexivity |].
  match goal with
  | |- context [if ?c then _ else _] => destruct c
  end; auto.
Qed.

Lemma deleteReport_Deleted (report : Report) (photos : list string) :
  deleteReport (Some report) = Deleted photos -> status report = draft.
Proof.
  unfold deleteReport. destruct (status report); congruence.
Qed.

(** X19.  The life of a report.  Of the requests on a stored report
    (edit, submit, photo, review, delete), those that write it keep its
    id and its driver.  A draft stays a draft, unless a submission makes
    it submitted or a deletion removes it; a submitted report is written
    by a review only, which changes nothing but the status, to approved
    or rejected; a report that is approved, rejected or archived is
    neither written nor removed. *)
Theorem report_lifecycle (req : ReportRequest) (report : Report)
    (settings : Settings) (user now : nat) :
  match effectOf req (Some report) settings user now with
  | Untouched => True
  | Written r =>
      reportId r = reportId report /\
      driver r = driver report /\
      (status report = draft /\
       (status r = draft \/
        req = POST_report_submit /\ status r = submitted)
       \/
       status report = submitted /\
       (exists action notes, req = PUT_report_review action notes) /\
       (r = setStatus approved report \/ r = setStatus rejected report))
  | Removed => req = DELETE_report /\ status report = draft
  end /\
  (status report = draft \/ status report = submitted \/
   effectOf req (Some report) settings user now = Untouched).
Proof.
  destruct req as [u | | pt pu | action notes |]; cbn [effectOf].
  - destruct (updateDriverReport _ _ _) as [h c | m | r] eqn:E; auto.
    apply updateDriverReport_Saved in E. intuition.
  - destruct (submitReport _ _ _) as [h c | m | r] eqn:E; auto.
    apply submitReport_Saved in E. intuition.
  - destruct (updateReportPhotoUrl _ _ _) as [h c | m | r] eqn:E; auto.
    apply updateReportPhotoUrl_Saved in E. intuition.
  - destruct (reviewReport _ _ _ _ _) as [h c | r review] eqn:E; auto.
    apply reviewReport_Reviewed in E. destruct E as [Es Hr].
    split; [| auto].
    assert (Hid : reportId r = reportId report /\ driver r = driver report)
      by (destruct Hr as [-> | ->]; split; reflexivity).
    destruct Hid as [H1 H2].
    split; [exact H1 |]. split; [exact H2 |].
    right. split; [exact Es |]. split; [eauto | exact Hr].
  - destruct (deleteReport _) as [h c | photos] eqn:E; auto.
    apply deleteReport_Deleted in E. auto.
Qed.

End ReportLifecycleFacts.

(** ** The GST divisor *)

Section GstFacts.
Import Num SettingsController.


End GstFacts.

(** ** Rounding is stable *)

Section RoundingStable.
Import Num.



End RoundingStable.

(** ** The end-meter photo and the submission *)

Section PhotoThenSubmit.
Import Num Reconciliation DriverReports ReportLifecycle ReportExamples.

Lemma truthy_string_Some (s : string) :
  truthy_string (Some s) = negb (String.eqb s "").
Proof. reflexivity. Qed.



End PhotoThenSubmit.

(** ** The schema of the settings and their validation *)

Section SettingsSchemaFacts.
Import Num ReportSettings.

Lemma numberIn_weaken (v : option JsValue) (lo hi : Q) :
  numberIn v lo (Some hi) -> numberIn v lo None.
Proof. intros (q & E & H & _). exists q. repeat split; assumption. Qed.

(** X23.  The schema that is shown to the front end and the validation
    agree in one direction.  A settings object whose ten values conform
    to [getSettingsSchema()] is accepted by [validateSettings] and
    returned unchanged, and the defaults are such an object.  The
    validation accepts more than the schema: it has no upper bound for the
    trip levy and for the auto-approve threshold, whatever the other
    values are. *)
Theorem schema_conformance_implies_validation :
  (forall s : SettingsObject,
     conformsTo getSettingsSchema s -> validateSettings s = Return s) /\
  conformsTo getSettingsSchema DEFAULT_DRIVER_REPORT_SETTINGS /\
  (forall (s : SettingsObject) (levy threshold : Q),
     conformsTo getSettingsSchema s -> 0 <= levy -> 0 <= threshold ->
     exists v,
       validateSettings
         {| rentalRatePercentage := rentalRatePercentage s;
            tripLevyRate := Some (JsNumber levy);
            gstRate := gstRate s;
            photoUploadMaxSize := photoUploadMaxSize s;
            requirePhotoForEFTPOS := requirePhotoForEFTPOS s;
            requirePhotoForExpenses := requirePhotoForExpenses s;
            autoApproveThreshold := Some (JsNumber threshold);
            notifyAdminsOnSubmission := notifyAdminsOnSubmission s;
            retentionPeriodDays := retentionPeriodDays s;
            allowReportEditsAfterSubmission :=
              allowReportEditsAfterSubmission s |} = Return v /\
       tripLevyRate v = Some (JsNumber levy) /\
       autoApproveThreshold v = Some (JsNumber threshold)).
Proof.
  split; [| split].
  - intros s (H1 & H2 & H3 & H4 & (b5 & H5) & (b6 & H6) & H7 & (b8 & H8)
              & H9 & (b10 & H10)).
    cbn [conforms getSettingsSchema s_rentalRatePercentage s_tripLevyRate
           s_gstRate s_photoUploadMaxSize s_autoApproveThreshold
           s_retentionPeriodDays] in *.
    apply validateSettings_Return. split.
    + repeat split; try assumption;
        eapply numberIn_weaken; eassumption.
    + rewrite H5, H6, H8, H10. cbn [Boolean].
      destruct s; cbn in *. subst. reflexivity.
  - cbn. unfold numberIn, isBoolean.
    repeat split; eexists; try reflexivity;
      (split; [reflexivity |]); split; unfold Qle; cbn; lia.
  - intros s levy threshold
           (H1 & H2 & H3 & H4 & (b5 & H5) & (b6 & H6) & H7 & (b8 & H8)
            & H9 & (b10 & H10)) Hl Ht.
    cbn [conforms getSettingsSchema s_rentalRatePercentage s_tripLevyRate
           s_gstRate s_photoUploadMaxSize s_autoApproveThreshold
           s_retentionPeriodDays] in *.
    eexists. split.
    + apply validateSettings_Return. split; [| reflexivity].
      cbn. repeat split; try assumption.
      * exists levy. repeat split. exact Hl.
      * exists threshold. repeat split. exact Ht.
    + split; reflexivity.
Qed.

(** X23 at a concrete object: the defaults with a trip levy of 11, which
    the schema does not allow. *)
Lemma a_trip_levy_of_11_is_accepted :
  exists v,
    validateSettings
      {| rentalRatePercentage := Some (JsNumber 45);
         tripLevyRate := Some (JsNumber 11);
         gstRate := Some (JsNumber 10);
         photoUploadMaxSize := Some (JsNumber 5);
         requirePhotoForEFTPOS := Some (JsBoolean true);
         requirePhotoForExpenses := Some (JsBoolean true);
         autoApproveThreshold := Some (JsNumber 0);
         notifyAdminsOnSubmission := Some (JsBoolean true);
         retentionPeriodDays := Some (JsNumber 2555);
         allowReportEditsAfterSubmission := Some (JsBoolean false) |}
    = Return v /\
    tripLevyRate v = Some (JsNumber 11).
Proof.
  destruct schema_conformance_implies_validation as (_ & Hd & H).
  destruct (H DEFAULT_DRIVER_REPORT_SETTINGS 11 0 Hd)
    as (v & Hv & Hl & _).
  - unfold Qle. cbn. lia.
  - unfold Qle. cbn. lia.
  - exists v. split; [exact Hv | exact Hl].
Defined.

End SettingsSchemaFacts.
